(** * CODA bank-statement decoder: embedding of [src/index.ts] and its
    helpers [utils/match.ts] and [utils/string-stream.ts].

    Conventions of the embedding.

    - A JavaScript string is a [string]; every [ascii] stands for one code
      unit, so the model covers inputs in the Latin-1 range, where a column
      of the fixed-width format is one character.  The few descriptions of
      the source that hold a dash beyond Latin-1 are kept as written.
    - A JavaScript number is an exact rational, extended with [NaN] and the
      two infinities.  Rounding to binary64 and the sign of zero are not
      represented: the fields of the format have at most 15 decimal digits,
      which binary64 holds exactly, and a quotient by a power of ten stands
      for the correctly rounded quotient the engine computes.
    - A [Date] object is represented by the argument its constructor
      received; the time value is a function of that text (and, for texts
      outside the ISO layout, of the host's time zone).
    - [new Date().getFullYear()] is the explicit parameter [now].
    - An object is an association list in insertion order, as
      [Object.assign], the spread syntax and [delete] see it.  Accessor
      properties ([get ..._description()]) are the functions named after
      them, applied to the stored code.
    - A thrown [Error] is the [Err] branch of [result]. *)

From Stdlib Require Import String Ascii List ZArith QArith Qreduction Bool Lia.
From Stdlib Require Import DecimalString FunctionalExtensionality.
Import ListNotations.

Set Warnings "-register-all".

Local Close Scope Q_scope.
Local Open Scope string_scope.
Local Open Scope list_scope.

(** ** Errors and the error monad *)

Inductive error : Type :=
| UnknownRecordType                         (* 'Unknown record type' *)
| UnknownDateFormat (input : string)        (* `Unknown date format: ${input}` *)
| UnknownStructuredCommunicationType        (* detail side, inner switch *)
| UnknownCommunicationType                  (* detail side, outer switch *)
| UnknownStructuredMovementCommunicationType (* movement side, inner switch *)
| UnknownMovementCommunicationType          (* movement side, outer switch *)
| NoHandlerDefined (key : string)           (* thrown by [match] *)
| TypeError (what : string).                (* member access on [undefined] *)

Inductive result (A : Type) : Type :=
| Ok (a : A)
| Err (e : error).

Arguments Ok {A} a.
Arguments Err {A} e.

Definition bind {A B : Type} (r : result A) (k : A -> result B) : result B :=
  match r with
  | Ok a => k a
  | Err e => Err e
  end.

Notation "x <- c1 ;; c2" := (bind c1 (fun x => c2))
  (at level 61, c1 at next level, right associativity).

Definition is_ok {A : Type} (r : result A) : bool :=
  match r with Ok _ => true | Err _ => false end.

(** ** Strings *)

(** White space as [String.prototype.trim] and the regular-expression class
    [\s] see it, within the Latin-1 range: TAB, LF, VT, FF, CR, SP, NBSP. *)
Definition is_space (c : ascii) : bool :=
  let n := nat_of_ascii c in
  (((9 <=? n) && (n <=? 13)) || (n =? 32) || (n =? 160))%nat.

Fixpoint trimStart (s : string) : string :=
  match s with
  | EmptyString => EmptyString
  | String c s' => if is_space c then trimStart s' else s
  end.

Fixpoint trimEnd (s : string) : string :=
  match s with
  | EmptyString => EmptyString
  | String c s' =>
      match trimEnd s' with
      | EmptyString => if is_space c then EmptyString else String c EmptyString
      | t => String c t
      end
  end.

Definition trim (s : string) : string := trimEnd (trimStart s).

(** [s.slice(a, b)] for constant bounds [0 <= a <= b]: both ends are clamped
    to the length of [s]. *)
Definition slice (a b : nat) (s : string) : string := substring a (b - a) s.

(** [s.startsWith(p)] *)
Definition startsWith (p s : string) : bool := prefix p s.

(** [s.split('\n')]: never empty, [''.split('\n')] is [['']]. *)
Fixpoint split_lines (s : string) : list string :=
  match s with
  | EmptyString => [EmptyString]
  | String c s' =>
      if Ascii.eqb c "010"%char then EmptyString :: split_lines s'
      else match split_lines s' with
           | [] => [String c EmptyString]
           | l :: ls => String c l :: ls
           end
  end.

(** [s.replace(/\s{2,}/g, ' ')]: every maximal run of two or more white-space
    characters becomes one space; a single white-space character stays as it
    is.  [skip_spaces] drops the rest of a run. *)
Fixpoint skip_spaces (s : string) : string :=
  match s with
  | String c s' => if is_space c then skip_spaces s' else s
  | EmptyString => EmptyString
  end.

Fixpoint collapse_fuel (fuel : nat) (s : string) : string :=
  match fuel with
  | O => s
  | S fuel' =>
      match s with
      | EmptyString => EmptyString
      | String c EmptyString => s
      | String c (String d s') =>
          if is_space c && is_space d
          then String " " (collapse_fuel fuel' (skip_spaces s'))
          else String c (collapse_fuel fuel' (String d s'))
      end
  end.

Definition collapse_spaces (s : string) : string :=
  collapse_fuel (String.length s) s.

(** [s.trim().replace(/\s{2,}/g, ' ')], the normalisation of texts. *)
Definition normalise (s : string) : string := collapse_spaces (trim s).

(** [s.split(/\s+/g)]: the pieces between maximal white-space runs. *)
Fixpoint split_spaces_fuel (fuel : nat) (s : string) : list string :=
  match fuel with
  | O => [s]
  | S fuel' =>
      match s with
      | EmptyString => [EmptyString]
      | String c s' =>
          if is_space c
          then EmptyString :: split_spaces_fuel fuel' (skip_spaces s')
          else match split_spaces_fuel fuel' s' with
               | [] => [String c EmptyString]
               | p :: ps => String c p :: ps
               end
      end
  end.

Definition split_spaces (s : string) : list string :=
  split_spaces_fuel (String.length s) s.

(** [parts.join('\n')] *)
Definition join_lines (parts : list string) : string :=
  String.concat (String "010" EmptyString) parts.

(** ** Numbers *)

Inductive number : Type :=
| NaN
| Infinity (negative : bool)
| Fin (q : Q).

Definition num_of_Z (z : Z) : number := Fin (z # 1).

Definition Qneg (q : Q) : bool := (Qnum q <? 0)%Z.
Definition Qzero (q : Q) : bool := (Qnum q =? 0)%Z.

(** [a * b] *)
Definition num_mul (a b : number) : number :=
  match a, b with
  | NaN, _ | _, NaN => NaN
  | Fin x, Fin y => Fin (Qred (x * y)%Q)
  | Infinity s, Fin y | Fin y, Infinity s =>
      if Qzero y then NaN else Infinity (xorb s (Qneg y))
  | Infinity s, Infinity t => Infinity (xorb s t)
  end.

(** [a / b] *)
Definition num_div (a b : number) : number :=
  match a, b with
  | NaN, _ | _, NaN => NaN
  | Fin x, Fin y =>
      if Qzero y then (if Qzero x then NaN else Infinity (Qneg x))
      else Fin (Qred (x / y)%Q)
  | Infinity s, Fin y => Infinity (xorb s (Qneg y))
  | Fin _, Infinity _ => Fin 0%Q
  | Infinity _, Infinity _ => NaN
  end.

(** [StringToNumber]: the text is trimmed; the empty text is 0; otherwise it
    must be, as a whole, [Infinity] with an optional sign, a binary, octal or
    hexadecimal integer literal, or a decimal literal with optional sign,
    fraction and exponent.  Anything else is [NaN]. *)
Definition digit_val (base : N) (c : ascii) : option N :=
  let n := N_of_ascii c in
  let d := if ((48 <=? n) && (n <=? 57))%N then Some (n - 48)%N
           else if ((97 <=? n) && (n <=? 102))%N then Some (n - 87)%N
           else if ((65 <=? n) && (n <=? 70))%N then Some (n - 55)%N
           else None in
  match d with
  | Some v => if (v <? base)%N then Some v else None
  | None => None
  end.

(** Reads the longest run of digits in [base]: value, digit count, rest. *)
Fixpoint read_digits (base : N) (s : string) (acc : N) (count : nat)
  : N * nat * string :=
  match s with
  | EmptyString => (acc, count, s)
  | String c s' =>
      match digit_val base c with
      | Some v => read_digits base s' (acc * base + v)%N (S count)
      | None => (acc, count, s)
      end
  end.

Definition read_sign (s : string) : bool * string :=
  match s with
  | String c s' =>
      if Ascii.eqb c "+" then (false, s')
      else if Ascii.eqb c "-" then (true, s')
      else (false, s)
  | EmptyString => (false, s)
  end.

Definition radix_literal (base : N) (s : string) : number :=
  match read_digits base s 0%N 0 with
  | (v, S _, EmptyString) => num_of_Z (Z.of_N v)
  | _ => NaN
  end.

(** mantissa [m] with [f] fraction digits and decimal exponent [e] *)
Definition scale10 (negative : bool) (m : N) (f : nat) (e : Z) : number :=
  let z := if negative then (- Z.of_N m)%Z else Z.of_N m in
  let k := (e - Z.of_nat f)%Z in
  if (0 <=? k)%Z then Fin (Qred ((z * 10 ^ k)%Z # 1))
  else Fin (Qred (z # Z.to_pos (10 ^ (- k))%Z)).

Definition read_exponent (s : string) : option Z :=
  match s with
  | EmptyString => Some 0%Z
  | String c s' =>
      if Ascii.eqb c "e" || Ascii.eqb c "E" then
        let (neg, s'') := read_sign s' in
        match read_digits 10 s'' 0%N 0 with
        | (v, S _, EmptyString) =>
            Some (if neg then (- Z.of_N v)%Z else Z.of_N v)
        | _ => None
        end
      else None
  end.

Definition decimal_literal (s : string) : number :=
  let (neg, s1) := read_sign s in
  if String.eqb s1 "Infinity" then Infinity neg else
  let '(i, ci, s2) := read_digits 10 s1 0%N 0 in
  let '(m, cf, s3) :=
    match s2 with
    | String "." s2' =>
        let '(m, c, s3) := read_digits 10 s2' i 0 in (m, c, s3)
    | _ => (i, 0, s2)
    end in
  match (ci + cf)%nat with
  | O => NaN
  | S _ =>
      match read_exponent s3 with
      | Some e => scale10 neg m cf e
      | None => NaN
      end
  end.

(** The prefix of a binary, octal or hexadecimal literal: the base and the
    digits that follow. *)
Definition radix_of (t : string) : option (N * string) :=
  match t with
  | String z (String c rest) =>
      if Ascii.eqb z "0" then
        if Ascii.eqb c "x" || Ascii.eqb c "X" then Some (16%N, rest)
        else if Ascii.eqb c "o" || Ascii.eqb c "O" then Some (8%N, rest)
        else if Ascii.eqb c "b" || Ascii.eqb c "B" then Some (2%N, rest)
        else None
      else None
  | _ => None
  end.

Definition string_to_number (s : string) : number :=
  match trim s with
  | EmptyString => num_of_Z 0
  | t =>
      match radix_of t with
      | Some (base, digits) => radix_literal base digits
      | None => decimal_literal t
      end
  end.

(** ** Values and objects *)

Inductive value : Type :=
| VUndefined
| VNull
| VBool (b : bool)
| VNum (n : number)
| VStr (s : string)
| VDate (arg : string)                     (* [new Date(arg)] *)
| VObj (props : list (string * value))
| VArr (items : list value).

Definition object : Type := list (string * value).

(** [o[k]]: [undefined] when the property is absent. *)
Fixpoint get (k : string) (o : object) : value :=
  match o with
  | [] => VUndefined
  | (k', v) :: o' => if String.eqb k k' then v else get k o'
  end.

(** [o[k] = v]: an existing property keeps its place, a new one goes last. *)
Fixpoint set (k : string) (v : value) (o : object) : object :=
  match o with
  | [] => [(k, v)]
  | (k', v') :: o' =>
      if String.eqb k k' then (k, v) :: o' else (k', v') :: set k v o'
  end.

(** [delete o[k]] *)
Fixpoint delete (k : string) (o : object) : object :=
  match o with
  | [] => []
  | (k', v) :: o' =>
      if String.eqb k k' then delete k o' else (k', v) :: delete k o'
  end.

(** [Object.assign(target, source)], also the spread [{...target, ...source}] *)
Definition assign (target source : object) : object :=
  fold_left (fun t kv => set (fst kv) (snd kv) t) source target.

(** [a === b] on primitive values.  Objects, arrays and dates compare by
    identity in JavaScript; the decoder never compares them, and the model
    answers [false]. *)
Definition strict_eq (a b : value) : bool :=
  match a, b with
  | VUndefined, VUndefined => true
  | VNull, VNull => true
  | VBool x, VBool y => Bool.eqb x y
  | VStr x, VStr y => String.eqb x y
  | VNum (Fin x), VNum (Fin y) => Qeq_bool x y
  | VNum (Infinity s), VNum (Infinity t) => Bool.eqb s t
  | _, _ => false
  end.

(** [s[i]]: a one-character string, or [undefined] past the end. *)
Definition char_at (s : string) (i : nat) : value :=
  match String.get i s with
  | Some c => VStr (String c EmptyString)
  | None => VUndefined
  end.

(** [Number(v)] *)
Definition Number (v : value) : number :=
  match v with
  | VStr s => string_to_number s
  | VNum n => n
  | VNull => num_of_Z 0
  | VBool b => num_of_Z (if b then 1 else 0)
  | _ => NaN
  end.

(** [a + b] where the operands are the texts of two records ([undefined]
    and [null] are spelled out as the language does). *)
Definition text_of (v : value) : string :=
  match v with
  | VStr s => s
  | VUndefined => "undefined"
  | VNull => "null"
  | VBool true => "true"
  | VBool false => "false"
  | _ => EmptyString
  end.

Definition concat_text (a b : value) : value := VStr (text_of a ++ text_of b).

(** ** [utils/match.ts] *)

(** The property key a value is looked up under. *)
Definition key_of (v : value) : string := text_of v.

Fixpoint own_property {R : Type} (k : string) (lookup : list (string * R))
  : option R :=
  match lookup with
  | [] => None
  | (k', r) :: rest => if String.eqb k k' then Some r else own_property k rest
  end.

(** [match(value, lookup)]: the handler stored under [value] when there is
    one, else the handler under the wildcard [__] when the table has one,
    else an error.  Every table below lists each key once.  [value in lookup]
    also answers for the members inherited from [Object.prototype]
    ([constructor], [toString], ...); their names have seven characters or
    more, while the decoder looks up fields of at most three characters, the
    text [undefined] and numbers, so the model tests own keys only. *)
Definition match_ {R : Type} (v : value) (lookup : list (string * R))
    (wildcard : option R) : result R :=
  match own_property (key_of v) lookup with
  | Some r => Ok r
  | None =>
      match wildcard with
      | Some r => Ok r
      | None => Err (NoHandlerDefined (key_of v))
      end
  end.

(** [match(n, lookup)] for a table whose keys are written as integers: the
    key of a number is its decimal rendering, which is that of an integer
    key exactly when the number equals it. *)
Fixpoint own_index {R : Type} (n : number) (lookup : list (Z * R))
  : option R :=
  match lookup with
  | [] => None
  | (k, r) :: rest =>
      if strict_eq (VNum n) (VNum (num_of_Z k)) then Some r
      else own_index n rest
  end.

Definition match_number {R : Type} (n : number) (lookup : list (Z * R))
    (wildcard : option R) : result R :=
  match own_index n lookup with
  | Some r => Ok r
  | None =>
      match wildcard with
      | Some r => Ok r
      | None => Err (NoHandlerDefined "number")
      end
  end.

(** [enum Sign], [Duplicate], [UnknownDate] *)
Definition Sign_Credit : string := "0".
Definition Sign_Debit : string := "1".
Definition Duplicate : string := "D".
Definition UnknownDate : string := "000000".

Definition unknown : string := "<Unknown>".

(** [match(sign, { [Sign.Credit]: 1, [Sign.Debit]: -1 })] *)
Definition sign_factor (sign : value) : result number :=
  match_ sign [(Sign_Credit, num_of_Z 1); (Sign_Debit, num_of_Z (-1))] None.

(** ** [utils/string-stream.ts] *)

Record StringStream : Type := mkStream { str : string; pos : nat }.

Definition new_StringStream (s : string) : StringStream := mkStream s 0.

(** A computation that reads from the stream and may throw. *)
Definition reader (A : Type) : Type := StringStream -> result (A * StringStream).

Definition rret {A : Type} (a : A) : reader A := fun st => Ok (a, st).

Definition rbind {A B : Type} (r : reader A) (k : A -> reader B) : reader B :=
  fun st => match r st with
            | Ok (a, st') => k a st'
            | Err e => Err e
            end.

Definition lift {A : Type} (r : result A) : reader A :=
  fun st => match r with Ok a => Ok (a, st) | Err e => Err e end.

Notation "x <~ c1 ;; c2" := (rbind c1 (fun x => c2))
  (at level 61, c1 at next level, right associativity).

(** [stream.take(n)] *)
Definition take (n : nat) : reader string :=
  fun st => Ok (slice (pos st) (pos st + n) (str st),
                mkStream (str st) (pos st + n)).

(** [stream.skip(n)]; the source chains it: [stream.skip(k).take(n)]. *)
Definition skip (n : nat) : reader unit :=
  fun st => Ok (tt, mkStream (str st) (pos st + n)).

Definition skip_take (k n : nat) : reader string :=
  _ <~ skip k ;; take n.

Definition rmap {A B : Type} (f : A -> B) (r : reader A) : reader B :=
  a <~ r ;; rret (f a).

(** Runs a reader over a fresh stream on [s]. *)
Definition run {A : Type} (r : reader A) (s : string) : result A :=
  match r (new_StringStream s) with
  | Ok (a, _) => Ok a
  | Err e => Err e
  end.

(** An object literal whose property values read from the stream, evaluated
    in the order they are written. *)
Fixpoint literal (fields : list (string * reader value)) : reader object :=
  match fields with
  | [] => rret []
  | (k, r) :: rest =>
      v <~ r ;; o <~ literal rest ;; rret ((k, v) :: o)
  end.

Definition object_of (fields : list (string * reader value)) : reader value :=
  rmap VObj (literal fields).

(** An object literal whose property values may throw but read no stream. *)
Fixpoint record (fields : list (string * result value)) : result object :=
  match fields with
  | [] => Ok []
  | (k, r) :: rest =>
      v <- r ;; o <- record rest ;; Ok ((k, v) :: o)
  end.

(** ** Dates *)

(** [x | 0] for a quotient [x]: truncation towards zero, then wrap-around to
    a signed 32-bit integer. *)
Definition to_int32 (z : Z) : Z :=
  let m := (z mod 2 ^ 32)%Z in
  if (m <? 2 ^ 31)%Z then m else (m - 2 ^ 32)%Z.

(** [(new Date().getFullYear() / 100) | 0], rendered by a template literal *)
Definition century (now : Z) : string :=
  NilZero.string_of_int (Z.to_int (to_int32 (Z.quot now 100))).

Definition parseDate (now : Z) (input : string) : result value :=
  match String.length input with
  | 6 =>
      run (day <~ take 2 ;; month <~ take 2 ;; year <~ take 2 ;;
           rret (VDate (century now ++ year ++ "-" ++ month ++ "-" ++ day)))
          input
  | 8 =>
      run (day <~ take 2 ;; month <~ take 2 ;; year <~ take 4 ;;
           rret (VDate (year ++ "-" ++ month ++ "-" ++ day)))
          input
  | 10 =>
      run (day <~ take 2 ;; month <~ take 2 ;; year <~ take 2 ;;
           hour <~ take 2 ;; minute <~ take 2 ;;
           rret (VDate (year ++ "-" ++ month ++ "-" ++ day ++ " "
                        ++ hour ++ ":" ++ minute ++ ":00")))
          input
  | _ => Err (UnknownDateFormat input)
  end.

(** ** Record decoders *)

(** Shorthands for the expressions the decoders are made of. *)
Definition text (s : string) : result value := Ok (VStr s).
Definition num (n : number) : result value := Ok (VNum n).

(** [stream.take(n)], [stream.take(n).trim()],
    [stream.take(n).trim().replace(/\s{2,}/g, ' ')] *)
Definition raw (n : nat) : reader value := rmap VStr (take n).
Definition trimmed (n : nat) : reader value :=
  rmap (fun s => VStr (trim s)) (take n).
Definition tidied (n : nat) : reader value :=
  rmap (fun s => VStr (normalise s)) (take n).

(** [Number(stream.take(n).trim())] and the same divided by [d] *)
Definition integer (n : nat) : reader value :=
  rmap (fun s => VNum (Number (VStr (trim s)))) (take n).
Definition scaled (n : nat) (d : Z) : reader value :=
  rmap (fun s => VNum (num_div (Number (VStr (trim s))) (num_of_Z d))) (take n).

(** [parseDate(stream.take(n).trim())] *)
Definition dated (now : Z) (n : nat) : reader value :=
  s <~ take n ;; lift (parseDate now (trim s)).

(** [stream.take(1).trim() === '1'] *)
Definition flagged : reader value :=
  rmap (fun s => VBool (strict_eq (VStr (trim s)) (VStr "1"))) (take 1).

(** Header record 0 *)
Definition parseHeader (now : Z) : reader value :=
  object_of
    [("record_identification", raw 1);
     ("date", s <~ skip_take 4 6 ;; lift (parseDate now s));
     ("bank_identification_number", raw 3);
     ("application_code", raw 2);
     ("duplicate",
        rmap (fun s => VBool (strict_eq (VStr s) (VStr Duplicate))) (take 1));
     ("file_reference", rmap VStr (skip_take 7 10));
     ("account",
        object_of
          [("name", trimmed 26);
           ("bic", trimmed 11);
           ("identification_number", raw 11)]);
     ("external_application_code", rmap VStr (skip_take 1 5));
     ("transaction_reference", trimmed 16);
     ("related_reference", trimmed 16);
     ("version", rmap (fun s => VNum (Number (VStr s))) (skip_take 7 1))].

(** [parseAccount]: the result is [None] where the [switch] falls through
    and the function returns [undefined]. *)
Definition parseAccount (structure : number) (line : string)
  : result (option object) :=
  let case k := strict_eq (VNum structure) (VNum (num_of_Z k)) in
  if case 0%Z then
    run (o <~ literal
           [("type", rret (VNum structure));
            ("type_description", rret (VStr "Belgian account number"));
            ("number", trimmed 12);
            ("currency", rmap (fun s => VStr (trim s)) (skip_take 1 3));
            ("qualification_code", trimmed 1);
            ("country", trimmed 2);
            ("extension_zone", rmap (fun s => VStr (trim s)) (skip_take 3 15))] ;;
         rret (Some o)) line
  else if case 1%Z then
    run (o <~ literal
           [("type", rret (VNum structure));
            ("type_description", rret (VStr "Foreign account number"));
            ("number", trimmed 34);
            ("currency", trimmed 3)] ;;
         rret (Some o)) line
  else if case 2%Z then
    run (o <~ literal
           [("type", rret (VNum structure));
            ("type_description",
               rret (VStr "IBAN of the Belgian account number"));
            ("number", trimmed 31);
            ("currency", rmap (fun s => VStr (trim s)) (skip_take 3 3))] ;;
         rret (Some o)) line
  else if case 3%Z then
    run (o <~ literal
           [("type", rret (VNum structure));
            ("type_description",
               rret (VStr "IBAN of the foreign account number"));
            ("number", trimmed 34);
            ("currency", trimmed 3)] ;;
         rret (Some o)) line
  else Ok None.

(** [{ ...before, ...parseAccount(structure, line) }]: spreading [undefined]
    adds nothing. *)
Definition spread_account (before : object) (structure : number)
    (line : string) : result value :=
  a <- parseAccount structure line ;;
  Ok (VObj (match a with Some o => assign before o | None => before end)).

(** [parseTransactionCode]; its three accessors follow the code books. *)
Definition parseTransactionCode (input : string) : result value :=
  run (object_of
         [("type", raw 1);
          ("family", raw 2);
          ("transaction", raw 2);
          ("category", raw 3)]) input.

(** Data record 1, old balance *)
Definition parseOldBalance (now : Z) (line : string) : result value :=
  o <- record
    [("record_identification", Ok (char_at line 0));
     ("account",
        spread_account
          [("name", VStr (trim (slice 64 90 line)));
           ("description", VStr (trim (slice 90 125 line)))]
          (Number (char_at line 1)) (slice 5 42 line));
     ("sequence_number", text (slice 2 5 line));
     ("balance",
        f <- sign_factor (char_at line 42) ;;
        num (num_mul (Number (VStr (slice 43 58 line))) f));
     ("date", parseDate now (slice 58 64 line));
     ("coda_sequence_number", text (slice 125 128 line))] ;;
  Ok (VObj o).

(** [match(flag, { '0': 'unstructured', '1': 'structured' })] *)
Definition communication_type_of (flag : value) : result value :=
  match_ flag [("0", VStr "unstructured"); ("1", VStr "structured")] None.

(** [(a, b) / 1_000] with [a] and [b] the same product: the comma operator
    keeps the second operand. *)
Definition movement_amount (line : string) : number :=
  let factor := if strict_eq (char_at line 31) (VStr Sign_Credit)
                then num_of_Z 1 else num_of_Z (-1) in
  num_div (num_mul (Number (VStr (slice 32 47 line))) factor) (num_of_Z 1000).

(** Data record 2.1 *)
Definition parseMovement21 (now : Z) (line : string) : result object :=
  record
    [("record_identification", Ok (char_at line 0));
     ("article_code", Ok (char_at line 1));
     ("sequence", text (slice 2 6 line));
     ("detail_sequence", text (slice 6 10 line));
     ("reference_number", text (trim (slice 10 31 line)));
     ("amount", num (movement_amount line));
     ("value_date",
        if strict_eq (VStr (slice 47 53 line)) (VStr UnknownDate)
        then Ok VNull else parseDate now (slice 47 53 line));
     ("transaction_code", parseTransactionCode (slice 53 61 line));
     ("communication_type", communication_type_of (char_at line 61));
     ("communication", text (slice 62 115 line));
     ("entry_date", parseDate now (slice 115 121 line));
     ("sequence_number", text (slice 121 124 line));
     ("globalisation_code", Ok (char_at line 124));
     ("next_code", Ok (char_at line 125));
     ("link_code", Ok (char_at line 127))].

(** [line[112].trim()]: a member access on [undefined] when the line is
    too short. *)
Definition trim_char (line : string) (i : nat) : result value :=
  match char_at line i with
  | VStr c => Ok (VStr (trim c))
  | _ => Err (TypeError "trim")
  end.

(** Data record 2.2 *)
Definition parseMovement22 (line : string) : result object :=
  record
    [("record_identification", Ok (char_at line 0));
     ("article_code", Ok (char_at line 1));
     ("sequence_number", text (slice 2 6 line));
     ("detail_sequence", text (slice 6 10 line));
     ("communication", text (slice 10 63 line));
     ("customer_reference", text (trim (slice 63 98 line)));
     ("bic", text (trim (slice 98 109 line)));
     ("r_transaction_type", trim_char line 112);
     ("r_reason", text (trim (slice 113 117 line)));
     ("category_purpose", text (trim (slice 117 121 line)));
     ("purpose", text (trim (slice 121 125 line)));
     ("next_code", Ok (char_at line 125));
     ("link_code", Ok (char_at line 127))].

(** Data record 2.3.  The destructuring
    [let [accountNumber = '', accountCurrency = ''] = ...split(/\s+/g)]
    takes the first two pieces, an absent one being the empty text. *)
Definition parseMovement23 (line : string) : result object :=
  let pieces := split_spaces (trim (slice 10 47 line)) in
  let accountNumber := nth 0 pieces EmptyString in
  let accountCurrency := nth 1 pieces EmptyString in
  record
    [("record_identification", Ok (char_at line 0));
     ("article_code", Ok (char_at line 1));
     ("sequence", text (slice 2 6 line));
     ("detail_sequence", text (slice 6 10 line));
     ("counterparty",
        Ok (VObj
              [("account",
                  VObj [("number", VStr accountNumber);
                        ("currency", VStr accountCurrency)]);
               ("name", VStr (trim (slice 47 82 line)))]));
     ("communication", text (slice 82 115 line));
     ("next_code", Ok (char_at line 125));
     ("link_code", Ok (char_at line 127))].

(** Data record 3.1 *)
Definition parseAdditionalInformation31 (line : string) : result object :=
  record
    [("record_identification", Ok (char_at line 0));
     ("article_code", Ok (char_at line 1));
     ("sequence", text (slice 2 6 line));
     ("detail_sequence", text (slice 6 10 line));
     ("reference_number", text (trim (slice 10 31 line)));
     ("transaction_code", parseTransactionCode (slice 31 39 line));
     ("communication_type", communication_type_of (char_at line 39));
     ("communication", text (slice 40 113 line));
     ("next_code", Ok (char_at line 125));
     ("link_code", Ok (char_at line 127))].

(** Data record 3.2 *)
Definition parseAdditionalInformation32 (line : string) : result object :=
  record
    [("record_identification", Ok (char_at line 0));
     ("article_code", Ok (char_at line 1));
     ("sequence", text (slice 2 6 line));
     ("detail_sequence", text (slice 6 10 line));
     ("communication", text (slice 10 115 line));
     ("next_code", Ok (char_at line 125));
     ("link_code", Ok (char_at line 127))].

(** Data record 3.3 *)
Definition parseAdditionalInformation33 (line : string) : result object :=
  record
    [("record_identification", Ok (char_at line 0));
     ("article_code", Ok (char_at line 1));
     ("sequence", text (slice 2 6 line));
     ("detail_sequence", text (slice 6 10 line));
     ("communication", text (slice 10 100 line));
     ("next_code", Ok (char_at line 125));
     ("link_code", Ok (char_at line 127))].

(** Data record 8, new balance; [accountStructureData] is [None] for
    [null]. *)
Definition parseNewBalance (now : Z) (line : string)
    (accountStructureData : option number) : result value :=
  o <- record
    [("record_identification", Ok (char_at line 0));
     ("sequence_number", text (slice 1 4 line));
     ("account",
        match accountStructureData with
        | None => Ok (VObj [])
        | Some structure => spread_account [] structure (slice 4 41 line)
        end);
     ("balance",
        f <- sign_factor (char_at line 41) ;;
        num (num_div (num_mul (Number (VStr (slice 42 57 line))) f)
                     (num_of_Z 1000)));
     ("date", parseDate now (slice 57 63 line));
     ("link_code", Ok (char_at line 127))] ;;
  Ok (VObj o).

(** Data record 4, free communication *)
Definition parseFreeCommunication (line : string) : result object :=
  record
    [("record_identification", Ok (char_at line 0));
     ("sequence", text (slice 2 6 line));
     ("detail_sequence", text (slice 6 10 line));
     ("text", text (trim (slice 32 112 line)));
     ("link_code", Ok (char_at line 127))].

(** Trailer record 9 *)
Definition parseTrailer (line : string) : result value :=
  o <- record
    [("record_identification", Ok (char_at line 0));
     ("number_of_records", num (Number (VStr (slice 16 22 line))));
     ("debit_amount",
        num (num_div (Number (VStr (slice 22 37 line))) (num_of_Z 1000)));
     ("credit_amount",
        num (num_div (Number (VStr (slice 37 52 line))) (num_of_Z 1000)))] ;;
  Ok (VObj o).

(** ** Code books of [parseTransactionCode]

    Each table is followed in the source by the wildcard entry
    [[__]: '<Unknown>'], given to [match_] as its third argument. *)

Definition family_descriptions : list (string * value) :=
  [("01", VStr "Domestic or local SEPA credit transfers");
   ("41", VStr "International credit transfers - non-SEPA credit transfers");
   ("02", VStr "Instant SEPA credit transfer");
   ("03", VStr "Cheques");
   ("43", VStr "Foreign cheques");
   ("04", VStr "Cards");
   ("05", VStr "Direct debit");
   ("07", VStr "Domestic commercial paper");
   ("47", VStr "Foreign commercial paper");
   ("09", VStr "Counter transactions");
   ("11", VStr "Securities");
   ("13", VStr "Credit");
   ("30", VStr "Various transactions");
   ("35", VStr "Closing (periodical settlements for interest, costs, ...)");
   ("80", VStr "Separately charged costs and provisions")].

Definition transactions_01 : list (string * value) :=
  [("01", VStr "Individual transfer order");
   ("02", VStr "Individual transfer order initiated by the bank");
   ("03", VStr "Standing order");
   ("05", VStr "Payment of wages, etc.");
   ("07", VStr "Collective transfer");
   ("13", VStr "Transfer from your account");
   ("17", VStr "Financial centralisation");
   ("37", VStr "Costs");
   ("39", VStr "Your issue circular cheque");
   ("49", VStr "Cancellation or correction");
   ("50", VStr "Transfer in your favour");
   ("51", VStr "Transfer in your favour – initiated by the bank");
   ("52", VStr "Payment in your favour");
   ("54", VStr "Unexecutable transfer order");
   ("60", VStr "Non-presented circular cheque");
   ("62", VStr "Unpaid postal order");
   ("64", VStr "Transfer to your account");
   ("66", VStr "Financial centralization");
   ("87", VStr "Reimbursement of costs");
   ("99", VStr "Cancellation or correction")].

Definition transactions_02 : list (string * value) :=
  [("01", VStr "Individual transfer order");
   ("02", VStr "Individual transfer order initiated by the bank");
   ("03", VStr "Standing order");
   ("05", VStr "Payment of wages, etc.");
   ("07", VStr "Collective transfer");
   ("13", VStr "Transfer from your account");
   ("17", VStr "Financial centralisation");
   ("37", VStr "Costs");
   ("49", VStr "Cancellation or correction");
   ("50", VStr "Transfer in your favour");
   ("51", VStr "Transfer in your favour – initiated by the bank");
   ("52", VStr "Payment in your favour");
   ("54", VStr "Unexecutable transfer order");
   ("64", VStr "Transfer to your account");
   ("66", VStr "Financial centralization");
   ("87", VStr "Reimbursement of costs");
   ("99", VStr "Cancellation or correction")].

Definition transactions_03 : list (string * value) :=
  [("01", VStr "Payment of your cheque");
   ("05", VStr "Payment of voucher");
   ("09", VStr "Unpaid voucher");
   ("11", VStr "Department store cheque");
   ("15", VStr "Your purchase bank cheque");
   ("17", VStr "Your certified cheque");
   ("37", VStr "Cheque-related costs");
   ("38", VStr "Provisionally unpaid");
   ("49", VStr "Cancellation or correction");
   ("52", VStr "First credit of cheques, vouchers, luncheon vouchers, postal orders, credit under usual reserve");
   ("58", VStr "Remittance of cheques, vouchers, etc. credit after collection");
   ("60", VStr "Reversal of voucher");
   ("62", VStr "Reversal of cheque");
   ("63", VStr "Second credit of unpaid cheque");
   ("66", VStr "Remittance of cheque by your branch - credit under usual reserve");
   ("87", VStr "Reimbursement of cheque-related costs");
   ("99", VStr "Cancellation or correction")].

Definition transactions_04 : list (string * value) :=
  [("01", VStr "Loading a GSM card");
   ("02", VStr "Payment by means of a payment card within the Eurozone");
   ("03", VStr "Settlement credit cards");
   ("04", VStr "Cash withdrawal from an ATM");
   ("05", VStr "Loading Proton");
   ("06", VStr "Payment with tank card");
   ("07", VStr "Payment by GSM");
   ("08", VStr "Payment by means of a payment card outside the Eurozone");
   ("09", VStr "Upload of prepaid card");
   ("10", VStr "Correction for prepaid card");
   ("37", VStr "Costs");
   ("49", VStr "Cancellation or correction");
   ("50", VStr "Credit after a payment at a terminal");
   ("51", VStr "Unloading Proton");
   ("52", VStr "Loading GSM cards");
   ("53", VStr "Cash deposit at an ATM");
   ("54", VStr "Download of prepaid card");
   ("55", VStr "Income from payments by GSM");
   ("56", VStr "Correction for prepaid card");
   ("68", VStr "Credit after Proton payments");
   ("87", VStr "Reimbursement of costs");
   ("99", VStr "Cancellation or correction")].

Definition transactions_05 : list (string * value) :=
  [("01", VStr "Payment");
   ("03", VStr "Unpaid debt");
   ("05", VStr "Reimbursement");
   ("37", VStr "Costs");
   ("49", VStr "Cancellation or correction");
   ("50", VStr "Credit after collection");
   ("52", VStr "Credit under usual reserve");
   ("54", VStr "Reimbursement");
   ("56", VStr "Unexecutable reimbursement");
   ("58", VStr "Reversal");
   ("87", VStr "Reimbursement of costs");
   ("99", VStr "Cancellation or correction")].

Definition transactions_07 : list (string * value) :=
  [("01", VStr "Payment commercial paper");
   ("05", VStr "Commercial paper claimed back");
   ("06", VStr "Extension of maturity date");
   ("07", VStr "Unpaid commercial paper");
   ("08", VStr "Payment in advance");
   ("09", VStr "Agio on supplier's bill");
   ("37", VStr "Costs related to commercial paper");
   ("39", VStr "Return of an irregular bill of exchange");
   ("49", VStr "Cancellation or correction");
   ("50", VStr "Remittance of commercial paper - credit after collection");
   ("52", VStr "Remittance of commercial paper - credit under usual reserve");
   ("54", VStr "Remittance of commercial paper - for discount");
   ("56", VStr "Remittance of supplier's bill with guarantee");
   ("58", VStr "Remittance of supplier's bill without guarantee");
   ("87", VStr "Reimbursement of costs");
   ("99", VStr "Cancellation or correction")].

Definition transactions_09 : list (string * value) :=
  [("01", VStr "Cash withdrawal");
   ("05", VStr "Purchase of foreign bank notes");
   ("07", VStr "Purchase of gold/pieces");
   ("09", VStr "Purchase of petrol coupons");
   ("13", VStr "Cash withdrawal by your branch or agents");
   ("17", VStr "Purchase of fiscal stamps");
   ("19", VStr "Difference in payment");
   ("25", VStr "Purchase of traveller's cheque");
   ("37", VStr "Costs");
   ("49", VStr "Cancellation or correction");
   ("50", VStr "Cash payment");
   ("52", VStr "Payment night safe");
   ("58", VStr "Payment by your branch/agents");
   ("60", VStr "Sale of foreign bank notes");
   ("62", VStr "Sale of gold/pieces under usual reserve");
   ("68", VStr "Difference in payment");
   ("70", VStr "Sale of traveller's cheque");
   ("87", VStr "Reimbursement of costs");
   ("99", VStr "Cancellation or correction")].

Definition transactions_11 : list (string * value) :=
  [("01", VStr "Purchase of securities");
   ("02", VStr "Tenders");
   ("03", VStr "Subscription to securities");
   ("04", VStr "Issues");
   ("05", VStr "Partial payment subscription");
   ("06", VStr "Share option plan – exercising an option");
   ("09", VStr "Settlement of securities");
   ("11", VStr "Payable coupons/repayable securities");
   ("13", VStr "Your repurchase of issue");
   ("15", VStr "Interim interest on subscription");
   ("17", VStr "Management fee");
   ("19", VStr "Regularisation costs");
   ("37", VStr "Costs");
   ("49", VStr "Cancellation or correction");
   ("50", VStr "Sale of securities");
   ("51", VStr "Tender");
   ("52", VStr "Payment of coupons from a deposit or settlement of coupons delivered over the counter - credit under usual reserve");
   ("58", VStr "Repayable securities from a deposit or delivered at the counter - credit under usual reserve");
   ("62", VStr "Interim interest on subscription");
   ("64", VStr "Your issue");
   ("66", VStr "Retrocession of issue commission");
   ("68", VStr "Compensation for missing coupon");
   ("70", VStr "Settlement of securities");
   ("87", VStr "Reimbursement of costs");
   ("99", VStr "Cancellation or correction")].

Definition transactions_13 : list (string * value) :=
  [("01", VStr "Short-term loan");
   ("02", VStr "Long-term loan");
   ("05", VStr "Settlement of fixed advance");
   ("07", VStr "Your repayment instalment");
   ("11", VStr "Your repayment mortgage loan");
   ("13", VStr "Settlement of bank acceptances");
   ("15", VStr "Your repayment hire-purchase and similar claims");
   ("19", VStr "Documentary import credits");
   ("21", VStr "Other credit applications");
   ("37", VStr "Credit-related costs");
   ("49", VStr "Cancellation or correction");
   ("50", VStr "Settlement of instalment credit");
   ("54", VStr "Fixed advance – capital and interest");
   ("55", VStr "Fixed advance – interest only");
   ("56", VStr "Subsidy");
   ("60", VStr "Settlement of mortgage loan");
   ("62", VStr "Term loan");
   ("68", VStr "Documentary export credits");
   ("70", VStr "Settlement of discount bank acceptance");
   ("87", VStr "Reimbursement of costs");
   ("99", VStr "Cancellation or correction")].

Definition transactions_30 : list (string * value) :=
  [("01", VStr "Spot purchase of foreign exchange");
   ("03", VStr "Forward purchase of foreign exchange");
   ("05", VStr "Capital and/or interest term investment");
   ("33", VStr "Value (date) correction");
   ("37", VStr "Costs");
   ("39", VStr "Undefined transaction");
   ("49", VStr "Cancellation or correction");
   ("50", VStr "Spot sale of foreign exchange");
   ("52", VStr "Forward sale of foreign exchange");
   ("54", VStr "Capital and/or interest term investment");
   ("55", VStr "Interest term investment");
   ("83", VStr "Value (date) correction");
   ("87", VStr "Reimbursement of costs");
   ("89", VStr "Undefined transaction");
   ("99", VStr "Cancellation or correction")].

Definition transactions_35 : list (string * value) :=
  [("01", VStr "Closing");
   ("37", VStr "Costs");
   ("49", VStr "Cancellation or correction");
   ("50", VStr "Closing");
   ("87", VStr "Reimbursement of costs");
   ("99", VStr "Cancellation or correction")].

Definition transactions_41 : list (string * value) :=
  [("01", VStr "Transfer");
   ("03", VStr "Standing order");
   ("05", VStr "Collective payments of wages");
   ("07", VStr "Collective transfers");
   ("13", VStr "Transfer from your account");
   ("17", VStr "Financial centralisation (debit)");
   ("37", VStr "Costs relating to outgoing foreign transfers and non-SEPA transfers");
   ("38", VStr "Costs relating to incoming foreign and non-SEPA transfers");
   ("49", VStr "Cancellation or correction");
   ("50", VStr "Transfer");
   ("64", VStr "Transfer to your account");
   ("66", VStr "Financial centralisation (credit)");
   ("87", VStr "Reimbursement of costs");
   ("99", VStr "Cancellation or correction")].

Definition transactions_43 : list (string * value) :=
  [("01", VStr "Payment of a foreign cheque");
   ("07", VStr "Unpaid foreign cheque");
   ("15", VStr "Purchase of an international bank cheque");
   ("37", VStr "Costs relating to payment of foreign cheques");
   ("49", VStr "Cancellation or correction");
   ("52", VStr "Remittance of foreign cheque credit under usual reserve");
   ("58", VStr "Remittance of foreign cheque credit after collection");
   ("62", VStr "Reversal of cheques");
   ("87", VStr "Reimbursement of costs");
   ("99", VStr "Cancellation or correction")].

Definition transactions_47 : list (string * value) :=
  [("01", VStr "Payment of foreign bill");
   ("05", VStr "Bill claimed back");
   ("06", VStr "Extension");
   ("07", VStr "Unpaid foreign bill");
   ("11", VStr "Payment documents abroad");
   ("13", VStr "Discount foreign supplier's bills");
   ("14", VStr "Warrant fallen due");
   ("37", VStr "Costs relating to the payment of a foreign bill");
   ("49", VStr "Cancellation or correction");
   ("50", VStr "Remittance of foreign bill credit after collection");
   ("52", VStr "Remittance of foreign bill credit under usual reserve");
   ("54", VStr "Discount abroad");
   ("56", VStr "Remittance of guaranteed foreign supplier's bill");
   ("58", VStr "Remittance of foreign supplier's bill without guarantee");
   ("60", VStr "Remittance of documents abroad - credit under usual reserve");
   ("62", VStr "Remittance of documents abroad - credit after collection");
   ("64", VStr "Warrant");
   ("87", VStr "Reimbursement of costs");
   ("99", VStr "Cancellation or correction")].

Definition transactions_80 : list (string * value) :=
  [("02", VStr "Costs relating to electronic output");
   ("04", VStr "Costs for holding a documentary cash credit");
   ("06", VStr "Damage relating to bills and cheques");
   ("07", VStr "Insurance costs");
   ("08", VStr "Registering compensation for savings accounts");
   ("09", VStr "Postage");
   ("10", VStr "Purchase of Smartcard");
   ("11", VStr "Costs for the safe custody of correspondence");
   ("12", VStr "Costs for opening a bank guarantee");
   ("13", VStr "Renting of safes");
   ("14", VStr "Handling costs instalment credit");
   ("15", VStr "Night safe");
   ("16", VStr "Bank confirmation to revisor or accountant");
   ("17", VStr "Charge for safe custody");
   ("18", VStr "Trade information");
   ("19", VStr "Special charge for safe custody");
   ("20", VStr "Drawing up a certificate");
   ("21", VStr "Pay-packet charges");
   ("22", VStr "Management/custody");
   ("23", VStr "Research costs");
   ("24", VStr "Participation in and management of interest refund system");
   ("25", VStr "Renting of direct debit box");
   ("26", VStr "Travel insurance premium");
   ("27", VStr "Subscription fee");
   ("29", VStr "Information charges");
   ("31", VStr "Writ service fee");
   ("33", VStr "Miscellaneous fees and commissions");
   ("35", VStr "Costs");
   ("37", VStr "Access right to database");
   ("39", VStr "Surety fee");
   ("41", VStr "Research costs");
   ("43", VStr "Printing of forms");
   ("45", VStr "Documentary credit charges");
   ("47", VStr "Charging fees for transactions");
   ("49", VStr "Cancellation or correction");
   ("99", VStr "Cancellation or correction")].

Definition transaction_descriptions : list (string * list (string * value)) :=
  [("01", transactions_01);
   ("02", transactions_02);
   ("03", transactions_03);
   ("04", transactions_04);
   ("05", transactions_05);
   ("07", transactions_07);
   ("09", transactions_09);
   ("11", transactions_11);
   ("13", transactions_13);
   ("30", transactions_30);
   ("35", transactions_35);
   ("41", transactions_41);
   ("43", transactions_43);
   ("47", transactions_47);
   ("80", transactions_80)].

Definition category_descriptions : list (string * value) :=
  [("000", VStr "Net amount");
   ("001", VStr "Interest received");
   ("002", VStr "Interest paid");
   ("003", VStr "Credit commision");
   ("004", VStr "Postage");
   ("005", VStr "Renting of letterbox");
   ("006", VStr "Various fees/commissions");
   ("007", VStr "Access right to database");
   ("008", VStr "Information charges");
   ("009", VStr "Travelling expenses");
   ("010", VStr "Writ service fee");
   ("011", VStr "VAT");
   ("012", VStr "Exchange commission");
   ("013", VStr "Payment commission");
   ("014", VStr "Collection commission");
   ("015", VStr "Correspondent charges");
   ("016", VStr "Negative interest");
   ("017", VStr "Research costs");
   ("018", VStr "Tental guarantee charges");
   ("019", VStr "Tax on physical delivery");
   ("020", VStr "Costs of physical delivery");
   ("021", VStr "Costs for drawing up a bank cheque");
   ("022", VStr "Priority costs");
   ("023", VStr "Exercising fee");
   ("024", VStr "Growth premium");
   ("025", VStr "Individual entry for exchange charges");
   ("026", VStr "Handling commission");
   ("027", VStr "Charges for unpaid bills");
   ("028", VStr "Fidelity premium");
   ("029", VStr "Protest charges");
   ("030", VStr "Account insurance");
   ("031", VStr "Charges foreign cheque");
   ("032", VStr "Drawing up a circular cheque");
   ("033", VStr "Charges for a foreign bill");
   ("034", VStr "Reinvestment fee");
   ("035", VStr "Charges foreign documentary bill");
   ("036", VStr "Costs relating to a refused cheque");
   ("037", VStr "Commission for handling charges");
   ("039", VStr "Telecommunications");
   ("041", VStr "Credit card costs");
   ("042", VStr "Payment card costs");
   ("043", VStr "Insurance costs");
   ("045", VStr "Handling costs");
   ("047", VStr "Charges extension bill");
   ("049", VStr "Fiscal stamps/stamp duty");
   ("050", VStr "Capital term investment");
   ("051", VStr "Withholding tax");
   ("052", VStr "");
   ("053", VStr "Printing of forms");
   ("055", VStr "Repayment loan or credit capital");
   ("057", VStr "Interest subsidy");
   ("058", VStr "Capital premium");
   ("059", VStr "Default interest");
   ("061", VStr "Charging fees for transactions");
   ("063", VStr "Rounding differences");
   ("065", VStr "Interest payment advice");
   ("066", VStr "Fixed loan advance – reimbursement");
   ("067", VStr "Fixed loan advance - extension");
   ("068", VStr "Countervalue of an entry");
   ("069", VStr "Forward arbitrage contracts: sum to be supplied by customer");
   ("070", VStr "Forward arbitrage contracts: sum to be supplied by bank");
   ("071", VStr "Fixed loan advance - availability");
   ("072", VStr "Countervalue of commission to third party");
   ("073", VStr "Costs of ATM abroad");
   ("074", VStr "Mailing costs");
   ("100", VStr "Gross amount");
   ("200", VStr "Overall documentary credit charges");
   ("201", VStr "Advice notice commission");
   ("202", VArr [VStr "Advising commission"; VStr "Additional advising commission"]);
   ("203", VStr (join_lines ["Confirmation fee"; "Additional confirmation fee"; "Commitment fee"; "Flat fee"; "Confirmation reservation commission"; "Additional reservation commission"]));
   ("204", VStr "Amendment fee");
   ("205", VStr (join_lines ["Documentary payment commission"; "Document commission"; "Drawdown fee"; "Negotiation fee"]));
   ("206", VStr "Surety fee/payment under reserve");
   ("207", VStr "Non-conformity fee");
   ("208", VStr "Commitment fee deferred payment");
   ("209", VStr "Transfer commission");
   ("210", VStr "Commitment fee");
   ("211", VArr [VStr "Credit arrangement fee"; VStr "Additional credit arrangement fee"]);
   ("212", VStr "Warehousing fee");
   ("213", VStr "Financing fee");
   ("214", VStr "Issue commission (delivery order)");
   ("400", VStr "Acceptance fee");
   ("401", VStr "Visa charges");
   ("402", VStr "Certification costs");
   ("403", VStr "Minimum discount rate");
   ("404", VStr "Discount commission");
   ("405", VStr "Bill guarantee commission");
   ("406", VStr "Collection charges");
   ("407", VStr "Costs Article 45");
   ("408", VStr "Cover commission");
   ("409", VStr "Safe deposit charges");
   ("410", VStr "Reclamation charges");
   ("411", VStr "Fixed collection charge");
   ("412", VStr "Advice of expiry charges");
   ("413", VStr "Acceptance charges");
   ("414", VStr "Regularisation charges");
   ("415", VStr "Surety fee");
   ("416", VStr "Charges for the deposit of security");
   ("418", VStr "Endorsement commission");
   ("419", VStr "Bank service fee");
   ("420", VStr "Retention charges");
   ("425", VStr "Foreign broker's commission");
   ("426", VStr "Belgian broker's commission");
   ("427", VStr "Belgian Stock Exchange tax");
   ("428", VStr "Interest accrued");
   ("429", VStr "Foreign Stock Exchange tax");
   ("430", VStr "Recovery of foreign tax");
   ("431", VStr "Delivery of a copy");
   ("435", VStr "Tax on physical securities");
   ("436", VStr "Supplementary tax");
   ("437", VStr "Speculation tax");
   ("438", VStr "Securities account tax")].

Definition wildcard : option value := Some (VStr unknown).

(** [get family_description()] *)
Definition family_description (transaction_code : object) : result value :=
  match_ (get "family" transaction_code) family_descriptions wildcard.

(** [get transaction_description()]: the handler of a family is a function
    that looks the transaction up in the family's own table. *)
Definition transaction_description (transaction_code : object)
  : result value :=
  handler <-
    match_ (get "family" transaction_code)
      (map (fun entry =>
              (fst entry,
               match_ (get "transaction" transaction_code) (snd entry)
                      wildcard))
           transaction_descriptions)
      (Some (Ok (VStr unknown))) ;;
  handler.

(** [get category_description()] *)
Definition category_description (transaction_code : object) : result value :=
  match_ (get "category" transaction_code) category_descriptions wildcard.

(** ** Structured communications of information records *)

Definition securities_code_types : list (string * value) :=
  [("01", VStr "SVM");
   ("02", VStr "ISIN (ISO)");
   ("04", VStr "Telekurs (Switz.)");
   ("05", VStr "Cedol (London)");
   ("06", VStr "Cedel (Luxemburg)");
   ("07", VStr "Euroclear");
   ("08", VStr "Wertpapier (Germany)");
   ("09", VStr "EOE (European Options Exchange)");
   ("99", VStr "Internal code")].

(** [get securities_code_type_description()] of layouts 010 and 011 *)
Definition securities_code_type_description (communication : object)
  : result value :=
  match_ (get "securities_code_type" communication) securities_code_types
         wildcard.

(** 001: data concerning the counterparty *)
Definition detail_001 : reader value :=
  object_of
    [("name", trimmed 70);
     ("address", tidied 35);
     ("locality", tidied 35);
     ("identification_code", trimmed 35)].

(** 002, 004, 005: four lines of text, joined *)
Definition detail_002 : reader value :=
  a <~ take 35 ;; b <~ take 35 ;; c <~ take 35 ;; d <~ take 35 ;;
  rret (VObj [("value", VStr (join_lines [trim a; trim b; trim c; trim d]))]).

(** [(Number(stream.take(12 + 3)) * match(stream.take(1), {...})) / 1_000] *)
Definition detail_amount : reader value :=
  magnitude <~ take (12 + 3) ;;
  sign <~ take 1 ;;
  f <~ lift (sign_factor (VStr sign)) ;;
  rret (VNum (num_div (num_mul (Number (VStr magnitude)) f) (num_of_Z 1000))).

(** 006: information concerning the detail amount *)
Definition detail_006 : reader value :=
  object_of
    [("description", trimmed 30);
     ("currency", trimmed 3);
     ("amount", detail_amount);
     ("category", integer 3)].

(** 007: information concerning the detail cash *)
Definition detail_007 : reader value :=
  object_of
    [("number", integer 7);
     ("denomination", scaled (3 + 3) 1000);
     ("total", scaled (12 + 3) 1000)].

(** 008, 009: ultimate beneficiary, ultimate ordering customer *)
Definition detail_008 : reader value :=
  object_of
    [("name", trimmed 70);
     ("identification_code", trimmed 35)].

(** 010: sale or purchase of securities *)
Definition detail_010 (now : Z) : reader value :=
  object_of
    [("order_number", trimmed 13);
     ("bank_reference_number", trimmed 15);
     ("customer_reference_number", trimmed 13);
     ("securities_code_type", trimmed 2);
     ("securities_code_value", trimmed 15);
     ("method", trimmed 1);
     ("number", scaled (8 + 4) 10000);
     ("currency", integer 3);
     ("number_per_transaction_unit", integer 4);
     ("quotation_currency", trimmed 3);
     ("stock_exchange_rate", scaled (8 + 4) 10000);
     ("exchange_rate", scaled (4 + 8) 100000000);
     ("name", trimmed 40);
     ("bordereau_number", trimmed 13);
     ("coupon_number", trimmed 8);
     ("coupon_payment_date", trimmed 8);
     ("country_stock_exchange_market", trimmed 30);
     ("purchase_sale_date", dated now 8);
     ("nature", trimmed 24);
     ("nominal_value", scaled (12 + 3) 1000)].

(** 011: coupons *)
Definition detail_011 (now : Z) : reader value :=
  object_of
    [("order_number", trimmed 13);
     ("bank_reference_number", trimmed 15);
     ("customer_reference_number", trimmed 13);
     ("securities_code_type", trimmed 2);
     ("securities_code_value", trimmed 15);
     ("number", scaled (8 + 4) 10000);
     ("name", trimmed 40);
     ("currency", trimmed 3);
     ("amount", scaled (8 + 6) 1000000);
     ("type",
        s <~ take 1 ;;
        lift (match_ (VStr (trim s))
                [("1", VStr "dividend"); ("0", VStr "interest")] None));
     ("foreign_tax_rate", scaled (12 + 3) 1000);
     ("nature", trimmed 24);
     ("coupon_number", trimmed 6);
     ("date", dated now 6);
     ("exchange_rate", scaled (4 + 8) 100000000);
     ("currency_payment", trimmed 3);
     ("nominal_value", scaled (12 + 3) 1000)].

(** The [case] labels of the inner [switch] of [parseCommunicationDetail] *)
Definition detail_layouts (now : Z) : list (string * reader value) :=
  [("001", detail_001);
   ("002", detail_002);
   ("004", detail_002);
   ("005", detail_002);
   ("006", detail_006);
   ("007", detail_007);
   ("008", detail_008);
   ("009", detail_008);
   ("010", detail_010 now);
   ("011", detail_011 now)].

(** [new StringStream(line)] followed by a first [take]: a member access on
    the text, which throws when [line] is not a string. *)
Definition over (line : value) (r : reader value) : result value :=
  match line with
  | VStr s => run r s
  | _ => Err (TypeError "slice")
  end.

Definition parseCommunicationDetail (now : Z) (line : value) (type : value)
  : result value :=
  if strict_eq type (VStr "unstructured") then Ok line
  else if strict_eq type (VStr "structured") then
    over line
      (discriminant <~ take 3 ;;
       match own_property discriminant (detail_layouts now) with
       | Some layout => layout
       | None => lift (Err UnknownStructuredCommunicationType)
       end)
  else Err UnknownCommunicationType.

(** ** Structured communications of movement records *)

(** The small code books of the layouts; each accessor reads the stored
    number. *)
Definition lookup_number (field : string) (table : list (Z * value))
    (communication : object) : result value :=
  match_number (Number (get field communication)) table wildcard.

Definition card_schemes_111 : list (Z * value) :=
  [(1, VStr "Bancontact/Mister Cash"); (2, VStr "Maestro");
   (3, VStr "Private"); (5, VStr "TINA"); (9, VStr "Other")]%Z.

Definition transaction_types_111 : list (Z * value) :=
  [(0, VStr "Cumulative"); (1, VStr "Withdrawal");
   (2, VStr "Cumulative on network"); (5, VStr "POS others");
   (7, VStr "Distribution sector"); (8, VStr "Teledata"); (9, VStr "Fuel")]%Z.

Definition card_schemes_113 : list (Z * value) :=
  [(1, VStr "Bancontact/Mister Cash"); (2, VStr "Maestro");
   (3, VStr "Private"); (5, VStr "TINA")]%Z.

Definition transaction_types_113 : list (Z * value) :=
  [(1, VStr "Withdrawal"); (2, VStr "Proton loading");
   (3, VStr "Reimbursement Proton balance"); (4, VStr "Reversal of purchases");
   (5, VStr "POS others"); (7, VStr "Distribution sector");
   (8, VStr "Teledata"); (9, VStr "Fuel")]%Z.

Definition product_codes_113 : list (Z * value) :=
  [(1, VStr "Premium with lead substitute"); (2, VStr "Europremium");
   (3, VStr "Diesel"); (4, VStr "LPG"); (6, VStr "Premium plus 98 oct");
   (7, VStr "Regular unleaded"); (8, VStr "Domestic fuel oil");
   (9, VStr "Lubricants"); (10, VStr "Petrol"); (11, VStr "Premium 99+");
   (12, VStr "Avgas"); (16, VStr "Other types")]%Z.

Definition transaction_types_114 : list (Z * value) :=
  [(1, VStr "Withdrawal"); (5, VStr "POS others");
   (7, VStr "Distribution sector"); (8, VStr "Teledata"); (9, VStr "Fuel")]%Z.

Definition card_schemes_115 : list (Z * value) :=
  [(3, VStr "Private"); (9, VStr "Other")]%Z.

Definition issuing_institutions_124 : list (Z * value) :=
  [(1, VStr "Mastercard"); (2, VStr "Visa"); (3, VStr "American Express");
   (4, VStr "Diners Club"); (9, VStr "Other")]%Z.

Definition direct_debit_types_127 : list (Z * value) :=
  [(0, VStr "Unspecified"); (1, VStr "Recurrent"); (2, VStr "One-off");
   (3, VStr "1st (Recurrent)"); (4, VStr "Last (Recurrent)")]%Z.

Definition direct_debit_schemes_127 : list (Z * value) :=
  [(0, VStr "Unspecified"); (1, VStr "SEPA core"); (2, VStr "SEPA B2B")]%Z.

Definition refusal_reasons_127 : list (Z * value) :=
  [(0, VStr "Paid"); (1, VStr "Technical problem");
   (2, VStr "Reason not specified"); (3, VStr "Debtor disagrees");
   (4, VStr "Debtor's account problem")]%Z.

Definition r_transaction_types_127 : list (Z * value) :=
  [(0, VStr "Paid"); (1, VStr "Reject"); (2, VStr "Return");
   (3, VStr "Refund"); (4, VStr "Reversal"); (5, VStr "Cancellation")]%Z.

(** The accessors of the movement layouts, by layout and name. *)
Definition movement_accessors
  : list (Z * list (string * (object -> result value))) :=
  [(111, [("card_scheme_description",
             lookup_number "card_scheme" card_schemes_111);
          ("transaction_type_description",
             lookup_number "transaction_type" transaction_types_111)]);
   (113, [("card_scheme_description",
             lookup_number "card_scheme" card_schemes_113);
          ("transaction_type_description",
             lookup_number "transaction_type" transaction_types_113);
          ("product_code_description",
             lookup_number "product_code" product_codes_113)]);
   (114, [("card_scheme_description",
             lookup_number "card_scheme" card_schemes_111);
          ("transaction_type_description",
             lookup_number "transaction_type" transaction_types_114)]);
   (115, [("card_scheme_description",
             lookup_number "card_scheme" card_schemes_115)]);
   (124, [("issuing_institution_description",
             lookup_number "issuing_institution" issuing_institutions_124)]);
   (127, [("type_direct_debit_description",
             lookup_number "type_direct_debit" direct_debit_types_127);
          ("direct_debit_scheme_description",
             lookup_number "direct_debit_scheme" direct_debit_schemes_127);
          ("paid_or_reason_for_refused_payment_description",
             lookup_number "paid_or_reason_for_refused_payment"
                           refusal_reasons_127);
          ("type_of_r_transaction_description",
             lookup_number "type_of_r_transaction"
                           r_transaction_types_127)])]%Z.

(** Every layout starts with [type: structuredType, type_description: ...]. *)
Definition layout (structuredType : number) (description : string)
    (fields : list (string * reader value)) : reader value :=
  object_of
    (("type", rret (VNum structuredType))
     :: ("type_description", rret (VStr description))
     :: fields).

Definition terminal_tidied : reader value :=
  object_of [("name", tidied 16); ("locality", tidied 10)].

Definition terminal_city : reader value :=
  object_of [("name", trimmed 16); ("city", trimmed 10)].

Definition transaction_of (now : Z) : reader value :=
  object_of [("sequence_number", trimmed 6); ("date", dated now 6)].

(** The [case] labels of the inner [switch] of [parseCommunicationMovement] *)
Definition movement_layouts (now : Z) (structuredType : number)
  : list (Z * reader value) :=
  let L := layout structuredType in
  [(100, L "Payment with a structured format communication applying the ISO standard 11649: Structured creditor reference to remittance information"
       [("value", trimmed 21)]);
   (101, L "Credit transfer or cash payment with structured format communication"
       [("value", trimmed (10 + 2))]);
   (102, L "Credit transfer or cash payment with reconstituted structured format communication"
       [("value", trimmed (10 + 2))]);
   (103, L "Number (e.g. of the cheque, of the card, etc.)"
       [("value", raw 12)]);
   (105, L "Original amount of the transaction"
       [("gross_amount_currency_account", scaled (12 + 3) 1000);
        ("gross_amount_original_currency", scaled (12 + 3) 1000);
        ("rate", scaled (4 + 8) 100000000);
        ("currency", trimmed 3);
        ("structured_format_communication", trimmed 12);
        ("country_code_principal", trimmed 2);
        ("equivalent_eur", scaled (12 + 3) 1000)]);
   (106, L "Method of calculation (VAT, withholding tax on income, commission, etc.)"
       [("equivalent_currency_account", scaled (12 + 3) 1000);
        ("amount", scaled (12 + 3) 1000);
        ("percent", scaled (4 + 8) 100000000);
        ("minimum", flagged);
        ("equivalent_eur", scaled (12 + 3) 1000)]);
   (108, L "Closing"
       [("equivalent_currency_account", scaled (12 + 3) 1000);
        ("interest_rates_calculation_basis", integer 15);
        ("interest", scaled (4 + 8) 100000000);
        ("period",
           object_of [("from", dated now 6); ("to", dated now 6)])]);
   (111, L "POS credit — Globalisation"
       [("card_scheme", integer 1);
        ("pos_number", trimmed 6);
        ("period_number", trimmed 3);
        ("first_transaction", transaction_of now);
        ("last_transaction", transaction_of now);
        ("transaction_type", integer 1);
        ("identification_terminal", terminal_tidied)]);
   (113, L "ATM/POS debit"
       [("masked_pan", trimmed 16);
        ("card_scheme", integer 1);
        ("terminal_number", integer 6);
        ("sequence_number", integer 6);
        ("date", dated now (6 + 4));
        ("transaction_type", integer 1);
        ("identification_terminal", terminal_city);
        ("original_amount", scaled (12 + 3) 1000);
        ("rate", scaled (4 + 8) 100000000);
        ("currency", trimmed 3);
        ("volume", scaled (3 + 2) 100);
        ("product_code", integer 2);
        ("unit_price", scaled (2 + 3) 100)]);
   (114, L "POS credit — individual transaction"
       [("card_scheme", integer 1);
        ("pos_number", trimmed 6);
        ("period_number", integer 3);
        ("sequence_number", integer 6);
        ("date", dated now (6 + 4));
        ("transaction_type", integer 1);
        ("identification_terminal", terminal_city);
        ("reference", trimmed 16)]);
   (115, L "Terminal cash deposit"
       [("masked_pan", trimmed 16);
        ("card_scheme", integer 1);
        ("terminal_number", integer 6);
        ("sequence_number", integer 6);
        ("payment_day", dated now (6 + 4));
        ("sequence_number_validation", integer 6);
        ("original_amount_customer", scaled (12 + 3) 1000);
        ("conformity_code", trimmed 1);
        ("identification_terminal", terminal_tidied);
        ("message", trimmed 12)]);
   (121, L "Commercial bills"
       [("amount", scaled (12 + 3) 1000);
        ("maturity_date", dated now 6);
        ("conventional_maturity_date", dated now 6);
        ("issue_date", dated now 6);
        ("company_number", trimmed (1 + 10));
        ("currency", trimmed 3);
        ("number", rmap (fun s => VStr (trim s)) (skip_take 3 13));
        ("exchange_rate", scaled (4 + 8) 100000000)]);
   (122, L "Bills — calculation of interest"
       [("number_of_days", integer 4);
        ("interest_rate", scaled (4 + 8) 100000000);
        ("basic_amount", scaled (12 + 3) 1000);
        ("minimum_rate", flagged);
        ("number", trimmed 13);
        ("maturity_date", dated now 6)]);
   (123, L "Fees and commissions"
       [("starting_date", dated now 6);
        ("maturity_date", dated now 6);
        ("basic_amount", scaled (12 + 3) 1000);
        ("percentage", scaled (4 + 8) 100000000);
        ("term_in_days", integer 4);
        ("minimum_rate", flagged);
        ("guarantee_number", trimmed 13)]);
   (124, L "Number of the credit card"
       [("masked_pan", trimmed 20);
        ("issuing_institution", integer 1);
        ("invoice_number", trimmed 12);
        ("identification_number", trimmed 15);
        ("date", dated now 6)]);
   (125, L "Credit"
       [("account_number", trimmed 12);
        ("extension_zone_account_number", trimmed 15);
        ("old_balance", scaled (12 + 3) 1000);
        ("new_balance", scaled (12 + 3) 1000);
        ("amount", scaled (12 + 3) 1000);
        ("currency", trimmed 3);
        ("start_date", dated now 6);
        ("end_date", dated now 6);
        ("nominal_interest_rate", scaled (4 + 8) 100000000);
        ("reference", trimmed 13)]);
   (126, L "Term investments"
       [("deposit_number", trimmed 15);
        ("deposit_amount", scaled (12 + 3) 1000);
        ("equivalent_currency_account", scaled (12 + 3) 1000);
        ("start_date", dated now 6);
        ("end_date", dated now 6);
        ("interest_rate", scaled (4 + 8) 100000000);
        ("amount_of_interest", trimmed 15);
        ("currency", trimmed 3);
        ("rate", scaled (4 + 8) 100000000)]);
   (127, L "European direct debit (SEPA)"
       [("settlement_date", dated now 6);
        ("type_direct_debit", integer 1);
        ("direct_debit_scheme", integer 1);
        ("paid_or_reason_for_refused_payment", integer 1);
        ("creditor_identification_code", trimmed 35);
        ("mandate_reference", trimmed 35);
        ("communication", trimmed 62);
        ("type_of_r_transaction", integer 1);
        ("reason", trimmed 4)])]%Z.

Definition parseCommunicationMovement (now : Z) (line : value) (type : value)
  : result value :=
  if strict_eq type (VStr "unstructured") then Ok line
  else if strict_eq type (VStr "structured") then
    over line
      (discriminant <~ take 3 ;;
       let structuredType := Number (VStr discriminant) in
       match own_index structuredType (movement_layouts now structuredType)
       with
       | Some layout => layout
       | None => lift (Err UnknownStructuredMovementCommunicationType)
       end)
  else Err UnknownMovementCommunicationType.

(** ** The document and the line loop of [parse] *)

(** An element of one of the three record arrays.  [oid] is the identity of
    the object, which [indexOf] compares: the index the record was pushed
    at.  A record is written to by the loops of [parse] only, each time
    through its array and before any other holder reads it (the [drop]
    lists and the [information] lists of the movements hold records that
    are not written to any more), so the model copies a record where the
    program shares it. *)
Record entity : Type := mkEntity { oid : nat; props : object }.

Record document : Type := mkDocument {
  header : value;
  balance_old : value;
  balance_new : value;
  movements : list entity;
  information : list entity;
  free_communications : list entity;
  trailer : value
}.

(** [let result = {...}]: every part starts as the empty object or array. *)
Definition empty_document : document :=
  mkDocument (VObj []) (VObj []) (VObj []) [] [] [] (VObj []).

(** [array.push(record)] *)
Definition push (record : object) (array : list entity) : list entity :=
  array ++ [mkEntity (length array) record].

(** [state.accountStructureData] with the document under construction *)
Definition parse_state : Type := option number * document.

Definition with_movement (st : parse_state) (r : result object)
  : result parse_state :=
  o <- r ;;
  let d := snd st in
  Ok (fst st,
      mkDocument (header d) (balance_old d) (balance_new d)
                 (push o (movements d)) (information d)
                 (free_communications d) (trailer d)).

Definition with_information (st : parse_state) (r : result object)
  : result parse_state :=
  o <- r ;;
  let d := snd st in
  Ok (fst st,
      mkDocument (header d) (balance_old d) (balance_new d)
                 (movements d) (push o (information d))
                 (free_communications d) (trailer d)).

(** The body of the [for] loop over the lines: the [switch (line[0])]. *)
Definition parse_line (now : Z) (st : parse_state) (line : string)
  : result parse_state :=
  let d := snd st in
  match String.get 0 line with
  | Some "0"%char =>
      h <- run (parseHeader now) line ;;
      Ok (fst st,
          mkDocument h (balance_old d) (balance_new d) (movements d)
                     (information d) (free_communications d) (trailer d))
  | Some "1"%char =>
      let accountStructureData := Some (Number (char_at line 1)) in
      old <- parseOldBalance now line ;;
      Ok (accountStructureData,
          mkDocument (header d) old (balance_new d) (movements d)
                     (information d) (free_communications d) (trailer d))
  | Some "2"%char =>
      if startsWith "21" line then with_movement st (parseMovement21 now line)
      else if startsWith "22" line then with_movement st (parseMovement22 line)
      else if startsWith "23" line then with_movement st (parseMovement23 line)
      else Ok st
  | Some "3"%char =>
      if startsWith "31" line
      then with_information st (parseAdditionalInformation31 line)
      else if startsWith "32" line
      then with_information st (parseAdditionalInformation32 line)
      else if startsWith "33" line
      then with_information st (parseAdditionalInformation33 line)
      else Ok st
  | Some "8"%char =>
      new <- parseNewBalance now line (fst st) ;;
      Ok (fst st,
          mkDocument (header d) (balance_old d) new (movements d)
                     (information d) (free_communications d) (trailer d))
  | Some "4"%char =>
      o <- parseFreeCommunication line ;;
      Ok (fst st,
          mkDocument (header d) (balance_old d) (balance_new d) (movements d)
                     (information d) (push o (free_communications d))
                     (trailer d))
  | Some "9"%char =>
      t <- parseTrailer line ;;
      Ok (fst st,
          mkDocument (header d) (balance_old d) (balance_new d) (movements d)
                     (information d) (free_communications d) t)
  | _ => Err UnknownRecordType
  end.

Fixpoint parse_lines (now : Z) (st : parse_state) (lines : list string)
  : result parse_state :=
  match lines with
  | [] => Ok st
  | line :: rest => st' <- parse_line now st line ;; parse_lines now st' rest
  end.

(** ** Merging the chains *)

Definition continues (flag : string) (o : object) : bool :=
  strict_eq (get flag o) (VStr "1").

(** [Object.assign(root, next, { [field]: root[field] + next[field] })] *)
Definition merged (field : string) (root next : object) : object :=
  set field (concat_text (get field root) (get field next)) (assign root next).

(** The [while] loop of a chain: while the flag of the root is ['1'], the
    next record of the array is pushed on [drop] and merged into the root;
    the loop stops when the array has no next record.  Returns the root and
    the records it consumed. *)
Fixpoint absorb (flag field : string) (root : object) (rest : list entity)
  : object * list entity :=
  match rest with
  | [] => (root, [])
  | next :: rest' =>
      if continues flag root then
        let (final, dropped) :=
          absorb flag field (merged field root (props next)) rest' in
        (final, next :: dropped)
      else (root, [])
  end.

(** [if (typeof o[field] === 'string')
       o[field] = o[field].trim().replace(/\s{2,}/g, ' ')] *)
Definition tidy (field : string) (o : object) : object :=
  match get field o with
  | VStr s => set field (VStr (normalise s)) o
  | _ => o
  end.

(** The three merge blocks of [parse] are one loop, which differs in the
    test that makes a record the root of a chain, in the flag and the text
    field of the chain, in what is done to a root once its chain is merged
    and in what is done to a record that is not a root. *)
Section Chains.

Variable is_root : object -> bool.
Variables flag field : string.
Variable finish : object -> result object.
Variable visit : object -> result object.

(** The [for] loop over the array.  [skip] counts the records the
    preceding chain consumed, which the index steps over; the result is
    the array after the loop and the [drop] list. *)
Fixpoint merge_chains (skip : nat) (array : list entity)
  : result (list entity * list entity) :=
  match array with
  | [] => Ok ([], [])
  | record :: rest =>
      match skip with
      | S skip' =>
          r <- merge_chains skip' rest ;;
          Ok (record :: fst r, snd r)
      | O =>
          if is_root (props record) then
            let (root, dropped) := absorb flag field (props record) rest in
            root' <- finish root ;;
            r <- merge_chains (length dropped) rest ;;
            Ok (mkEntity (oid record) root' :: fst r, dropped ++ snd r)
          else
            o <- visit (props record) ;;
            r <- merge_chains 0 rest ;;
            Ok (mkEntity (oid record) o :: fst r, snd r)
      end
  end.

End Chains.

(** [movement.article_code === '1'] *)
Definition first_article (o : object) : bool :=
  strict_eq (get "article_code" o) (VStr "1").

(** What both record loops end an iteration with. *)
Definition tidy_communication (o : object) : result object :=
  Ok (tidy "communication" o).

(** [movement.communication = parseCommunicationMovement(
       movement.communication, movement.communication_type)] *)
Definition finish_movement (now : Z) (root : object) : result object :=
  c <- parseCommunicationMovement now (get "communication" root)
         (get "communication_type" root) ;;
  tidy_communication (set "communication" c root).

Definition finish_information (now : Z) (root : object) : result object :=
  c <- parseCommunicationDetail now (get "communication" root)
         (get "communication_type" root) ;;
  tidy_communication (set "communication" c root).

(** [communication.text = communication.text.trim().replace(...)]: a member
    access, which throws when the text is not a string. *)
Definition tidy_text (o : object) : result object :=
  match get "text" o with
  | VStr s => Ok (set "text" (VStr (normalise s)) o)
  | _ => Err (TypeError "trim")
  end.

Definition merge_movements (now : Z) : list entity
    -> result (list entity * list entity) :=
  merge_chains first_article "next_code" "communication"
               (finish_movement now) tidy_communication 0.

Definition merge_information (now : Z) : list entity
    -> result (list entity * list entity) :=
  merge_chains first_article "next_code" "communication"
               (finish_information now) tidy_communication 0.

(** Every free communication starts a chain. *)
Definition merge_free_communications : list entity
    -> result (list entity * list entity) :=
  merge_chains (fun _ => true) "link_code" "text" tidy_text tidy_text 0.

(** [array.indexOf(record)]: the first element that is the same object. *)
Fixpoint indexOf (record : entity) (array : list entity) : option nat :=
  match array with
  | [] => None
  | e :: rest =>
      if Nat.eqb (oid e) (oid record) then Some 0
      else option_map S (indexOf record rest)
  end.

Fixpoint remove_at (i : nat) (array : list entity) : list entity :=
  match array, i with
  | [], _ => []
  | _ :: rest, O => rest
  | e :: rest, S i' => e :: remove_at i' rest
  end.

(** [array.splice(array.indexOf(record), 1)]: when the record is not in the
    array, [indexOf] is -1 and [splice(-1, 1)] removes the last element. *)
Definition splice_out (array : list entity) (record : entity) : list entity :=
  match indexOf record array with
  | Some i => remove_at i array
  | None => removelast array
  end.

(** [for (let record of drop.splice(0)) array.splice(...)] *)
Definition remove_dropped (drop array : list entity) : list entity :=
  fold_left splice_out drop array.

(** ** Cleaning up and linking *)

(** [for (let record of array) { delete record[...] }] *)
Definition cleanup (fields : list string) (array : list entity)
  : list entity :=
  map (fun e =>
         mkEntity (oid e) (fold_left (fun o k => delete k o) fields (props e)))
      array.

Definition same_key (movement information : object) : bool :=
  strict_eq (get "sequence" movement) (get "sequence" information)
  && strict_eq (get "reference_number" movement)
               (get "reference_number" information).

(** [movement.information = movement.information ?? []] followed by
    [movement.information.push(information)]; the property is absent or an
    array this pass built. *)
Definition attach (information : object) (movement : object) : object :=
  match get "information" movement with
  | VArr items => set "information" (VArr (items ++ [VObj information])) movement
  | _ => set "information" (VArr [VObj information]) movement
  end.

(** The inner loop: one information record against every movement; the
    record goes on [drop] once for every movement it matches. *)
Definition link_one (information : entity) (array : list entity)
  : list entity * list entity :=
  (map (fun m =>
          if same_key (props m) (props information)
          then mkEntity (oid m) (attach (props information) (props m))
          else m)
       array,
   map (fun _ => information)
       (filter (fun m => same_key (props m) (props information)) array)).

Fixpoint link (informations : list entity) (array : list entity)
  : list entity * list entity :=
  match informations with
  | [] => (array, [])
  | information :: rest =>
      let (array', dropped) := link_one information array in
      let (array'', drop) := link rest array' in
      (array'', dropped ++ drop)
  end.

(** ** [parse] *)

(** The three merge blocks and the clean-up block *)
Definition merge_records (now : Z) (d : document) : result document :=
  m <- merge_movements now (movements d) ;;
  let movements1 := remove_dropped (snd m) (fst m) in
  i <- merge_information now (information d) ;;
  let information1 := remove_dropped (snd i) (fst i) in
  f <- merge_free_communications (free_communications d) ;;
  let free1 := remove_dropped (snd f) (fst f) in
  Ok (mkDocument (header d) (balance_old d) (balance_new d)
                 (cleanup ["next_code"; "link_code"] movements1)
                 (cleanup ["next_code"; "link_code"] information1)
                 (cleanup ["link_code"] free1)
                 (trailer d)).

(** The block that moves the information records to their movements *)
Definition link_records (d : document) : document :=
  let (linked, drop) := link (information d) (movements d) in
  mkDocument (header d) (balance_old d) (balance_new d)
             linked (remove_dropped drop (information d))
             (free_communications d) (trailer d).

Definition parse_records (now : Z) (d : document) : result document :=
  d' <- merge_records now d ;; Ok (link_records d').

Definition parse (now : Z) (coda : string) : result document :=
  st <- parse_lines now (None, empty_document) (split_lines (trim coda)) ;;
  parse_records now (snd st).

(** * Statements and proofs *)

(** ** Notions the statements use *)

(** The leading characters [parse] has a [case] for. *)
Definition record_types : list ascii :=
  ["0"; "1"; "2"; "3"; "4"; "8"; "9"]%char.

Definition known_record_type (line : string) : bool :=
  match String.get 0 line with
  | Some c => existsb (Ascii.eqb c) record_types
  | None => false
  end.

(** The article codes the branches of record types 2 and 3 test for. *)
Definition known_article (line : string) : bool :=
  match String.get 1 line with
  | Some c => existsb (Ascii.eqb c) ["1"; "2"; "3"]%char
  | None => false
  end.

Definition initial_state : parse_state := (None, empty_document).

(** [v[k]] for a value that is an object *)
Definition field (k : string) (v : value) : value :=
  match v with
  | VObj o => get k o
  | _ => VUndefined
  end.

Definition is_old_balance (line : string) : bool :=
  match String.get 0 line with
  | Some c => Ascii.eqb c "1"
  | None => false
  end.

(** The value of [state.accountStructureData] after the lines: that of the
    last old-balance line, [None] when there is none. *)
Definition discriminant_after (start : option number) (lines : list string)
  : option number :=
  fold_left
    (fun a line =>
       if is_old_balance line then Some (Number (char_at line 1)) else a)
    lines start.

Definition is_sign (v : value) : bool :=
  strict_eq v (VStr Sign_Credit) || strict_eq v (VStr Sign_Debit).

Definition is_communication_flag (v : value) : bool :=
  strict_eq v (VStr "0") || strict_eq v (VStr "1").

(** The [case] labels of the two inner [switch] statements *)
Definition movement_types : list Z :=
  [100; 101; 102; 103; 105; 106; 108; 111; 113; 114; 115; 121; 122; 123;
   124; 125; 126; 127]%Z.

Definition detail_types : list string :=
  ["001"; "002"; "004"; "005"; "006"; "007"; "008"; "009"; "010"; "011"].

Definition known_movement_type (n : number) : bool :=
  existsb (fun k => strict_eq (VNum n) (VNum (num_of_Z k))) movement_types.

Definition known_detail_type (discriminant : string) : bool :=
  existsb (String.eqb discriminant) detail_types.

(** The discriminant of a communication: its first three characters. *)
Definition discriminant_of (communication : string) : string :=
  slice 0 3 communication.

(** An object names each of its properties once. *)
Definition has_key (k : string) (o : object) : bool :=
  existsb (String.eqb k) (map fst o).

Fixpoint distinct_keys (o : object) : bool :=
  match o with
  | [] => true
  | (k, _) :: o' => negb (has_key k o') && distinct_keys o'
  end.

(** A record that carries the text [v] in its continuation flag. *)
Definition carries (flag v : string) (e : entity) : bool :=
  strict_eq (get flag (props e)) (VStr v) && distinct_keys (props e).

Definition is_text (v : value) : bool :=
  match v with VStr _ => true | _ => false end.

(** The root of a chain once the records [chain] are merged into it, and
    the text the chain carries: the fragments in the order of the file. *)
Definition chain_root (field : string) (root : object) (chain : list entity)
  : object :=
  fold_left (merged field) (map props chain) root.

Definition chain_text (field : string) (root : object) (chain : list entity)
  : string :=
  text_of (get field root)
  ++ String.concat "" (map (fun e => text_of (get field (props e))) chain).

(** The loop leaves the array with no chain waiting for a record: every
    root it visits ends with a flag that is not ['1']. *)
Fixpoint settled (is_root : object -> bool) (flag field : string)
    (skip : nat) (array : list entity) : bool :=
  match array with
  | [] => Nat.eqb skip 0
  | record :: rest =>
      match skip with
      | S skip' => settled is_root flag field skip' rest
      | O =>
          if is_root (props record) then
            let (root, dropped) := absorb flag field (props record) rest in
            negb (continues flag root)
            && settled is_root flag field (length dropped) rest
          else settled is_root flag field 0 rest
      end
  end.

(** The information records a movement holds: [movement.information]. *)
Definition attached (movement : object) : list value :=
  match get "information" movement with
  | VArr items => items
  | _ => []
  end.

(** [s] is [l] with some elements left out. *)
Inductive subseq {A : Type} : list A -> list A -> Prop :=
| subseq_nil : forall l, subseq [] l
| subseq_skip : forall x s l, subseq s l -> subseq s (x :: l)
| subseq_take : forall x s l, subseq s l -> subseq (x :: s) (x :: l).

(** What the linking pass makes of one movement. *)
Definition linked_with (informations : list entity) (movement : entity)
  : entity :=
  fold_left
    (fun m i =>
       if same_key (props m) (props i)
       then mkEntity (oid m) (attach (props i) (props m))
       else m)
    informations movement.

(** The records of a chain after its root carry ['1'] in their flag, but
    for the last, which carries ['0']; the root of a chain of one record
    carries ['0'] itself. *)
Definition closed_chain (flag : string) (root : entity)
    (records : list entity) : bool :=
  match rev (root :: records) with
  | last :: others =>
      carries flag "0" last && forallb (carries flag "1") others
  | [] => false
  end.

(** The root of a movement chain, as the decoder of its communication
    leaves it. *)
Definition emitted (root : entity) (merged_root : object) (c : value)
  : entity :=
  mkEntity (oid root) (tidy "communication" (set "communication" c merged_root)).

(** A field of decimal digits and the integer it spells. *)
Definition is_digit (c : ascii) : bool :=
  let n := N_of_ascii c in ((48 <=? n) && (n <=? 57))%N.

Fixpoint all_digits (s : string) : bool :=
  match s with
  | EmptyString => true
  | String c s' => is_digit c && all_digits s'
  end.

Fixpoint decimal (s : string) (acc : N) : N :=
  match s with
  | EmptyString => acc
  | String c s' => decimal s' (acc * 10 + (N_of_ascii c - 48))%N
  end.

Definition magnitude (s : string) : Z := Z.of_N (decimal s 0).

(** A magnitude field: digits, at least one. *)
Definition is_magnitude (s : string) : bool :=
  all_digits s && negb (String.eqb s EmptyString).

(** [z / 1000] *)
Definition thousandth (z : Z) : number := Fin (Qred (z # 1000)).

(** The factor of a sign character: 1 for ['0'], -1 for ['1']. *)
Definition factor_of (sign : value) : Z :=
  if strict_eq sign (VStr Sign_Credit) then 1%Z else (-1)%Z.

(** The identities of an array are the indices of its records. *)
Definition numbered (array : list entity) : Prop :=
  map oid array = seq 0 (length array).

Definition well_numbered (d : document) : Prop :=
  numbered (movements d) /\ numbered (information d)
  /\ numbered (free_communications d).

Definition sample_header : string :=
  "0000018011520105        0938409934CODELICIOUS               GEBABEBB   09029308273 00001          984309          834080       2".

Definition sample_old_balance : string :=
  "10155001548226815 EUR0BE                  0000000004004100241214CODELICIOUS               PROFESSIONAL ACCOUNT               255".

Definition sample_new_balance : string :=
  "8225001548226815 EUR0BE                  1000000500012100120515                                                                0".

Definition sample_movement_1 : string :=
  "21000100000001200002835        0000000001767820251214001120000112/4554/46812   813                                 25121421401 0".

Definition sample_movement_2 : string :=
  "2200010000  ANOTHER MESSAGE                                           54875                       GEBCEEBB                   1 0".

Definition sample_movement_3 : string :=
  "2300010000BE54805480215856                  EURBVBA.BAKKER PIET                         MESSAGE                              0 1".


(** An information record with the sequence and the reference number of
    [sample_movement_1] *)
Definition sample_information_1 : string :=
  "31000100010001200002835        004800001001BVBA.BAKKER PIET                                                                  1 0".

Definition sample_information_2 : string :=
  "3200010001MAIN STREET 928                    5480 SOME CITY                                                                  0 0".

(** A movement with the structured communication 124 (number of the credit
    card), whose date lies across the end of record 2.1, and the record 2.2
    that continues it *)
Definition sample_card_movement : string :=
  "21000100000001200002835        00000000017678202512140011200011245412XXXXXXXX1234    1INV000000123CLIENT0000000012525121421401 0".

Definition sample_card_continuation : string :=
  "22000100001214                                                        54875                       GEBCEEBB                   0 0".

(** A structured communication 011 (coupons) with amount type 2 *)
Definition sample_coupon : string :=
  "011                                                                                                                               2".

Definition sample_free_communication : string :=
  "4 00020000                                              ACCOUNT INFORMATION                                                    1".

Definition sample_trailer : string :=
  "9               000015000000016837520000000003967220                                                                           1".

Definition newline : string := String "010" EmptyString.

(** The arrays the line loop builds from sample lines *)
Definition decoded (lines : list string) : document :=
  match parse_lines 2026 initial_state lines with
  | Ok st => snd st
  | Err _ => empty_document
  end.

Definition sample_chain : list entity :=
  movements (decoded [sample_movement_1; sample_movement_2; sample_movement_3]).

Definition sample_statement : string :=
  sample_movement_1 ++ newline ++ sample_movement_2 ++ newline
  ++ sample_information_1 ++ newline ++ sample_information_2.

Definition sample_truncated : list entity :=
  movements (decoded [sample_movement_1; sample_movement_2]).

Definition sample_root : entity := nth 0 sample_chain (mkEntity 0 []).

Definition sample_information : list entity :=
  information (decoded [sample_information_1]).

Definition sample_information_root : entity :=
  nth 0 sample_information (mkEntity 0 []).

Definition sample_detail : value :=
  match parseCommunicationDetail 2026
          (get "communication" (props sample_information_root))
          (VStr "structured") with
  | Ok c => c
  | Err _ => VNull
  end.

Definition sample_free : entity :=
  nth 0 (free_communications (decoded [sample_free_communication]))
      (mkEntity 0 []).

Definition sample_state : parse_state :=
  match parse_lines 2026 initial_state (split_lines (trim sample_statement))
  with
  | Ok st => st
  | Err _ => initial_state
  end.

Definition sample_after_old_balance : parse_state :=
  match parse_lines 2026 initial_state [sample_old_balance] with
  | Ok st => st
  | Err _ => initial_state
  end.

Definition sample_merged : document :=
  match merge_records 2026 (snd sample_state) with
  | Ok d => d
  | Err _ => empty_document
  end.

(** A text made of white space only. *)
Fixpoint all_space (s : string) : bool :=
  match s with
  | EmptyString => true
  | String c s' => is_space c && all_space s'
  end.

(** A text in which no two white-space characters are adjacent. *)
Fixpoint single_spaced (s : string) : bool :=
  match s with
  | String c s' =>
      match s' with
      | String d _ => negb (is_space c && is_space d) && single_spaced s'
      | EmptyString => true
      end
  | EmptyString => true
  end.

Definition head_space (s : string) : bool :=
  match s with
  | String c _ => is_space c
  | EmptyString => false
  end.

Fixpoint ends_clean (s : string) : bool :=
  match s with
  | EmptyString => true
  | String c s' =>
      match s' with
      | EmptyString => negb (is_space c)
      | String _ _ => ends_clean s'
      end
  end.

(** What a line must have for the line loop to decode it: a record type the
    loop knows; for a header the columns up to its date; for a balance a
    sign of 0 or 1 and the columns up to its date; for a record 2.1 a
    communication flag of 0 or 1 and the columns up to its entry date; for
    a record 2.2 the column of its R-transaction type; for a record 3.1 a
    communication flag of 0 or 1.  Nothing is asked of the other records. *)
Definition accepts (line : string) : bool :=
  match String.get 0 line with
  | Some "0"%char => (11 <=? String.length line)%nat
  | Some "1"%char => is_sign (char_at line 42) && (64 <=? String.length line)%nat
  | Some "2"%char =>
      if startsWith "21" line
      then is_communication_flag (char_at line 61)
           && (121 <=? String.length line)%nat
      else if startsWith "22" line then (113 <=? String.length line)%nat
      else true
  | Some "3"%char =>
      if startsWith "31" line then is_communication_flag (char_at line 39)
      else true
  | Some "8"%char => is_sign (char_at line 41) && (63 <=? String.length line)%nat
  | Some "4"%char => true
  | Some "9"%char => true
  | _ => false
  end.

(** The lines the line loop pushes a record for, and the decoder of each. *)
Definition is_movement_line (line : string) : bool :=
  startsWith "21" line || startsWith "22" line || startsWith "23" line.

Definition is_information_line (line : string) : bool :=
  startsWith "31" line || startsWith "32" line || startsWith "33" line.

Definition is_free_communication_line (line : string) : bool :=
  startsWith "4" line.

Definition decode_movement (now : Z) (line : string) : result object :=
  if startsWith "21" line then parseMovement21 now line
  else if startsWith "22" line then parseMovement22 line
  else parseMovement23 line.

Definition decode_information (line : string) : result object :=
  if startsWith "31" line then parseAdditionalInformation31 line
  else if startsWith "32" line then parseAdditionalInformation32 line
  else parseAdditionalInformation33 line.

(** The objects of an array, each as the result of a decoder that
    returned. *)
Definition returned_objects (array : list entity) : list (result object) :=
  map (fun e => Ok (props e)) array.

(** The last line of a record type, if any. *)
Fixpoint last_of (type : ascii) (lines : list string) : option string :=
  match lines with
  | [] => None
  | line :: rest =>
      match last_of type rest with
      | Some l => Some l
      | None =>
          match String.get 0 line with
          | Some c => if Ascii.eqb c type then Some line else None
          | None => None
          end
      end
  end.

(** The property names of the records, as the decoders write them. *)
Definition movement_21_keys : list string :=
  ["record_identification"; "article_code"; "sequence"; "detail_sequence";
   "reference_number"; "amount"; "value_date"; "transaction_code";
   "communication_type"; "communication"; "entry_date"; "sequence_number";
   "globalisation_code"; "next_code"; "link_code"].

Definition movement_22_keys : list string :=
  ["record_identification"; "article_code"; "sequence_number";
   "detail_sequence"; "communication"; "customer_reference"; "bic";
   "r_transaction_type"; "r_reason"; "category_purpose"; "purpose";
   "next_code"; "link_code"].

Definition movement_23_keys : list string :=
  ["record_identification"; "article_code"; "sequence"; "detail_sequence";
   "counterparty"; "communication"; "next_code"; "link_code"].

Definition information_31_keys : list string :=
  ["record_identification"; "article_code"; "sequence"; "detail_sequence";
   "reference_number"; "transaction_code"; "communication_type";
   "communication"; "next_code"; "link_code"].

Definition information_32_keys : list string :=
  ["record_identification"; "article_code"; "sequence"; "detail_sequence";
   "communication"; "next_code"; "link_code"].

Definition free_communication_keys : list string :=
  ["record_identification"; "sequence"; "detail_sequence"; "text";
   "link_code"].

(** The objects in the [information] list of a movement. *)
Definition attached_objects (movement : object) : list object :=
  flat_map (fun v => match v with VObj o => [o] | _ => [] end)
           (attached movement).

(** The errors of the outer [switch] of the two communication decoders,
    raised for a communication type that is neither ['structured'] nor
    ['unstructured'], and the error of reading a communication that is not
    a text. *)
Definition unreachable (e : error) : bool :=
  match e with
  | UnknownMovementCommunicationType => true
  | UnknownCommunicationType => true
  | TypeError what => String.eqb what "slice"
  | _ => false
  end.

(** The two communication types. *)
Definition is_communication_type (v : value) : bool :=
  strict_eq v (VStr "unstructured") || strict_eq v (VStr "structured").

(** A computation none of whose errors is one of those. *)
Definition quiet {A : Type} (r : result A) : Prop :=
  forall e, r = Err e -> unreachable e = false.

Definition quiet_reader {A : Type} (r : reader A) : Prop :=
  forall st, quiet (r st).

(** What the merge loop needs of a record: it names each property once, its
    communication is a text, its communication type, when it has one, is one
    of the two, and it has one when its article code is 1. *)
Definition typed_record (o : object) : Prop :=
  distinct_keys o = true /\
  is_text (get "communication" o) = true /\
  (has_key "communication_type" o = true ->
   is_communication_type (get "communication_type" o) = true) /\
  (first_article o = true -> has_key "communication_type" o = true).

Definition typed_root (o : object) : Prop :=
  is_text (get "communication" o) = true /\
  is_communication_type (get "communication_type" o) = true.

(** The number of movements an information record has the key of. *)
Definition matches (array : list entity) (information : entity) : nat :=
  length (filter (fun m => same_key (props m) (props information)) array).

(** A record of the array by its identity. *)
Definition is_record (d e : entity) : bool := Nat.eqb (oid e) (oid d).

(** A table that lists each key once. *)
Fixpoint listed_once {R : Type} (table : list (string * R)) : bool :=
  match table with
  | [] => true
  | (k, _) :: rest =>
      negb (existsb (String.eqb k) (map fst rest)) && listed_once rest
  end.

(** [match] on a table of integer keys, for a number that is an integer *)
Fixpoint lookup_integer {R : Type} (z : Z) (table : list (Z * R))
  : option R :=
  match table with
  | [] => None
  | (k, r) :: rest => if Z.eqb z k then Some r else lookup_integer z rest
  end.

(** A word: a text that is not empty and holds no white space. *)
Fixpoint no_space (s : string) : bool :=
  match s with
  | EmptyString => true
  | String c s' => negb (is_space c) && no_space s'
  end.

Definition is_word (s : string) : bool :=
  no_space s && negb (String.eqb s EmptyString).

(** A read that returns on every stream. *)
Definition total {A : Type} (r : reader A) : Prop :=
  forall st, is_ok (r st) = true.

(** A free communication that ends its chain, from the test suite *)
Definition sample_public_message : string :=
  "4 00010005                      THIS IS A PUBLIC MESSAGE                                                                       0".

Definition sample_result : document :=
  Eval vm_compute in
    match parse 2026 sample_statement with
    | Ok d => d
    | Err _ => empty_document
    end.

Definition sample_singles : parse_state :=
  Eval vm_compute in
    match parse_lines 2026 initial_state
            [sample_header; sample_old_balance; sample_header; sample_trailer]
    with
    | Ok st => st
    | Err _ => initial_state
    end.

(** The document of the sample statement before the linking pass *)
Definition sample_linkable : document := Eval vm_compute in sample_merged.

Definition sample_information_chain : list entity :=
  Eval vm_compute in
    information (decoded [sample_information_1; sample_information_2]).

Definition sample_free_chain : list entity :=
  Eval vm_compute in
    free_communications
      (decoded [sample_free_communication; sample_public_message]).

Definition sample_movement_object : object :=
  Eval vm_compute in
    match parseMovement21 2026 sample_movement_1 with
    | Ok o => o
    | Err _ => []
    end.

Definition sample_new_balance_object : value :=
  Eval vm_compute in
    match parseNewBalance 2026 sample_new_balance None with
    | Ok v => v
    | Err _ => VNull
    end.

(** A value that, when it is a text, is a normalised one. *)
Definition normalised (v : value) : Prop :=
  forall s, v = VStr s -> normalise s = s.

(** The transaction code of an individual transfer order *)
Definition sample_transaction_code : object :=
  [("type", VStr "0"); ("family", VStr "01"); ("transaction", VStr "01");
   ("category", VStr "000")].

(** A stream at a field of twelve digits *)
Definition sample_stream : StringStream := mkStream "105000000012500" 3.

(** A property of a record that the clean-up and the linking pass leave as
    it is. *)
Definition kept_property (k : string) : Prop :=
  k <> "information" /\ k <> "next_code" /\ k <> "link_code".

(** A movement chain of three records, and a statement every array of
    which ends in the middle of a chain *)
Definition sample_chain_statement : string :=
  sample_movement_1 ++ newline ++ sample_movement_2 ++ newline
  ++ sample_movement_3.

Definition sample_chain_state : parse_state :=
  Eval vm_compute in
    match parse_lines 2026 initial_state
            (split_lines (trim sample_chain_statement)) with
    | Ok st => st
    | Err _ => initial_state
    end.

Definition sample_truncated_statement : string :=
  sample_movement_1 ++ newline ++ sample_movement_2 ++ newline
  ++ sample_information_1 ++ newline ++ sample_free_communication.

Definition sample_truncated_state : parse_state :=
  Eval vm_compute in
    match parse_lines 2026 initial_state
            (split_lines (trim sample_truncated_statement)) with
    | Ok st => st
    | Err _ => initial_state
    end.

(** ** The line loop *)

Lemma bind_ok {A B : Type} (r : result A) (k : A -> result B) (b : B) :
  bind r k = Ok b -> exists a, r = Ok a /\ k a = Ok b.
Proof. destruct r as [a|e]; simpl; intros H; [eauto | discriminate]. Qed.

(** Takes apart a run that ended in [Ok]: every test is decided and every
    step that can throw is taken to have returned. *)
Ltac returned H :=
  repeat match type of H with
         | (if ?b then _ else _) = _ => destruct b
         | bind ?r _ = Ok _ => destruct r; simpl in H; [|discriminate H]
         end.

Lemma parse_lines_app now st pre post :
  parse_lines now st (pre ++ post)
  = (st' <- parse_lines now st pre ;; parse_lines now st' post).
Proof.
  revert st. induction pre as [|l pre IH]; intros st; simpl; [reflexivity|].
  destruct (parse_line now st l) as [st'|e]; simpl; [apply IH | reflexivity].
Qed.

Lemma parse_line_unknown now st line :
  known_record_type line = false -> parse_line now st line = Err UnknownRecordType.
Proof.
  unfold known_record_type, parse_line.
  destruct (String.get 0 line) as [c|]; [|reflexivity].
  destruct c as [[] [] [] [] [] [] [] []]; simpl; intros H;
    try reflexivity; discriminate H.
Qed.

(** Claim C5.  A line whose first character is none of 0, 1, 2, 3, 4, 8, 9
    makes [parse] return no document: the decode ends in an error, and the
    error is 'Unknown record type' when the lines before that line were
    decoded. *)
Theorem unknown_record_type_aborts now coda pre line post :
  split_lines (trim coda) = pre ++ line :: post ->
  known_record_type line = false ->
  (exists e, parse now coda = Err e) /\
  (is_ok (parse_lines now initial_state pre) = true ->
   parse now coda = Err UnknownRecordType).
Proof.
  intros Hs Hk. unfold parse. rewrite Hs, parse_lines_app. fold initial_state.
  destruct (parse_lines now initial_state pre) as [st|e]; simpl.
  - rewrite (parse_line_unknown now st line Hk). simpl. split; eauto.
  - split; [eauto | discriminate].
Qed.

Lemma startsWith_two (a b : ascii) (line : string) :
  startsWith (String a (String b EmptyString)) line = true ->
  String.get 0 line = Some a /\ String.get 1 line = Some b.
Proof.
  unfold startsWith. destruct line as [|c0 [|c1 l]]; simpl; try discriminate.
  - destruct (ascii_dec a c0); discriminate.
  - destruct (ascii_dec a c0); [|discriminate].
    destruct (ascii_dec b c1); [|discriminate]. subst. auto.
Qed.

Lemma unknown_article_not_prefix (a b : ascii) (line : string) :
  known_article line = false -> In b ["1"; "2"; "3"]%char ->
  startsWith (String a (String b EmptyString)) line = false.
Proof.
  intros Hk Hb.
  destruct (startsWith (String a (String b EmptyString)) line) eqn:E; [|reflexivity].
  apply startsWith_two in E. destruct E as [_ E].
  unfold known_article in Hk. rewrite E in Hk.
  simpl in Hb. destruct Hb as [<-|[<-|[<-|[]]]]; discriminate Hk.
Qed.

Lemma parse_line_unknown_article now st line :
  (String.get 0 line = Some "2"%char \/ String.get 0 line = Some "3"%char) ->
  known_article line = false ->
  parse_line now st line = Ok st.
Proof.
  intros H0 Hk. unfold parse_line.
  destruct H0 as [-> | ->];
    rewrite !(unknown_article_not_prefix _ _ line Hk) by (simpl; tauto);
    reflexivity.
Qed.

(** Claim C10.  A line of record type 2 or 3 whose second character is
    none of 1, 2, 3 is skipped: the state of the decode is unchanged, so no
    record is made and no error is raised, although its record type is a
    known one; the document is the one decoded without that line. *)
Theorem unknown_article_is_skipped now st line :
  (String.get 0 line = Some "2"%char \/ String.get 0 line = Some "3"%char) ->
  known_article line = false ->
  parse_line now st line = Ok st /\
  known_record_type line = true /\
  forall st0 pre post,
    parse_lines now st0 (pre ++ line :: post) = parse_lines now st0 (pre ++ post).
Proof.
  intros H0 Hk. pose proof (parse_line_unknown_article now st line H0 Hk) as Hl.
  split; [exact Hl|]. split.
  - unfold known_record_type. destruct H0 as [-> | ->]; reflexivity.
  - intros st0 pre post. rewrite !parse_lines_app.
    destruct (parse_lines now st0 pre) as [st'|e]; simpl; [|reflexivity].
    rewrite (parse_line_unknown_article now st' line H0 Hk). reflexivity.
Qed.

(** ** Strings *)

Lemma length_substring (n m : nat) (s : string) :
  n + m <= String.length s -> String.length (substring n m s) = m.
Proof.
  revert n m. induction s as [|c s IH]; intros n m H; simpl in H.
  - assert (n = 0) by lia. assert (m = 0) by lia. subst. reflexivity.
  - destruct n as [|n]; destruct m as [|m]; simpl; try reflexivity.
    + f_equal. apply (IH 0 m). simpl. lia.
    + apply IH. lia.
    + apply IH. lia.
Qed.

Lemma length_slice (a b : nat) (s : string) :
  a <= b -> b <= String.length s -> String.length (slice a b s) = b - a.
Proof. intros Hab Hb. unfold slice. apply length_substring. lia. Qed.

(** ** Dates *)

Lemma parseDate_six now s :
  String.length s = 6 ->
  parseDate now s
  = Ok (VDate (century now ++ slice 4 6 s ++ "-" ++ slice 2 4 s ++ "-"
               ++ slice 0 2 s)).
Proof. intros H. unfold parseDate. rewrite H. reflexivity. Qed.


Lemma sign_factor_ok v :
  is_sign v = true ->
  sign_factor v
  = Ok (if strict_eq v (VStr Sign_Credit) then num_of_Z 1 else num_of_Z (-1)).
Proof.
  unfold is_sign, Sign_Credit, Sign_Debit. intros H.
  destruct v as [| | |n|s| | |]; simpl in H; try discriminate H.
  - destruct n; discriminate H.
  - apply orb_true_iff in H. destruct H as [H|H];
      apply String.eqb_eq in H; subst; reflexivity.
Qed.

(** ** The account of the balances *)

Lemma parseAccount_total structure line :
  exists a, parseAccount structure line = Ok a.
Proof.
  unfold parseAccount.
  repeat match goal with
         | |- context [if ?b then _ else _] => destruct b
         end; eexists; reflexivity.
Qed.

Lemma spread_account_total before structure line :
  exists o, spread_account before structure line = Ok (VObj o).
Proof.
  unfold spread_account.
  destruct (parseAccount_total structure line) as [a ->]. simpl. eauto.
Qed.

Lemma parseNewBalance_ok now line asd :
  is_sign (char_at line 41) = true -> 63 <= String.length line ->
  exists v, parseNewBalance now line asd = Ok v /\
    Ok (field "account" v)
    = match asd with
      | None => Ok (VObj [])
      | Some structure => spread_account [] structure (slice 4 41 line)
      end.
Proof.
  intros Hs Hl. unfold parseNewBalance.
  assert (exists acc,
    match asd with
    | None => Ok (VObj [])
    | Some structure => spread_account [] structure (slice 4 41 line)
    end = Ok acc) as [acc Hacc].
  { destruct asd; [|eauto].
    destruct (spread_account_total [] n (slice 4 41 line)) as [o ->]. eauto. }
  rewrite Hacc. cbn [record bind].
  rewrite (sign_factor_ok _ Hs). cbn [bind num].
  rewrite parseDate_six by (apply length_slice; lia).
  cbn [bind record]. eexists. split; [reflexivity|]. reflexivity.
Qed.

Lemma parse_line_discriminant now st line st' :
  parse_line now st line = Ok st' ->
  fst st' = discriminant_after (fst st) [line].
Proof.
  unfold parse_line, discriminant_after, is_old_balance, with_movement,
    with_information. simpl.
  destruct (String.get 0 line) as [c|]; [|discriminate].
  destruct c as [[] [] [] [] [] [] [] []]; simpl; try discriminate;
    intros H; returned H;
    try discriminate; injection H as <-; reflexivity.
Qed.

Lemma parse_lines_discriminant now lines : forall st st',
  parse_lines now st lines = Ok st' ->
  fst st' = discriminant_after (fst st) lines.
Proof.
  induction lines as [|l lines IH]; intros st st' H; simpl in H.
  - injection H as <-. reflexivity.
  - apply bind_ok in H. destruct H as [st1 [H1 H2]].
    apply IH in H2. apply parse_line_discriminant in H1.
    rewrite H2, H1. reflexivity.
Qed.

Lemma discriminant_after_none lines :
  forallb (fun l => negb (is_old_balance l)) lines = true ->
  forall start, discriminant_after start lines = start.
Proof.
  unfold discriminant_after.
  induction lines as [|l lines IH]; simpl; intros H start; [reflexivity|].
  apply andb_true_iff in H. destruct H as [Hl H].
  destruct (is_old_balance l); [discriminate|]. apply IH, H.
Qed.

Lemma discriminant_after_last start before old after :
  is_old_balance old = true ->
  forallb (fun l => negb (is_old_balance l)) after = true ->
  discriminant_after start (before ++ old :: after)
  = Some (Number (char_at old 1)).
Proof.
  intros Ho Ha. unfold discriminant_after. rewrite fold_left_app. simpl.
  rewrite Ho. apply (discriminant_after_none after Ha).
Qed.

(** Claim C8.  A new-balance line with a sign and a date is decoded
    whether or not an old-balance line came before it.  With none before
    it, its account is the empty object; otherwise its account is decoded
    with the structure read from the second character of the last
    old-balance line before it. *)
Theorem new_balance_account now pre line st :
  parse_lines now initial_state pre = Ok st ->
  String.get 0 line = Some "8"%char ->
  is_sign (char_at line 41) = true ->
  63 <= String.length line ->
  exists st',
    parse_line now st line = Ok st' /\
    (forallb (fun l => negb (is_old_balance l)) pre = true ->
     field "account" (balance_new (snd st')) = VObj []) /\
    (forall before old after,
       pre = before ++ old :: after ->
       is_old_balance old = true ->
       forallb (fun l => negb (is_old_balance l)) after = true ->
       Ok (field "account" (balance_new (snd st')))
       = spread_account [] (Number (char_at old 1)) (slice 4 41 line)).
Proof.
  intros Hpre H8 Hs Hl.
  destruct (parseNewBalance_ok now line (fst st) Hs Hl) as [v [Hv Ha]].
  exists (fst st,
          mkDocument (header (snd st)) (balance_old (snd st)) v
                     (movements (snd st)) (information (snd st))
                     (free_communications (snd st)) (trailer (snd st))).
  split; [|split].
  - unfold parse_line. rewrite H8, Hv. reflexivity.
  - intros Hnone. simpl.
    rewrite (parse_lines_discriminant now pre _ _ Hpre) in Ha.
    rewrite (discriminant_after_none pre Hnone) in Ha. simpl in Ha.
    injection Ha as ->. reflexivity.
  - intros before old after -> Ho Hafter. simpl.
    rewrite (parse_lines_discriminant now _ _ _ Hpre) in Ha.
    rewrite (discriminant_after_last _ before old after Ho Hafter) in Ha.
    exact Ha.
Qed.

(** ** The dates of a movement *)




(** ** [match] and the code books *)

Lemma own_property_none {R : Type} (k : string) (table : list (string * R)) :
  existsb (String.eqb k) (map fst table) = false -> own_property k table = None.
Proof.
  induction table as [|[k' r] table IH]; simpl; [reflexivity|].
  intros H. apply orb_false_iff in H. destruct H as [-> H]. apply IH, H.
Qed.

Lemma own_index_none {R : Type} (n : number) (table : list (Z * R)) :
  existsb (fun k => strict_eq (VNum n) (VNum (num_of_Z k))) (map fst table)
  = false ->
  own_index n table = None.
Proof.
  induction table as [|[k r] table IH]; simpl; [reflexivity|].
  intros H. apply orb_false_iff in H. destruct H as [H1 H].
  simpl in H1. rewrite H1. apply IH, H.
Qed.

Lemma match_wildcard {R : Type} (v : value) (table : list (string * R))
    (w : R) :
  is_ok (match_ v table (Some w)) = true /\
  (own_property (key_of v) table = None -> match_ v table (Some w) = Ok w).
Proof.
  unfold match_. destruct (own_property (key_of v) table); split;
    try reflexivity; discriminate.
Qed.

Lemma match_number_wildcard {R : Type} (n : number) (table : list (Z * R))
    (w : R) :
  is_ok (match_number n table (Some w)) = true /\
  (own_index n table = None -> match_number n table (Some w) = Ok w).
Proof.
  unfold match_number. destruct (own_index n table); split;
    try reflexivity; discriminate.
Qed.

Lemma own_property_map {A B : Type} (f : A -> B) k (table : list (string * A)) :
  own_property k (map (fun e => (fst e, f (snd e))) table)
  = option_map f (own_property k table).
Proof.
  induction table as [|[k' a] table IH]; simpl; [reflexivity|].
  destruct (String.eqb k k'); [reflexivity | apply IH].
Qed.

Lemma transaction_description_eq tc :
  transaction_description tc
  = match own_property (key_of (get "family" tc)) transaction_descriptions with
    | Some table => match_ (get "transaction" tc) table wildcard
    | None => Ok (VStr unknown)
    end.
Proof.
  unfold transaction_description, match_ at 1.
  rewrite (own_property_map
             (fun t => match_ (get "transaction" tc) t wildcard)).
  destruct (own_property (key_of (get "family" tc)) transaction_descriptions);
    simpl; [|reflexivity].
  destruct (match_ (get "transaction" tc) l wildcard); reflexivity.
Qed.

Lemma transaction_description_ok tc :
  is_ok (transaction_description tc) = true /\
  (own_property (key_of (get "family" tc)) transaction_descriptions = None ->
   transaction_description tc = Ok (VStr unknown)) /\
  (forall table,
     own_property (key_of (get "family" tc)) transaction_descriptions
     = Some table ->
     own_property (key_of (get "transaction" tc)) table = None ->
     transaction_description tc = Ok (VStr unknown)).
Proof.
  rewrite transaction_description_eq.
  destruct (own_property (key_of (get "family" tc)) transaction_descriptions)
    as [table|].
  - destruct (match_wildcard (get "transaction" tc) table (VStr unknown))
      as [H1 H2].
    split; [exact H1|]. split; [discriminate|].
    intros t [= <-]. exact H2.
  - split; [reflexivity|]. split; [reflexivity | discriminate].
Qed.

Lemma movement_layout_labels now n :
  map fst (movement_layouts now n) = movement_types.
Proof. reflexivity. Qed.

Lemma detail_layout_labels now :
  map fst (detail_layouts now) = detail_types.
Proof. reflexivity. Qed.

Lemma unknown_movement_type_throws now communication :
  known_movement_type (Number (VStr (discriminant_of communication))) = false ->
  parseCommunicationMovement now (VStr communication) (VStr "structured")
  = Err UnknownStructuredMovementCommunicationType.
Proof.
  intros H. unfold known_movement_type in H.
  rewrite <- (movement_layout_labels now
                (Number (VStr (discriminant_of communication)))) in H.
  apply own_index_none in H.
  unfold parseCommunicationMovement, over, run, rbind, take, new_StringStream.
  cbn [strict_eq String.eqb Ascii.eqb Bool.eqb str pos Nat.add].
  unfold discriminant_of in H. rewrite H. reflexivity.
Qed.

Lemma unknown_detail_type_throws now communication :
  known_detail_type (discriminant_of communication) = false ->
  parseCommunicationDetail now (VStr communication) (VStr "structured")
  = Err UnknownStructuredCommunicationType.
Proof.
  intros H. unfold known_detail_type in H.
  rewrite <- (detail_layout_labels now) in H.
  apply own_property_none in H.
  unfold parseCommunicationDetail, over, run, rbind, take, new_StringStream.
  cbn [strict_eq String.eqb Ascii.eqb Bool.eqb str pos Nat.add].
  unfold discriminant_of in H. rewrite H. reflexivity.
Qed.

(** Claim C6.  A structured communication whose discriminant has no
    [case] in the decoder of its side makes the decoder throw; a code that
    a description table does not list never does: every description
    accessor returns, and returns ['<Unknown>'] for an unlisted code. *)
Theorem unknown_layout_throws_unknown_code_does_not :
  (forall now communication,
     known_movement_type (Number (VStr (discriminant_of communication)))
     = false ->
     parseCommunicationMovement now (VStr communication) (VStr "structured")
     = Err UnknownStructuredMovementCommunicationType) /\
  (forall now communication,
     known_detail_type (discriminant_of communication) = false ->
     parseCommunicationDetail now (VStr communication) (VStr "structured")
     = Err UnknownStructuredCommunicationType) /\
  (forall transaction_code,
     is_ok (family_description transaction_code) = true /\
     is_ok (transaction_description transaction_code) = true /\
     is_ok (category_description transaction_code) = true) /\
  (forall transaction_code,
     own_property (key_of (get "family" transaction_code)) family_descriptions
     = None ->
     family_description transaction_code = Ok (VStr unknown)) /\
  (forall transaction_code,
     own_property (key_of (get "family" transaction_code))
                  transaction_descriptions = None ->
     transaction_description transaction_code = Ok (VStr unknown)) /\
  (forall transaction_code,
     own_property (key_of (get "category" transaction_code))
                  category_descriptions = None ->
     category_description transaction_code = Ok (VStr unknown)) /\
  (forall field table communication,
     is_ok (lookup_number field table communication) = true /\
     (own_index (Number (get field communication)) table = None ->
      lookup_number field table communication = Ok (VStr unknown))) /\
  (forall communication,
     is_ok (securities_code_type_description communication) = true /\
     (own_property (key_of (get "securities_code_type" communication))
                   securities_code_types = None ->
      securities_code_type_description communication = Ok (VStr unknown))).
Proof.
  split; [exact unknown_movement_type_throws|].
  split; [exact unknown_detail_type_throws|].
  split.
  { intros tc. split; [apply match_wildcard|].
    split; [apply transaction_description_ok | apply match_wildcard]. }
  split; [intros tc; apply match_wildcard|].
  split; [intros tc; apply transaction_description_ok|].
  split; [intros tc; apply match_wildcard|].
  split; [intros f t c; apply match_number_wildcard|].
  intros c; apply match_wildcard.
Qed.

(** ** The clock *)

Section Century.

Variables y1 y2 : Z.
Hypothesis same_century : century y1 = century y2.

Lemma parseDate_century : parseDate y1 = parseDate y2.
Proof.
  apply functional_extensionality. intros input.
  unfold parseDate. rewrite same_century. reflexivity.
Qed.

Lemma dated_century : dated y1 = dated y2.
Proof. unfold dated. rewrite parseDate_century. reflexivity. Qed.

Lemma parseHeader_century : parseHeader y1 = parseHeader y2.
Proof. unfold parseHeader. rewrite parseDate_century. reflexivity. Qed.

Lemma parseOldBalance_century : parseOldBalance y1 = parseOldBalance y2.
Proof. unfold parseOldBalance. rewrite parseDate_century. reflexivity. Qed.

Lemma parseNewBalance_century : parseNewBalance y1 = parseNewBalance y2.
Proof. unfold parseNewBalance. rewrite parseDate_century. reflexivity. Qed.

Lemma parseMovement21_century : parseMovement21 y1 = parseMovement21 y2.
Proof. unfold parseMovement21. rewrite parseDate_century. reflexivity. Qed.

Lemma parseCommunicationDetail_century :
  parseCommunicationDetail y1 = parseCommunicationDetail y2.
Proof.
  unfold parseCommunicationDetail, detail_layouts, detail_010, detail_011.
  rewrite dated_century. reflexivity.
Qed.

Lemma parseCommunicationMovement_century :
  parseCommunicationMovement y1 = parseCommunicationMovement y2.
Proof.
  unfold parseCommunicationMovement, movement_layouts, transaction_of.
  rewrite dated_century. reflexivity.
Qed.

Lemma parse_line_century : parse_line y1 = parse_line y2.
Proof.
  unfold parse_line.
  rewrite parseHeader_century, parseOldBalance_century,
    parseNewBalance_century, parseMovement21_century.
  reflexivity.
Qed.

Lemma parse_lines_century st lines :
  parse_lines y1 st lines = parse_lines y2 st lines.
Proof.
  revert st. induction lines as [|l lines IH]; intros st; simpl;
    [reflexivity|].
  rewrite parse_line_century.
  destruct (parse_line y2 st l); simpl; [apply IH | reflexivity].
Qed.

Lemma parse_records_century : parse_records y1 = parse_records y2.
Proof.
  unfold parse_records, merge_records, merge_movements, merge_information,
    finish_movement, finish_information.
  rewrite parseCommunicationMovement_century,
    parseCommunicationDetail_century.
  reflexivity.
Qed.

End Century.

(** Claim C9, as amended.  [parse] is a function of the text and of the
    century of the current year: two calls on the same text in years of
    the same century return the same document or the same error. *)
Theorem parse_is_a_function_of_text_and_century y1 y2 coda :
  century y1 = century y2 -> parse y1 coda = parse y2 coda.
Proof.
  intros H. unfold parse.
  rewrite (parse_lines_century y1 y2 H), (parse_records_century y1 y2 H).
  reflexivity.
Qed.

(** ** Objects *)

Lemma get_set_same k v o : get k (set k v o) = v.
Proof.
  induction o as [|[k' v'] o IH]; simpl.
  - rewrite String.eqb_refl. reflexivity.
  - destruct (String.eqb k k') eqn:E; simpl.
    + rewrite String.eqb_refl. reflexivity.
    + rewrite E. exact IH.
Qed.

Lemma get_set_other k k' v o :
  String.eqb k k' = false -> get k (set k' v o) = get k o.
Proof.
  intros Hk. induction o as [|[k1 v1] o IH]; simpl.
  - rewrite Hk. reflexivity.
  - destruct (String.eqb k' k1) eqn:E; simpl.
    + apply String.eqb_eq in E. subst k1. rewrite Hk. reflexivity.
    + destruct (String.eqb k k1); [reflexivity | exact IH].
Qed.

Lemma get_absent k o : has_key k o = false -> get k o = VUndefined.
Proof.
  unfold has_key. induction o as [|[k' v'] o IH]; simpl; [reflexivity|].
  intros H. apply orb_false_iff in H. destruct H as [-> H]. apply IH, H.
Qed.

Lemma get_assign_absent k source : forall target,
  has_key k source = false -> get k (assign target source) = get k target.
Proof.
  unfold assign, has_key.
  induction source as [|[k' v'] source IH]; simpl; intros target H;
    [reflexivity|].
  apply orb_false_iff in H. destruct H as [H1 H2].
  rewrite (IH _ H2). apply get_set_other, H1.
Qed.

Lemma get_assign_present k source : forall target,
  distinct_keys source = true -> has_key k source = true ->
  get k (assign target source) = get k source.
Proof.
  induction source as [|[k' v'] source IH]; simpl; intros target Hd Hk;
    [discriminate|].
  apply andb_true_iff in Hd. destruct Hd as [Hn Hd].
  unfold has_key in Hk. simpl in Hk.
  destruct (String.eqb k k') eqn:E.
  - apply String.eqb_eq in E. subst k'.
    change (get k (assign (set k v' target) source) = v').
    rewrite get_assign_absent by (apply negb_true_iff, Hn).
    apply get_set_same.
  - simpl in Hk. change (get k (assign (set k' v' target) source) = get k source).
    apply IH; assumption.
Qed.

Lemma flag_has_key flag v o :
  strict_eq (get flag o) (VStr v) = true -> has_key flag o = true.
Proof.
  intros H. destruct (has_key flag o) eqn:E; [reflexivity|].
  rewrite (get_absent _ _ E) in H. discriminate H.
Qed.

(** ** Chains *)

Section ChainFacts.

Variables flag field : string.
Hypothesis flag_is_not_field : String.eqb flag field = false.

Lemma get_field_merged root next :
  get field (merged field root next)
  = VStr (text_of (get field root) ++ text_of (get field next)).
Proof. unfold merged. rewrite get_set_same. reflexivity. Qed.

Lemma get_flag_merged v root next :
  carries flag v next = true ->
  get flag (merged field root (props next)) = get flag (props next).
Proof.
  unfold carries. intros H. apply andb_true_iff in H. destruct H as [Hf Hd].
  unfold merged. rewrite get_set_other by exact flag_is_not_field.
  apply get_assign_present; [exact Hd | exact (flag_has_key _ _ _ Hf)].
Qed.

Lemma continues_merged v root next :
  carries flag v next = true ->
  continues flag (merged field root (props next)) = String.eqb v "1".
Proof.
  intros H. unfold continues. rewrite (get_flag_merged v _ _ H).
  unfold carries in H. apply andb_true_iff in H. destruct H as [Hf _].
  destruct (get flag (props next)) as [| | |n|s| | |]; simpl in Hf;
    try discriminate Hf.
  - destruct n; discriminate Hf.
  - apply String.eqb_eq in Hf. subst s. reflexivity.
Qed.

Lemma chain_text_cons root next chain :
  chain_text field (merged field root (props next)) chain
  = chain_text field root (next :: chain).
Proof.
  unfold chain_text. rewrite get_field_merged. simpl text_of.
  simpl map.
  assert (forall a l,
            String.concat "" (a :: l) = (a ++ String.concat "" l)%string)
    as Hc.
  { intros a l. destruct l as [|b l]; simpl.
    - clear. induction a; simpl; [reflexivity | f_equal; assumption].
    - reflexivity. }
  rewrite Hc.
  generalize (text_of (get field root)) as a.
  generalize (text_of (get field (props next))) as b.
  generalize (String.concat ""
                (map (fun e => text_of (get field (props e))) chain)) as c.
  clear. intros c b a. induction a; simpl; [reflexivity | f_equal; assumption].
Qed.

(** The text of the merged root is the concatenation of the fragments. *)
Lemma chain_root_text chain : forall root,
  is_text (get field root) = true ->
  get field (chain_root field root chain)
  = VStr (chain_text field root chain).
Proof.
  induction chain as [|next chain IH]; intros root Ht.
  - unfold chain_root, chain_text. simpl.
    destruct (get field root); try discriminate Ht. simpl.
    f_equal. clear. induction s; simpl; [reflexivity | f_equal; assumption].
  - change (chain_root field root (next :: chain))
      with (chain_root field (merged field root (props next)) chain).
    rewrite IH by (rewrite get_field_merged; reflexivity).
    rewrite chain_text_cons. reflexivity.
Qed.

(** A chain that the array ends before its last record: every record is
    consumed and the root still asks for more. *)
Lemma absorb_starved chain : forall root,
  continues flag root = true ->
  forallb (carries flag "1") chain = true ->
  absorb flag field root chain = (chain_root field root chain, chain) /\
  continues flag (chain_root field root chain) = true.
Proof.
  induction chain as [|next chain IH]; intros root Hc Hall; simpl.
  - split; [reflexivity | exact Hc].
  - simpl in Hall. apply andb_true_iff in Hall. destruct Hall as [Hn Hall].
    rewrite Hc.
    destruct (IH (merged field root (props next))) as [-> H2];
      [rewrite (continues_merged "1" _ _ Hn); reflexivity | exact Hall |].
    split; [reflexivity | exact H2].
Qed.

(** A chain whose last record carries a flag that is not ['1']: exactly
    its records are consumed, whatever follows in the array. *)
Lemma absorb_closed chain last v rest : forall root,
  continues flag root = true ->
  forallb (carries flag "1") chain = true ->
  carries flag v last = true -> String.eqb v "1" = false ->
  absorb flag field root (chain ++ last :: rest)
  = (chain_root field root (chain ++ [last]), chain ++ [last]) /\
  continues flag (chain_root field root (chain ++ [last])) = false.
Proof.
  induction chain as [|next chain IH]; intros root Hc Hall Hl Hv; simpl.
  - rewrite Hc.
    assert (continues flag (merged field root (props last)) = false) as Hm
      by (rewrite (continues_merged v _ _ Hl); exact Hv).
    unfold chain_root. simpl.
    destruct rest as [|r rest]; simpl; [|rewrite Hm]; split;
      solve [reflexivity | exact Hm].
  - simpl in Hall. apply andb_true_iff in Hall. destruct Hall as [Hn Hall].
    rewrite Hc.
    destruct (IH (merged field root (props next))) as [-> H2];
      [rewrite (continues_merged "1" _ _ Hn); reflexivity
      | exact Hall | exact Hl | exact Hv |].
    split; [reflexivity | exact H2].
Qed.

Lemma absorb_stopped root rest :
  continues flag root = false -> absorb flag field root rest = (root, []).
Proof. intros H. destruct rest; simpl; [|rewrite H]; reflexivity. Qed.

(** What a closed chain consumed does not depend on what follows. *)
Lemma absorb_app rest post : forall root,
  continues flag (fst (absorb flag field root rest)) = false ->
  absorb flag field root (rest ++ post) = absorb flag field root rest.
Proof.
  induction rest as [|next rest IH]; intros root H; simpl in *.
  - apply absorb_stopped, H.
  - destruct (continues flag root) eqn:Hc; [|reflexivity].
    destruct (absorb flag field (merged field root (props next)) rest)
      as [final dropped] eqn:E.
    rewrite IH by (rewrite E; exact H). rewrite E. reflexivity.
Qed.

Lemma absorb_length rest : forall root,
  length (snd (absorb flag field root rest)) <= length rest.
Proof.
  induction rest as [|next rest IH]; intros root; simpl; [lia|].
  destruct (continues flag root); simpl; [|lia].
  specialize (IH (merged field root (props next))).
  destruct (absorb flag field (merged field root (props next)) rest).
  simpl in *. lia.
Qed.

End ChainFacts.

(** ** The merge loop *)

Section MergeFacts.

Variable is_root : object -> bool.
Variables flag field : string.
Variable finish : object -> result object.
Variable visit : object -> result object.

Local Abbreviation merge := (merge_chains is_root flag field finish visit).
Local Abbreviation closed := (settled is_root flag field).

(** Stepping over consumed records leaves them as they are. *)
Lemma merge_skip consumed post :
  merge (length consumed) (consumed ++ post)
  = (r <- merge 0 post ;; Ok (consumed ++ fst r, snd r)).
Proof.
  induction consumed as [|e consumed IH]; simpl.
  - destruct (merge 0 post) as [[out drop]|]; reflexivity.
  - rewrite IH.
    destruct (merge 0 post) as [[out drop]|]; reflexivity.
Qed.

Lemma merge_skip_all consumed :
  merge (length consumed) consumed = Ok (consumed, []).
Proof.
  pose proof (merge_skip consumed []) as H.
  rewrite app_nil_r in H. rewrite H. simpl. rewrite app_nil_r. reflexivity.
Qed.

(** The loop over a settled array does not look at what follows it. *)
Lemma merge_app pre post : forall skip,
  closed skip pre = true ->
  merge skip (pre ++ post)
  = (r <- merge skip pre ;;
     r' <- merge 0 post ;;
     Ok (fst r ++ fst r', snd r ++ snd r')).
Proof.
  induction pre as [|e pre IH]; intros skip H.
  - simpl in H. apply Nat.eqb_eq in H. subst skip. simpl.
    destruct (merge 0 post) as [[out drop]|]; reflexivity.
  - destruct skip as [|skip].
    + simpl in H |- *.
      destruct (is_root (props e)).
      * destruct (absorb flag field (props e) pre) as [root dropped] eqn:E.
        apply andb_true_iff in H. destruct H as [Hc H].
        rewrite absorb_app by (rewrite E; apply negb_true_iff, Hc).
        rewrite E.
        destruct (finish root) as [root'|]; simpl; [|reflexivity].
        rewrite (IH _ H).
        destruct (merge (length dropped) pre) as [[o1 d1]|]; simpl;
          [|reflexivity].
        destruct (merge 0 post) as [[o2 d2]|]; simpl; [|reflexivity].
        rewrite app_assoc. reflexivity.
      * destruct (visit (props e)) as [o|]; simpl; [|reflexivity].
        rewrite (IH _ H).
        destruct (merge 0 pre) as [[o1 d1]|]; simpl; [|reflexivity].
        destruct (merge 0 post) as [[o2 d2]|]; reflexivity.
    + simpl in H |- *. rewrite (IH _ H).
      destruct (merge skip pre) as [[o1 d1]|]; simpl; [|reflexivity].
      destruct (merge 0 post) as [[o2 d2]|]; reflexivity.
Qed.

(** The loop keeps every record at its place, with its identity. *)
Lemma merge_oids array : forall skip out drop,
  merge skip array = Ok (out, drop) -> map oid out = map oid array.
Proof.
  induction array as [|e array IH]; intros skip out drop H.
  - simpl in H. injection H as <- <-. reflexivity.
  - destruct skip as [|skip]; simpl in H.
    + destruct (is_root (props e)).
      * destruct (absorb flag field (props e) array) as [root dropped].
        destruct (finish root) as [root'|]; simpl in H; [|discriminate H].
        destruct (merge (length dropped) array) as [[o1 d1]|] eqn:E;
          simpl in H; [|discriminate H].
        injection H as <- <-. simpl. f_equal. exact (IH _ _ _ E).
      * destruct (visit (props e)) as [o|]; simpl in H; [|discriminate H].
        destruct (merge 0 array) as [[o1 d1]|] eqn:E;
          simpl in H; [|discriminate H].
        injection H as <- <-. simpl. f_equal. exact (IH _ _ _ E).
    + destruct (merge skip array) as [[o1 d1]|] eqn:E;
        simpl in H; [|discriminate H].
      injection H as <- <-. simpl. f_equal. exact (IH _ _ _ E).
Qed.

Hypothesis flag_is_not_field : String.eqb flag field = false.

(** A chain the array ends in the middle of. *)
Lemma merge_starved root chain :
  is_root (props root) = true ->
  continues flag (props root) = true ->
  forallb (carries flag "1") chain = true ->
  merge 0 (root :: chain)
  = (root' <- finish (chain_root field (props root) chain) ;;
     Ok (mkEntity (oid root) root' :: chain, chain)).
Proof.
  intros Hr Hc Hall. simpl. rewrite Hr.
  destruct (absorb_starved flag field flag_is_not_field chain (props root)
              Hc Hall) as [-> _].
  destruct (finish (chain_root field (props root) chain)); simpl;
    [|reflexivity].
  rewrite merge_skip_all. simpl. rewrite app_nil_r. reflexivity.
Qed.

(** A chain that ends by the flag of its last record. *)
Lemma merge_closed root chain last v rest :
  is_root (props root) = true ->
  continues flag (props root) = true ->
  forallb (carries flag "1") chain = true ->
  carries flag v last = true -> String.eqb v "1" = false ->
  merge 0 (root :: (chain ++ [last]) ++ rest)
  = (root' <- finish (chain_root field (props root) (chain ++ [last])) ;;
     r <- merge 0 rest ;;
     Ok (mkEntity (oid root) root' :: (chain ++ [last]) ++ fst r,
         (chain ++ [last]) ++ snd r)).
Proof.
  intros Hr Hc Hall Hl Hv. simpl. rewrite Hr.
  rewrite <- app_assoc. simpl app.
  destruct (absorb_closed flag field flag_is_not_field chain last v rest
              (props root) Hc Hall Hl Hv) as [-> _].
  destruct (finish (chain_root field (props root) (chain ++ [last])));
    simpl; [|reflexivity].
  replace (chain ++ last :: rest) with ((chain ++ [last]) ++ rest)
    by (rewrite <- app_assoc; reflexivity).
  rewrite merge_skip.
  destruct (merge 0 rest) as [[o d]|]; reflexivity.
Qed.

End MergeFacts.

(** ** Removing records *)

Lemma subseq_refl {A : Type} (l : list A) : subseq l l.
Proof. induction l; [apply subseq_nil | apply subseq_take; assumption]. Qed.

Lemma subseq_In {A : Type} (s l : list A) x : subseq s l -> In x s -> In x l.
Proof.
  induction 1 as [l|y s l _ IH|y s l _ IH]; simpl; intros H.
  - contradiction.
  - right. apply IH, H.
  - destruct H as [H|H]; [left; exact H | right; apply IH, H].
Qed.

Lemma subseq_NoDup {A : Type} (s l : list A) :
  subseq s l -> NoDup l -> NoDup s.
Proof.
  induction 1 as [l|y s l _ IH|y s l Hs IH]; intros Hn.
  - constructor.
  - inversion Hn; subst. apply IH. assumption.
  - inversion Hn as [|? ? Hy Hl]; subst. constructor.
    + intros Hin. apply Hy. exact (subseq_In _ _ _ Hs Hin).
    + apply IH, Hl.
Qed.

Lemma subseq_app {A : Type} (s1 l1 s2 l2 : list A) :
  subseq s1 l1 -> subseq s2 l2 -> subseq (s1 ++ s2) (l1 ++ l2).
Proof.
  induction 1 as [l|y s l _ IH|y s l _ IH]; intros H2; simpl.
  - induction l as [|x l IHl]; simpl; [exact H2 | apply subseq_skip; exact IHl].
  - apply subseq_skip. apply IH, H2.
  - apply subseq_take. apply IH, H2.
Qed.

Lemma subseq_map {A B : Type} (f : A -> B) (s l : list A) :
  subseq s l -> subseq (map f s) (map f l).
Proof.
  induction 1; simpl;
    [apply subseq_nil | apply subseq_skip | apply subseq_take]; assumption.
Qed.

Lemma indexOf_none record array :
  indexOf record array = None -> ~ In (oid record) (map oid array).
Proof.
  induction array as [|e array IH]; simpl; intros H; [tauto|].
  destruct (Nat.eqb (oid e) (oid record)) eqn:E; [discriminate H|].
  apply Nat.eqb_neq in E.
  destruct (indexOf record array); [discriminate H|].
  intros [Hin|Hin]; [exact (E Hin) | exact (IH eq_refl Hin)].
Qed.

Lemma remove_at_found record array : forall i,
  indexOf record array = Some i ->
  NoDup (map oid array) ->
  ~ In (oid record) (map oid (remove_at i array)) /\
  (forall x, In x (map oid array) -> x <> oid record ->
             In x (map oid (remove_at i array))).
Proof.
  induction array as [|e array IH]; simpl; intros i H Hn; [discriminate H|].
  inversion Hn as [|? ? He Hn']; subst.
  destruct (Nat.eqb (oid e) (oid record)) eqn:E.
  - injection H as <-. apply Nat.eqb_eq in E. simpl. split.
    + rewrite <- E. exact He.
    + intros x [Hx|Hx] Hne; [congruence | exact Hx].
  - apply Nat.eqb_neq in E.
    destruct (indexOf record array) as [j|] eqn:Ej; [|discriminate H].
    injection H as <-. simpl. destruct (IH j eq_refl Hn') as [H1 H2]. split.
    + intros [Hin|Hin]; [exact (E Hin) | exact (H1 Hin)].
    + intros x [Hx|Hx] Hne; [left; exact Hx | right; exact (H2 x Hx Hne)].
Qed.

Lemma remove_at_subseq array : forall i, subseq (remove_at i array) array.
Proof.
  induction array as [|e array IH]; intros i; destruct i; simpl;
    [apply subseq_nil | apply subseq_nil
    | apply subseq_skip, subseq_refl | apply subseq_take, IH].
Qed.

Lemma removelast_subseq (array : list entity) :
  subseq (removelast array) array.
Proof.
  induction array as [|e array IH]; simpl; [apply subseq_nil|].
  destruct array; [apply subseq_nil | apply subseq_take; exact IH].
Qed.

Lemma splice_out_subseq array record : subseq (splice_out array record) array.
Proof.
  unfold splice_out. destruct (indexOf record array);
    [apply remove_at_subseq | apply removelast_subseq].
Qed.

Lemma subseq_trans {A : Type} (a b c : list A) :
  subseq a b -> subseq b c -> subseq a c.
Proof.
  intros Hab Hbc. revert a Hab.
  induction Hbc as [l|y s l _ IH|y s l _ IH]; intros a Hab.
  - inversion Hab; subst. apply subseq_nil.
  - apply subseq_skip. apply IH, Hab.
  - inversion Hab; subst;
      [apply subseq_nil | apply subseq_skip | apply subseq_take];
      apply IH; assumption.
Qed.

Lemma remove_dropped_subseq drop : forall array,
  subseq (remove_dropped drop array) array.
Proof.
  unfold remove_dropped.
  induction drop as [|d drop IH]; intros array; simpl; [apply subseq_refl|].
  exact (subseq_trans _ _ _ (IH (splice_out array d))
           (splice_out_subseq array d)).
Qed.

Lemma splice_out_absent array record :
  NoDup (map oid array) ->
  ~ In (oid record) (map oid (splice_out array record)).
Proof.
  intros Hn. unfold splice_out.
  destruct (indexOf record array) as [i|] eqn:E.
  - exact (proj1 (remove_at_found record array i E Hn)).
  - intros Hin. apply (indexOf_none record array E).
    exact (subseq_In _ _ _ (subseq_map oid _ _ (removelast_subseq array)) Hin).
Qed.

(** A record on the [drop] list is not in the array afterwards. *)
Lemma remove_dropped_absent drop : forall array d,
  NoDup (map oid array) -> In d drop ->
  ~ In (oid d) (map oid (remove_dropped drop array)).
Proof.
  unfold remove_dropped.
  induction drop as [|d0 drop IH]; intros array d Hn Hin; simpl in *;
    [contradiction|].
  assert (NoDup (map oid (splice_out array d0))) as Hn'
    by exact (subseq_NoDup _ _
                (subseq_map oid _ _ (splice_out_subseq array d0)) Hn).
  destruct Hin as [->|Hin].
  - intros H. apply (splice_out_absent array d Hn).
    exact (subseq_In _ _ _
             (subseq_map oid _ _ (remove_dropped_subseq drop _)) H).
  - exact (IH _ d Hn' Hin).
Qed.

(** A record that is not on the [drop] list stays, when every dropped
    record is in the array and is dropped once. *)
Lemma remove_dropped_keeps drop : forall array x,
  NoDup (map oid array) -> NoDup (map oid drop) ->
  (forall d, In d drop -> In (oid d) (map oid array)) ->
  In x (map oid array) -> ~ In x (map oid drop) ->
  In x (map oid (remove_dropped drop array)).
Proof.
  unfold remove_dropped.
  induction drop as [|d0 drop IH]; intros array x Hn Hd Hsub Hx Hnx; simpl in *;
    [exact Hx|].
  inversion Hd as [|? ? Hd0 Hd']; subst.
  assert (In (oid d0) (map oid array)) as Hin0 by (apply Hsub; left; reflexivity).
  unfold splice_out at 2.
  destruct (indexOf d0 array) as [i|] eqn:E;
    [|exfalso; exact (indexOf_none d0 array E Hin0)].
  destruct (remove_at_found d0 array i E Hn) as [_ Hkeep].
  apply IH.
  - exact (subseq_NoDup _ _ (subseq_map oid _ _ (remove_at_subseq array i)) Hn).
  - exact Hd'.
  - intros d Hdin. apply Hkeep; [apply Hsub; right; exact Hdin|].
    intros Heq. apply Hd0. rewrite <- Heq. apply in_map, Hdin.
  - apply Hkeep; [exact Hx | intros Heq; apply Hnx; left; symmetry; exact Heq].
  - intros H. apply Hnx. right. exact H.
Qed.

(** ** Linking *)

Lemma attached_attach information movement :
  attached (attach information movement)
  = attached movement ++ [VObj information].
Proof.
  unfold attached, attach.
  destruct (get "information" movement); rewrite get_set_same; reflexivity.
Qed.

Lemma same_key_attach information movement other :
  same_key (attach information movement) other = same_key movement other.
Proof.
  unfold same_key, attach.
  destruct (get "information" movement);
    rewrite !get_set_other by reflexivity; reflexivity.
Qed.

Lemma link_cons i informations array :
  link (i :: informations) array
  = (fst (link informations (fst (link_one i array))),
     snd (link_one i array)
     ++ snd (link informations (fst (link_one i array)))).
Proof.
  simpl. destruct (link informations _) as [a d]. reflexivity.
Qed.

Lemma link_fst informations : forall array,
  fst (link informations array) = map (linked_with informations) array.
Proof.
  induction informations as [|i informations IH]; intros array.
  - simpl. rewrite map_id. reflexivity.
  - rewrite link_cons. cbn [fst]. rewrite IH. unfold link_one. cbn [fst].
    rewrite map_map. reflexivity.
Qed.

Lemma linked_with_oid informations : forall m,
  oid (linked_with informations m) = oid m.
Proof.
  induction informations as [|i informations IH]; intros m; simpl;
    [reflexivity|].
  change (oid (linked_with informations
                 (if same_key (props m) (props i)
                  then mkEntity (oid m) (attach (props i) (props m))
                  else m)) = oid m).
  rewrite IH. destruct (same_key (props m) (props i)); reflexivity.
Qed.

Lemma linked_with_same_key informations other : forall m,
  same_key (props (linked_with informations m)) other
  = same_key (props m) other.
Proof.
  induction informations as [|i informations IH]; intros m; simpl;
    [reflexivity|].
  change (same_key
            (props (linked_with informations
                      (if same_key (props m) (props i)
                       then mkEntity (oid m) (attach (props i) (props m))
                       else m))) other = same_key (props m) other).
  rewrite IH. destruct (same_key (props m) (props i)); [|reflexivity].
  apply same_key_attach.
Qed.

Lemma linked_with_grows informations v : forall m,
  In v (attached (props m)) ->
  In v (attached (props (linked_with informations m))).
Proof.
  induction informations as [|i informations IH]; intros m H; simpl;
    [exact H|].
  apply IH. destruct (same_key (props m) (props i)); [|exact H].
  simpl. rewrite attached_attach. apply in_or_app. left. exact H.
Qed.

(** Every information record with the key of a movement is in the list of
    that movement after the pass. *)
Lemma linked_with_attached informations i : forall m,
  In i informations -> same_key (props m) (props i) = true ->
  In (VObj (props i)) (attached (props (linked_with informations m))).
Proof.
  induction informations as [|j informations IH]; intros m Hin Hk;
    [contradiction|].
  simpl. destruct Hin as [->|Hin].
  - rewrite Hk. apply linked_with_grows. simpl. rewrite attached_attach.
    apply in_or_app. right. left. reflexivity.
  - apply IH; [exact Hin|].
    destruct (same_key (props m) (props j)); [|exact Hk].
    simpl. rewrite same_key_attach. exact Hk.
Qed.

(** ... and is on the [drop] list of the pass. *)
Lemma link_drops informations i : forall array m,
  In i informations -> In m array -> same_key (props m) (props i) = true ->
  In i (snd (link informations array)).
Proof.
  induction informations as [|j informations IH]; intros array m Hin Hm Hk;
    [contradiction|].
  rewrite link_cons. cbn [snd]. apply in_or_app.
  destruct Hin as [->|Hin].
  - left. unfold link_one. cbn [snd].
    apply in_map_iff. exists m. split; [reflexivity|].
    apply filter_In. split; assumption.
  - right. unfold link_one. cbn [fst].
    apply (IH _ (if same_key (props m) (props j)
                 then mkEntity (oid m) (attach (props j) (props m))
                 else m)); [exact Hin | |].
    + apply in_map_iff. exists m. split; [reflexivity | exact Hm].
    + destruct (same_key (props m) (props j)); [|exact Hk].
      simpl. rewrite same_key_attach. exact Hk.
Qed.

(** The linking pass on two arrays: an information record with the key of
    a movement is appended to the list of that movement, at whatever index
    the movement is, and is not in the information array afterwards. *)
Lemma link_moves_information informations array linked drop :
  link informations array = (linked, drop) ->
  NoDup (map oid informations) ->
  forall i m k,
    In i informations ->
    nth_error array k = Some m ->
    same_key (props m) (props i) = true ->
    (exists m',
       nth_error linked k = Some m' /\ oid m' = oid m /\
       In (VObj (props i)) (attached (props m'))) /\
    ~ In (oid i) (map oid (remove_dropped drop informations)).
Proof.
  intros Hl Hn i m k Hi Hm Hk. split.
  - exists (linked_with informations m).
    assert (linked = map (linked_with informations) array) as ->
      by (rewrite <- link_fst, Hl; reflexivity).
    split; [|split].
    + rewrite nth_error_map, Hm. reflexivity.
    + apply linked_with_oid.
    + apply linked_with_attached; assumption.
  - apply remove_dropped_absent; [exact Hn|].
    assert (drop = snd (link informations array)) as ->
      by (rewrite Hl; reflexivity).
    apply (link_drops informations i array m); try assumption.
    exact (nth_error_In _ _ Hm).
Qed.

(** ** The final sequence *)

Lemma absorb_prefix flag field rest : forall root,
  exists remaining, rest = snd (absorb flag field root rest) ++ remaining.
Proof.
  induction rest as [|next rest IH]; intros root; simpl.
  - exists []. reflexivity.
  - destruct (continues flag root).
    + destruct (IH (merged field root (props next))) as [remaining H].
      destruct (absorb flag field (merged field root (props next)) rest)
        as [final dropped].
      simpl in *. exists remaining. f_equal. exact H.
    + exists (next :: rest). reflexivity.
Qed.

Section DropFacts.

Variable is_root : object -> bool.
Variables flag field : string.
Variable finish : object -> result object.
Variable visit : object -> result object.

Local Abbreviation merge := (merge_chains is_root flag field finish visit).

(** The [drop] list holds records of the array, in the order of the
    array, each once, and none the index was told to step over. *)
Lemma merge_drop_skipn array : forall skip out drop,
  merge skip array = Ok (out, drop) -> subseq drop (skipn skip array).
Proof.
  induction array as [|e array IH]; intros skip out drop H.
  - simpl in H. injection H as <- <-. apply subseq_nil.
  - destruct skip as [|skip]; simpl in H.
    + destruct (is_root (props e)).
      * destruct (absorb_prefix flag field array (props e)) as [rem Hrem].
        destruct (absorb flag field (props e) array) as [root dropped].
        simpl in Hrem.
        destruct (finish root) as [root'|]; simpl in H; [|discriminate H].
        destruct (merge (length dropped) array) as [[o1 d1]|] eqn:E;
          simpl in H; [|discriminate H].
        injection H as <- <-. simpl. apply subseq_skip.
        apply IH in E. rewrite Hrem in E.
        rewrite skipn_app, skipn_all, Nat.sub_diag in E. simpl in E.
        rewrite Hrem. apply subseq_app; [apply subseq_refl | exact E].
      * destruct (visit (props e)) as [o|]; simpl in H; [|discriminate H].
        destruct (merge 0 array) as [[o1 d1]|] eqn:E;
          simpl in H; [|discriminate H].
        injection H as <- <-. simpl. apply subseq_skip.
        exact (IH _ _ _ E).
    + destruct (merge skip array) as [[o1 d1]|] eqn:E;
        simpl in H; [|discriminate H].
      injection H as <- <-. simpl. exact (IH _ _ _ E).
Qed.

Lemma merge_drop_subseq array out drop :
  merge 0 array = Ok (out, drop) -> subseq drop array.
Proof. exact (merge_drop_skipn array 0 out drop). Qed.

(** After the loop and the removal, no dropped record is left and every
    other record is. *)
Lemma merge_then_remove array out drop :
  merge 0 array = Ok (out, drop) ->
  NoDup (map oid array) ->
  forall x, In x (map oid (remove_dropped drop out))
            <-> In x (map oid array) /\ ~ In x (map oid drop).
Proof.
  intros H Hn x.
  pose proof (merge_oids _ _ _ _ _ _ _ _ _ H) as Ho.
  pose proof (subseq_map oid _ _ (merge_drop_subseq _ _ _ H)) as Hs.
  rewrite <- Ho in Hn, Hs |- *.
  split.
  - intros Hx. split.
    + exact (subseq_In _ _ _
               (subseq_map oid _ _ (remove_dropped_subseq drop out)) Hx).
    + intros Hd. apply in_map_iff in Hd. destruct Hd as [d [<- Hd]].
      exact (remove_dropped_absent drop out d Hn Hd Hx).
  - intros [Hx Hd]. apply remove_dropped_keeps; try assumption.
    + exact (subseq_NoDup _ _ Hs Hn).
    + intros d Hin. exact (subseq_In _ _ _ Hs (in_map oid _ _ Hin)).
Qed.

End DropFacts.

Lemma strict_eq_text v s : strict_eq v (VStr s) = true -> v = VStr s.
Proof.
  destruct v as [| | |n|t| | |]; simpl; try discriminate.
  - destruct n; discriminate.
  - intros H. apply String.eqb_eq in H. subst t. reflexivity.
Qed.

Lemma NoDup_map_inj {A B : Type} (f : A -> B) (l : list A) a b :
  NoDup (map f l) -> In a l -> In b l -> f a = f b -> a = b.
Proof.
  induction l as [|x l IH]; simpl; intros Hn Ha Hb Hf; [contradiction|].
  inversion Hn as [|? ? Hx Hn']; subst.
  destruct Ha as [->|Ha]; destruct Hb as [->|Hb]; try reflexivity.
  - exfalso. apply Hx. rewrite Hf. apply in_map, Hb.
  - exfalso. apply Hx. rewrite <- Hf. apply in_map, Ha.
  - exact (IH Hn' Ha Hb Hf).
Qed.

Section EmittedFacts.

Variable is_root : object -> bool.
Variables flag field : string.
Variable finish : object -> result object.
Variable visit : object -> result object.
Hypothesis flag_is_not_field : String.eqb flag field = false.

Local Abbreviation merge := (merge_chains is_root flag field finish visit).
Local Abbreviation closed := (settled is_root flag field).

(** The records of the final sequence: those of the array after the loop
    that are not on the [drop] list. *)
Lemma merge_then_remove_In array out drop :
  merge 0 array = Ok (out, drop) ->
  NoDup (map oid array) ->
  forall e, In e (remove_dropped drop out)
            <-> In e out /\ ~ In (oid e) (map oid drop).
Proof.
  intros H Hn e.
  pose proof (merge_then_remove _ _ _ _ _ _ _ _ H Hn (oid e)) as Hx.
  pose proof (merge_oids _ _ _ _ _ _ _ _ _ H) as Ho.
  split.
  - intros He. split.
    + exact (subseq_In _ _ _ (remove_dropped_subseq drop out) He).
    + apply Hx. apply in_map, He.
  - intros [He Hd].
    assert (In (oid e) (map oid (remove_dropped drop out))) as Hin.
    { apply Hx. split; [rewrite <- Ho; apply in_map, He | exact Hd]. }
    apply in_map_iff in Hin. destruct Hin as [e' [Heq He']].
    assert (e' = e) as <-; [|exact He'].
    apply (NoDup_map_inj oid out); try assumption.
    + rewrite Ho. exact Hn.
    + exact (subseq_In _ _ _ (remove_dropped_subseq drop out) He').
Qed.

(** A chain at the end of the array that the array ends in the middle
    of, after records that leave no chain waiting. *)
Lemma merge_truncated pre root chain out drop root' :
  closed 0 pre = true ->
  merge 0 pre = Ok (out, drop) ->
  is_root (props root) = true ->
  forallb (carries flag "1") (root :: chain) = true ->
  finish (chain_root field (props root) chain) = Ok root' ->
  merge 0 (pre ++ root :: chain)
  = Ok (out ++ mkEntity (oid root) root' :: chain, drop ++ chain).
Proof.
  intros Hc Hp Hr Hall Hf.
  simpl in Hall. apply andb_true_iff in Hall. destruct Hall as [H1 Hall].
  rewrite (merge_app _ _ _ _ _ _ _ _ Hc), Hp. cbn [bind].
  rewrite (merge_starved _ _ _ _ _ flag_is_not_field _ _ Hr); try assumption.
  - rewrite Hf. reflexivity.
  - unfold carries in H1. apply andb_true_iff in H1. exact (proj1 H1).
Qed.

(** A chain that ends by the flag of its last record, anywhere in the
    array. *)
Lemma merge_chain pre root records rest :
  closed 0 pre = true ->
  is_root (props root) = true ->
  closed_chain flag root records = true ->
  absorb flag field (props root) (records ++ rest)
  = (chain_root field (props root) records, records) /\
  merge 0 (pre ++ root :: records ++ rest)
  = (r <- merge 0 pre ;;
     root' <- finish (chain_root field (props root) records) ;;
     r' <- merge 0 rest ;;
     Ok (fst r ++ mkEntity (oid root) root' :: records ++ fst r',
         snd r ++ records ++ snd r')).
Proof.
  intros Hc Hr Hchain. unfold closed_chain in Hchain.
  destruct (rev (root :: records)) as [|last others] eqn:E;
    [discriminate Hchain|].
  apply andb_true_iff in Hchain. destruct Hchain as [Hlast Hothers].
  assert (root :: records = rev others ++ [last]) as Hshape.
  { rewrite <- (rev_involutive (root :: records)), E. reflexivity. }
  assert (forallb (carries flag "1") (rev others) = true) as Hrev.
  { apply forallb_forall. intros x Hx. apply in_rev in Hx.
    exact (proj1 (forallb_forall _ _) Hothers x Hx). }
  rewrite (merge_app _ _ _ _ _ _ _ _ Hc).
  destruct (rev others) as [|first chain] eqn:Eo; simpl in Hshape.
  - (* the root is the whole chain *)
    injection Hshape as -> ->.
    assert (continues flag (props last) = false) as Hstop.
    { unfold carries in Hlast. apply andb_true_iff in Hlast.
      destruct Hlast as [Hf _]. unfold continues.
      rewrite (strict_eq_text _ _ Hf). reflexivity. }
    split.
    + simpl. apply absorb_stopped, Hstop.
    + simpl. rewrite Hr. rewrite (absorb_stopped _ _ _ _ Hstop).
      unfold chain_root. simpl.
      destruct (merge 0 pre) as [[o1 d1]|]; simpl; [|reflexivity].
      destruct (finish (props last)); simpl; [|reflexivity].
      destruct (merge 0 rest) as [[o2 d2]|]; reflexivity.
  - injection Hshape as <- ->.
    simpl in Hrev. apply andb_true_iff in Hrev. destruct Hrev as [Hroot Hrev].
    assert (continues flag (props root) = true) as Hcont.
    { unfold carries in Hroot. apply andb_true_iff in Hroot.
      exact (proj1 Hroot). }
    split.
    + rewrite <- app_assoc. simpl.
      exact (proj1 (absorb_closed _ _ flag_is_not_field chain last "0" rest
                      (props root) Hcont Hrev Hlast eq_refl)).
    + rewrite (merge_closed _ _ _ _ _ flag_is_not_field root chain last "0"
                 rest Hr Hcont Hrev Hlast eq_refl).
      destruct (merge 0 pre) as [[o1 d1]|]; simpl; [|reflexivity].
      destruct (finish (chain_root field (props root) (chain ++ [last])));
        simpl; [|reflexivity].
      destruct (merge 0 rest) as [[o2 d2]|]; reflexivity.
Qed.

End EmittedFacts.

Section FinalSequence.

Variable is_root : object -> bool.
Variables flag field : string.
Variable finish : object -> result object.
Variable visit : object -> result object.
Hypothesis flag_is_not_field : String.eqb flag field = false.

Local Abbreviation merge := (merge_chains is_root flag field finish visit).
Local Abbreviation closed := (settled is_root flag field).

Lemma truncated_emitted pre root chain out drop root' :
  closed 0 pre = true ->
  merge 0 pre = Ok (out, drop) ->
  is_root (props root) = true ->
  forallb (carries flag "1") (root :: chain) = true ->
  finish (chain_root field (props root) chain) = Ok root' ->
  NoDup (map oid (pre ++ root :: chain)) ->
  merge 0 (pre ++ root :: chain)
  = Ok (out ++ mkEntity (oid root) root' :: chain, drop ++ chain) /\
  In (mkEntity (oid root) root')
     (remove_dropped (drop ++ chain)
        (out ++ mkEntity (oid root) root' :: chain)) /\
  (forall r, In r chain ->
     ~ In r (remove_dropped (drop ++ chain)
               (out ++ mkEntity (oid root) root' :: chain))).
Proof.
  intros Hc Hp Hr Hall Hf Hn.
  pose proof (merge_truncated _ _ _ _ _ flag_is_not_field _ _ _ _ _ _
                Hc Hp Hr Hall Hf) as Hm.
  pose proof (merge_then_remove_In _ _ _ _ _ _ _ _ Hm Hn) as Hfinal.
  split; [exact Hm|]. split.
  - apply Hfinal. split; [apply in_or_app; right; left; reflexivity|].
    simpl. rewrite map_app in Hn |- *. simpl in Hn.
    apply NoDup_remove_2 in Hn. intros Hin. apply Hn.
    apply in_app_or in Hin. apply in_or_app.
    destruct Hin as [Hin|Hin]; [left | right; exact Hin].
    exact (subseq_In _ _ _
             (subseq_map oid _ _ (merge_drop_subseq _ _ _ _ _ _ _ _ Hp))
             Hin).
  - intros r Hin Hfin. apply Hfinal in Hfin. apply (proj2 Hfin).
    rewrite map_app. apply in_or_app. right. apply in_map, Hin.
Qed.

Lemma chain_emitted pre root records rest out drop :
  closed 0 pre = true ->
  is_root (props root) = true ->
  closed_chain flag root records = true ->
  NoDup (map oid (pre ++ root :: records ++ rest)) ->
  merge 0 (pre ++ root :: records ++ rest) = Ok (out, drop) ->
  (forall r, In r records ->
     ~ In (oid r) (map oid (remove_dropped drop out))) /\
  exists root',
    finish (chain_root field (props root) records) = Ok root' /\
    In (mkEntity (oid root) root') (remove_dropped drop out).
Proof.
  intros Hc Hr Hchain Hn Hm.
  pose proof (merge_then_remove_In _ _ _ _ _ _ _ _ Hm Hn) as Hfinal.
  pose proof (merge_then_remove _ _ _ _ _ _ _ _ Hm Hn) as Hoids.
  rewrite (proj2 (merge_chain _ _ _ _ _ flag_is_not_field pre root records
                    rest Hc Hr Hchain)) in Hm.
  destruct (merge 0 pre) as [[o1 d1]|] eqn:E1; simpl in Hm;
    [|discriminate Hm].
  destruct (finish (chain_root field (props root) records)) as [root'|];
    simpl in Hm; [|discriminate Hm].
  destruct (merge 0 rest) as [[o2 d2]|] eqn:E2; simpl in Hm;
    [|discriminate Hm].
  injection Hm as <- <-. split.
  - intros r Hin Hfin. apply Hoids in Hfin. apply (proj2 Hfin).
    rewrite !map_app. apply in_or_app. right. apply in_or_app. left.
    apply in_map, Hin.
  - exists root'. split; [reflexivity|].
    apply Hfinal. split; [apply in_or_app; right; left; reflexivity|].
    simpl. rewrite map_app in Hn. simpl in Hn. rewrite map_app in Hn.
    apply NoDup_remove_2 in Hn. intros Hin. apply Hn.
    rewrite map_app in Hin.
    apply in_app_or in Hin. apply in_or_app.
    destruct Hin as [Hin|Hin].
    + left.
      exact (subseq_In _ _ _
               (subseq_map oid _ _ (merge_drop_subseq _ _ _ _ _ _ _ _ E1))
               Hin).
    + right. rewrite map_app in Hin.
      apply in_app_or in Hin. apply in_or_app.
      destruct Hin as [Hin|Hin]; [left; exact Hin | right].
      exact (subseq_In _ _ _
               (subseq_map oid _ _ (merge_drop_subseq _ _ _ _ _ _ _ _ E2))
               Hin).
Qed.

End FinalSequence.

(** An unstructured communication is accepted as it is. *)
Lemma unstructured_is_accepted now line :
  parseCommunicationMovement now line (VStr "unstructured") = Ok line /\
  parseCommunicationDetail now line (VStr "unstructured") = Ok line.
Proof. split; reflexivity. Qed.

Lemma finish_movement_text now root chain c :
  is_text (get "communication" (props root)) = true ->
  parseCommunicationMovement now
    (VStr (chain_text "communication" (props root) chain))
    (get "communication_type" (chain_root "communication" (props root) chain))
  = Ok c ->
  finish_movement now (chain_root "communication" (props root) chain)
  = Ok (props (emitted root (chain_root "communication" (props root) chain) c)).
Proof.
  intros Ht Hc. unfold finish_movement.
  rewrite (chain_root_text "communication" chain (props root) Ht), Hc.
  reflexivity.
Qed.

Lemma finish_information_text now root chain c :
  is_text (get "communication" (props root)) = true ->
  parseCommunicationDetail now
    (VStr (chain_text "communication" (props root) chain))
    (get "communication_type" (chain_root "communication" (props root) chain))
  = Ok c ->
  finish_information now (chain_root "communication" (props root) chain)
  = Ok (props (emitted root (chain_root "communication" (props root) chain) c)).
Proof.
  intros Ht Hc. unfold finish_information.
  rewrite (chain_root_text "communication" chain (props root) Ht), Hc.
  reflexivity.
Qed.

Lemma tidy_text_chain root chain :
  is_text (get "text" (props root)) = true ->
  tidy_text (chain_root "text" (props root) chain)
  = Ok (set "text" (VStr (normalise (chain_text "text" (props root) chain)))
            (chain_root "text" (props root) chain)).
Proof.
  intros Ht. unfold tidy_text.
  rewrite (chain_root_text "text" chain (props root) Ht). reflexivity.
Qed.

(** The loop over the movements on a chain whose records carry ['1'] in
    [next_code] but for the last, which carries ['0']: it consumes exactly
    the records after the root, the text handed to the communication
    decoder is the concatenation of the fragments in the order of the file,
    and the sequence the removal leaves holds the root and none of the
    records after it. *)
Lemma movement_chain_merged now pre root records rest :
  settled first_article "next_code" "communication" 0 pre = true ->
  first_article (props root) = true ->
  closed_chain "next_code" root records = true ->
  is_text (get "communication" (props root)) = true ->
  let merged_root := chain_root "communication" (props root) records in
  let text := chain_text "communication" (props root) records in
  absorb "next_code" "communication" (props root) (records ++ rest)
  = (merged_root, records) /\
  get "communication" merged_root = VStr text /\
  merge_movements now (pre ++ root :: records ++ rest)
  = (r <- merge_movements now pre ;;
     c <- parseCommunicationMovement now (VStr text)
            (get "communication_type" merged_root) ;;
     r' <- merge_movements now rest ;;
     Ok (fst r ++ emitted root merged_root c :: records ++ fst r',
         snd r ++ records ++ snd r')) /\
  (forall out drop,
     NoDup (map oid (pre ++ root :: records ++ rest)) ->
     merge_movements now (pre ++ root :: records ++ rest) = Ok (out, drop) ->
     (forall r, In r records ->
        ~ In (oid r) (map oid (remove_dropped drop out))) /\
     exists c,
       parseCommunicationMovement now (VStr text)
         (get "communication_type" merged_root) = Ok c /\
       In (emitted root merged_root c) (remove_dropped drop out)).
Proof.
  intros Hc Hr Hchain Ht merged_root text. subst merged_root text.
  pose proof (chain_root_text "communication" records (props root) Ht) as Htext.
  destruct (merge_chain first_article "next_code" "communication"
              (finish_movement now) tidy_communication eq_refl
              pre root records rest Hc Hr Hchain) as [Ha Hm].
  split; [exact Ha|]. split; [exact Htext|]. split.
  - unfold merge_movements. rewrite Hm.
    destruct (merge_chains _ _ _ _ _ 0 pre) as [[o1 d1]|]; simpl;
      [|reflexivity].
    unfold finish_movement at 1. rewrite Htext.
    destruct (parseCommunicationMovement now (VStr (chain_text _ _ _)) _);
      reflexivity.
  - intros out drop Hn Hmerge.
    destruct (chain_emitted first_article "next_code" "communication"
                (finish_movement now) tidy_communication eq_refl
                pre root records rest out drop Hc Hr Hchain Hn Hmerge)
      as [Hgone [root' [Hf Hin]]].
    split; [exact Hgone|].
    unfold finish_movement in Hf. rewrite Htext in Hf.
    destruct (parseCommunicationMovement now _ _) as [c|];
      simpl in Hf; [|discriminate Hf].
    injection Hf as <-. exists c. split; [reflexivity | exact Hin].
Qed.

(** ** Numbers *)

Lemma digit_facts c :
  is_digit c = true ->
  is_space c = false /\
  digit_val 10 c = Some (N_of_ascii c - 48)%N /\
  Ascii.eqb c "+" = false /\ Ascii.eqb c "-" = false /\
  Ascii.eqb c "I" = false /\
  Ascii.eqb c "x" || Ascii.eqb c "X" = false /\
  Ascii.eqb c "o" || Ascii.eqb c "O" = false /\
  Ascii.eqb c "b" || Ascii.eqb c "B" = false.
Proof.
  destruct c as [[] [] [] [] [] [] [] []]; intros H;
    try discriminate H; repeat split; reflexivity.
Qed.

Lemma trimEnd_digits s : all_digits s = true -> trimEnd s = s.
Proof.
  induction s as [|c s IH]; simpl; intros H; [reflexivity|].
  apply andb_true_iff in H. destruct H as [Hc Hs].
  rewrite (IH Hs). destruct s; [|reflexivity].
  rewrite (proj1 (digit_facts c Hc)). reflexivity.
Qed.

Lemma trim_digits s : all_digits s = true -> trim s = s.
Proof.
  intros H. unfold trim.
  assert (trimStart s = s) as ->.
  { destruct s as [|c s]; [reflexivity|]. simpl in *.
    apply andb_true_iff in H.
    rewrite (proj1 (digit_facts c (proj1 H))). reflexivity. }
  apply trimEnd_digits, H.
Qed.

Lemma read_digits_all s : forall acc count,
  all_digits s = true ->
  read_digits 10 s acc count
  = (decimal s acc, count + String.length s, EmptyString).
Proof.
  induction s as [|c s IH]; simpl; intros acc count H.
  - rewrite Nat.add_0_r. reflexivity.
  - apply andb_true_iff in H. destruct H as [Hc Hs].
    destruct (digit_facts c Hc) as [_ [-> _]].
    rewrite (IH _ _ Hs). f_equal. f_equal. lia.
Qed.

Lemma Qred_integer z : Qred (z # 1)%Q = (z # 1)%Q.
Proof.
  unfold Qred.
  pose proof (Z.ggcd_gcd z 1) as Hg.
  pose proof (Z.ggcd_correct_divisors z 1) as Hd.
  destruct (Z.ggcd z 1) as [g [a b]]. simpl in *.
  rewrite Z.gcd_1_r in Hg. subst g. destruct Hd as [Ha Hb].
  rewrite Z.mul_1_l in Ha, Hb. subst a b. reflexivity.
Qed.

Lemma Number_digits s :
  is_magnitude s = true -> Number (VStr s) = num_of_Z (magnitude s).
Proof.
  unfold is_magnitude. intros H. apply andb_true_iff in H.
  destruct H as [Hd Hne].
  destruct s as [|c s]; [discriminate Hne|]. clear Hne.
  unfold Number, string_to_number. rewrite (trim_digits _ Hd).
  pose proof Hd as Hd'. simpl in Hd'. apply andb_true_iff in Hd'.
  destruct Hd' as [Hc Hs].
  destruct (digit_facts c Hc) as [_ [_ [Hplus [Hminus [HI _]]]]].
  assert (radix_of (String c s) = None) as ->.
  { destruct s as [|c' s]; [reflexivity|]. simpl.
    simpl in Hs. apply andb_true_iff in Hs.
    destruct (digit_facts c' (proj1 Hs)) as [_ [_ [_ [_ [_ [-> [-> ->]]]]]]].
    destruct (Ascii.eqb c "0"); reflexivity. }
  unfold decimal_literal, read_sign. rewrite Hplus, Hminus.
  assert (String.eqb (String c s) "Infinity" = false) as ->
    by (simpl; rewrite HI; reflexivity).
  rewrite (read_digits_all _ _ _ Hd). simpl String.length.
  cbn [Nat.add read_exponent scale10 Z.of_nat Z.sub Z.leb Z.compare Z.opp
       Z.add Z.pow Z.pow_pos Pos.iter Z.mul Pos.mul].
  unfold magnitude, num_of_Z. rewrite Z.mul_1_r, Qred_integer. reflexivity.
Qed.

Lemma scaled_integer z :
  num_div (num_of_Z z) (num_of_Z 1000) = thousandth z.
Proof.
  unfold num_div, num_of_Z, thousandth. cbn [Qzero Qnum Z.eqb].
  f_equal. apply Qred_complete. unfold Qeq. simpl. lia.
Qed.

Lemma signed_integer z f :
  num_mul (num_of_Z z) (num_of_Z f) = num_of_Z (z * f).
Proof.
  unfold num_mul, num_of_Z. f_equal.
  change ((z # 1) * (f # 1))%Q with ((z * f)%Z # 1)%Q. apply Qred_integer.
Qed.

(** ** Amounts *)

(** The amount of a movement: magnitude over 1000, with the sign. *)
Lemma movement_amount_value line :
  is_magnitude (slice 32 47 line) = true ->
  movement_amount line
  = thousandth (magnitude (slice 32 47 line) * factor_of (char_at line 31)).
Proof.
  intros H. unfold movement_amount, factor_of.
  rewrite (Number_digits _ H).
  destruct (strict_eq (char_at line 31) (VStr Sign_Credit));
    rewrite signed_integer, scaled_integer; reflexivity.
Qed.

Lemma sign_factor_value sign :
  is_sign sign = true -> sign_factor sign = Ok (num_of_Z (factor_of sign)).
Proof.
  intros H. rewrite (sign_factor_ok _ H). unfold factor_of.
  destruct (strict_eq sign (VStr Sign_Credit)); reflexivity.
Qed.

(** The new balance: magnitude over 1000, with the sign. *)
Lemma new_balance_value now line asd v :
  is_magnitude (slice 42 57 line) = true ->
  is_sign (char_at line 41) = true ->
  parseNewBalance now line asd = Ok v ->
  field "balance" v
  = VNum (thousandth (magnitude (slice 42 57 line)
                      * factor_of (char_at line 41))).
Proof.
  intros Hm Hs. unfold parseNewBalance. cbn [record bind].
  destruct (match asd with
            | None => Ok (VObj [])
            | Some structure => spread_account [] structure (slice 4 41 line)
            end); cbn [bind]; [|discriminate].
  rewrite (sign_factor_value _ Hs). cbn [bind num].
  rewrite (Number_digits _ Hm), signed_integer, scaled_integer.
  destruct (parseDate now (slice 57 63 line)); cbn [bind]; [|discriminate].
  intros [= <-]. reflexivity.
Qed.

(** The amount of a detail (layout 006): magnitude over 1000, with the sign
    that follows it. *)
Lemma detail_amount_value stream :
  is_magnitude (slice (pos stream) (pos stream + 15) (str stream)) = true ->
  is_sign (VStr (slice (pos stream + 15) (pos stream + 15 + 1) (str stream)))
  = true ->
  detail_amount stream
  = Ok (VNum (thousandth
                (magnitude (slice (pos stream) (pos stream + 15) (str stream))
                 * factor_of
                     (VStr (slice (pos stream + 15) (pos stream + 15 + 1)
                                  (str stream))))),
        mkStream (str stream) (pos stream + 15 + 1)).
Proof.
  intros Hm Hs. unfold detail_amount, rbind, take, lift, rret.
  cbn [str pos Nat.add]. rewrite (sign_factor_value _ Hs).
  rewrite (Number_digits _ Hm), signed_integer, scaled_integer. reflexivity.
Qed.

(** The totals of the trailer carry no sign: magnitude over 1000. *)
Lemma trailer_totals_value line :
  is_magnitude (slice 22 37 line) = true ->
  is_magnitude (slice 37 52 line) = true ->
  exists v,
    parseTrailer line = Ok v /\
    field "debit_amount" v = VNum (thousandth (magnitude (slice 22 37 line))) /\
    field "credit_amount" v = VNum (thousandth (magnitude (slice 37 52 line))).
Proof.
  intros Hd Hc. unfold parseTrailer.
  rewrite (Number_digits _ Hd), (Number_digits _ Hc), !scaled_integer.
  eexists. split; [reflexivity|]. split; reflexivity.
Qed.

(** The old balance is the magnitude with the sign and no division: the
    scaled integer itself. *)
Lemma old_balance_value now line v :
  is_magnitude (slice 43 58 line) = true ->
  is_sign (char_at line 42) = true ->
  parseOldBalance now line = Ok v ->
  field "balance" v
  = VNum (num_of_Z (magnitude (slice 43 58 line)
                    * factor_of (char_at line 42))).
Proof.
  intros Hm Hs. unfold parseOldBalance. cbn [record bind].
  destruct (spread_account _ _ _); cbn [bind text]; [|discriminate].
  rewrite (sign_factor_value _ Hs). cbn [bind num].
  rewrite (Number_digits _ Hm), signed_integer.
  destruct (parseDate now (slice 58 64 line)); cbn [bind]; [|discriminate].
  intros [= <-]. reflexivity.
Qed.

(** ** Identities *)

Lemma numbered_push o array : numbered array -> numbered (push o array).
Proof.
  unfold numbered, push. intros H.
  rewrite map_app, length_app, H. simpl.
  rewrite Nat.add_1_r, seq_S. reflexivity.
Qed.

Lemma numbered_NoDup array : numbered array -> NoDup (map oid array).
Proof. unfold numbered. intros ->. apply seq_NoDup. Qed.

Lemma parse_line_numbered now st line st' :
  parse_line now st line = Ok st' ->
  well_numbered (snd st) -> well_numbered (snd st').
Proof.
  unfold parse_line, with_movement, with_information, well_numbered.
  intros H [Hm [Hi Hf]].
  destruct (String.get 0 line) as [c|]; [|discriminate H].
  destruct c as [[] [] [] [] [] [] [] []]; try discriminate H;
    returned H;
    try discriminate H; injection H as <-; simpl;
    repeat split; try assumption; apply numbered_push; assumption.
Qed.

Lemma parse_lines_numbered now lines : forall st st',
  parse_lines now st lines = Ok st' ->
  well_numbered (snd st) -> well_numbered (snd st').
Proof.
  induction lines as [|l lines IH]; intros st st' H Hw; simpl in H.
  - injection H as <-. exact Hw.
  - apply bind_ok in H. destruct H as [st1 [H1 H2]].
    exact (IH _ _ H2 (parse_line_numbered _ _ _ _ H1 Hw)).
Qed.

Lemma cleanup_oids fields array :
  map oid (cleanup fields array) = map oid array.
Proof. unfold cleanup. rewrite map_map. reflexivity. Qed.

Lemma merge_records_information now d d' :
  merge_records now d = Ok d' ->
  NoDup (map oid (information d)) -> NoDup (map oid (information d')).
Proof.
  unfold merge_records, merge_information. intros H Hn.
  destruct (merge_movements now (movements d)) as [[mo md]|]; simpl in H;
    [|discriminate H].
  destruct (merge_chains _ _ _ _ _ 0 (information d)) as [[io id]|] eqn:E;
    simpl in H; [|discriminate H].
  destruct (merge_free_communications (free_communications d)) as [[fo fd]|];
    simpl in H; [|discriminate H].
  injection H as <-. simpl. rewrite cleanup_oids.
  apply (subseq_NoDup _ (map oid io)).
  - apply subseq_map, remove_dropped_subseq.
  - rewrite (merge_oids _ _ _ _ _ _ _ _ _ E). exact Hn.
Qed.

(** Claim C7.  When [parse] returns, every information record that has
    the sequence and the reference number of a movement is in the
    [information] list of that movement, for every movement with that key
    and not only the first, and is not in the top-level [information] list
    of the document.  [merged] is the document as the merge and clean-up
    blocks leave it, which the linking block works on. *)
Theorem information_moves_to_every_matching_movement now coda st merged :
  parse_lines now initial_state (split_lines (trim coda)) = Ok st ->
  merge_records now (snd st) = Ok merged ->
  parse now coda = Ok (link_records merged) /\
  forall i m k,
    In i (information merged) ->
    nth_error (movements merged) k = Some m ->
    same_key (props m) (props i) = true ->
    (exists m',
       nth_error (movements (link_records merged)) k = Some m' /\
       oid m' = oid m /\
       In (VObj (props i)) (attached (props m'))) /\
    ~ In (oid i) (map oid (information (link_records merged))).
Proof.
  intros Hl Hm. split.
  - unfold parse, parse_records. fold initial_state. rewrite Hl. cbn [bind].
    rewrite Hm. reflexivity.
  - assert (NoDup (map oid (information merged))) as Hn.
    { apply (merge_records_information now (snd st) merged Hm).
      apply numbered_NoDup.
      apply (parse_lines_numbered now _ _ _ Hl).
      repeat split; reflexivity. }
    intros i m k Hi Hk Hs. unfold link_records.
    destruct (link (information merged) (movements merged)) as [linked drop]
      eqn:E.
    simpl.
    exact (link_moves_information _ _ _ _ E Hn i m k Hi Hk Hs).
Qed.

(** ** The sample records *)

(** Claim C1, on the old balance of the test suite.  The balance kept is
    the integer of the 15 digits, 4004100, not that integer over 1000; the
    new balance of the test suite is its 15 digits over 1000, with the
    sign. *)
Theorem old_balance_keeps_the_scaled_integer :
  exists v,
    parseOldBalance 2026 sample_old_balance = Ok v /\
    slice 43 58 sample_old_balance = "000000004004100" /\
    char_at sample_old_balance 42 = VStr Sign_Credit /\
    field "balance" v = VNum (num_of_Z 4004100) /\
    field "balance" v <> VNum (thousandth 4004100) /\
    exists w,
      parseNewBalance 2026 sample_new_balance None = Ok w /\
      slice 42 57 sample_new_balance = "000000500012100" /\
      char_at sample_new_balance 41 = VStr Sign_Debit /\
      field "balance" w = VNum (thousandth (-500012100)).
Proof.
  eexists. split; [vm_compute; reflexivity|].
  split; [reflexivity|]. split; [reflexivity|]. split; [reflexivity|].
  split; [vm_compute; discriminate|].
  eexists. split; [vm_compute; reflexivity|].
  repeat split; reflexivity.
Qed.


(** The totals of the sample trailer *)
Example sample_trailer_totals :
  exists v,
    parseTrailer sample_trailer = Ok v /\
    field "debit_amount" v = VNum (thousandth 16837520) /\
    field "credit_amount" v = VNum (thousandth 3967220).
Proof. exact (trailer_totals_value sample_trailer eq_refl eq_refl). Qed.

(** The amount of the sample movement *)
Example sample_movement_amount :
  movement_amount sample_movement_1 = thousandth 1767820.
Proof. exact (movement_amount_value sample_movement_1 eq_refl). Qed.

(** The amount type of layout 011 is not looked up in a code book: its
    table, [{ '1': 'dividend', '0': 'interest' }], has no wildcard, and a
    code it does not list makes the decoder throw. *)
Example coupon_amount_type_is_no_code_book :
  slice 130 131 sample_coupon = "2" /\
  parseCommunicationDetail 2026 (VStr sample_coupon) (VStr "structured")
  = Err (NoHandlerDefined "2").
Proof. split; reflexivity. Qed.

(** Against claim C3 as stated: a movement whose flag announces a record
    that the input does not have makes [parse] throw when the layout of its
    structured communication has a date in the missing part; with the
    record present the same movement is decoded. *)
Lemma truncated_chain_can_abort :
  char_at sample_card_movement 125 = VStr "1" /\
  parse 2026 sample_card_movement = Err (UnknownDateFormat "25") /\
  is_ok (parse 2026 (sample_card_movement ++ newline
                     ++ sample_card_continuation)) = true.
Proof. vm_compute. repeat split. Qed.

(** Against claim C9 as stated: the same text decoded in 2099 and in 2100
    gives two documents. *)
Lemma parse_differs_across_centuries :
  parse 2099 sample_header <> parse 2100 sample_header.
Proof. vm_compute. discriminate. Qed.


Lemma unknown_record_type_aborts_witness :
  split_lines (trim (sample_header ++ newline ++ "X"))
  = [sample_header] ++ "X" :: [] /\
  known_record_type "X" = false /\
  parse 2026 (sample_header ++ newline ++ "X") = Err UnknownRecordType.
Proof.
  split; [reflexivity|]. split; [reflexivity|].
  apply (proj2 (unknown_record_type_aborts 2026%Z
                  (sample_header ++ newline ++ "X") [sample_header] "X" []
                  eq_refl eq_refl)).
  reflexivity.
Defined.

Lemma unknown_layout_throws_unknown_code_does_not_witness :
  (known_movement_type (Number (VStr (discriminant_of "104"))) = false /\
   parseCommunicationMovement 2026 (VStr "104") (VStr "structured")
   = Err UnknownStructuredMovementCommunicationType) /\
  (known_detail_type (discriminant_of "003") = false /\
   parseCommunicationDetail 2026 (VStr "003") (VStr "structured")
   = Err UnknownStructuredCommunicationType) /\
  family_description [("family", VStr "99")] = Ok (VStr unknown) /\
  category_description [("category", VStr "999")] = Ok (VStr unknown).
Proof.
  destruct unknown_layout_throws_unknown_code_does_not
    as [Hm [Hd [_ [Hf [_ [Hc _]]]]]].
  split; [split; [reflexivity | exact (Hm 2026%Z "104" eq_refl)]|].
  split; [split; [reflexivity | exact (Hd 2026%Z "003" eq_refl)]|].
  split; [exact (Hf [("family", VStr "99")] eq_refl)
         | exact (Hc [("category", VStr "999")] eq_refl)].
Defined.

Lemma information_moves_to_every_matching_movement_witness :
  (parse_lines 2026 initial_state (split_lines (trim sample_statement))
   = Ok sample_state /\
   merge_records 2026 (snd sample_state) = Ok sample_merged) /\
  parse 2026 sample_statement = Ok (link_records sample_merged) /\
  forall i m,
    nth_error (information sample_merged) 0 = Some i ->
    nth_error (movements sample_merged) 0 = Some m ->
    same_key (props m) (props i) = true /\
    (exists m',
       nth_error (movements (link_records sample_merged)) 0 = Some m' /\
       oid m' = oid m /\
       In (VObj (props i)) (attached (props m'))) /\
    ~ In (oid i) (map oid (information (link_records sample_merged))).
Proof.
  assert (parse_lines 2026 initial_state (split_lines (trim sample_statement))
          = Ok sample_state) as Hl by (vm_compute; reflexivity).
  assert (merge_records 2026 (snd sample_state) = Ok sample_merged) as Hm
    by (vm_compute; reflexivity).
  destruct (information_moves_to_every_matching_movement 2026%Z
              sample_statement sample_state sample_merged Hl Hm) as [Hp Hall].
  split; [split; assumption|]. split; [exact Hp|].
  intros i m Hi Hk.
  assert (same_key (props m) (props i) = true) as Hs.
  { vm_compute in Hi, Hk. injection Hi as <-. injection Hk as <-.
    reflexivity. }
  split; [exact Hs|].
  exact (Hall i m 0 (nth_error_In _ _ Hi) Hk Hs).
Defined.

Lemma new_balance_account_witness :
  (parse_lines 2026 initial_state [] = Ok initial_state /\
   parse_lines 2026 initial_state [sample_old_balance]
   = Ok sample_after_old_balance /\
   String.get 0 sample_new_balance = Some "8"%char /\
   is_sign (char_at sample_new_balance 41) = true /\
   63 <= String.length sample_new_balance) /\
  (exists st',
     parse_line 2026 initial_state sample_new_balance = Ok st' /\
     field "account" (balance_new (snd st')) = VObj []) /\
  (exists st',
     parse_line 2026 sample_after_old_balance sample_new_balance = Ok st' /\
     Ok (field "account" (balance_new (snd st')))
     = spread_account [] (Number (char_at sample_old_balance 1))
                      (slice 4 41 sample_new_balance) /\
     field "number" (field "account" (balance_new (snd st')))
     = VStr "001548226815").
Proof.
  assert (63 <= String.length sample_new_balance) as Hl
    by (apply Nat.leb_le; reflexivity).
  assert (parse_lines 2026 initial_state [sample_old_balance]
          = Ok sample_after_old_balance) as Ho by (vm_compute; reflexivity).
  split; [split; [reflexivity | split; [exact Ho | split; [reflexivity
           | split; [reflexivity | exact Hl]]]]|].
  split.
  - destruct (new_balance_account 2026%Z [] sample_new_balance initial_state
                eq_refl eq_refl eq_refl Hl) as [st' [H1 [H2 _]]].
    exists st'. split; [exact H1 | exact (H2 eq_refl)].
  - destruct (new_balance_account 2026%Z [sample_old_balance]
                sample_new_balance sample_after_old_balance
                Ho eq_refl eq_refl Hl) as [st' [H1 [_ H3]]].
    exists st'. split; [exact H1|].
    pose proof (H3 [] sample_old_balance [] eq_refl eq_refl eq_refl) as Ha.
    split; [exact Ha|].
    set (a := field "account" (balance_new (snd st'))) in *.
    clearbody a. vm_compute in Ha. injection Ha as ->. reflexivity.
Defined.

Lemma parse_is_a_function_of_text_and_century_witness :
  century 2026 = century 2099 /\
  parse 2026 sample_header = parse 2099 sample_header.
Proof.
  split; [reflexivity|].
  exact (parse_is_a_function_of_text_and_century 2026%Z 2099%Z sample_header
           eq_refl).
Defined.

Lemma unknown_article_is_skipped_witness :
  (String.get 0 "29 no such article" = Some "2"%char /\
   known_article "29 no such article" = false) /\
  parse_line 2026 initial_state "29 no such article" = Ok initial_state.
Proof.
  split; [split; reflexivity|].
  exact (proj1 (unknown_article_is_skipped 2026%Z initial_state
                  "29 no such article" (or_introl eq_refl) eq_refl)).
Defined.

(** * Further properties of the decoder *)

(** ** The stream *)

Lemma substring_length (p n : nat) (s : string) :
  String.length (substring p n s) = Nat.min n (String.length s - p).
Proof.
  revert p n. induction s as [|c s IH]; intros p n.
  - destruct p, n; reflexivity.
  - destruct p as [|p]; destruct n as [|n]; simpl; try reflexivity.
    + rewrite IH. rewrite Nat.sub_0_r. reflexivity.
    + rewrite IH. reflexivity.
    + rewrite IH. reflexivity.
Qed.

Lemma substring_none (p : nat) (s : string) : substring p 0 s = EmptyString.
Proof.
  revert p. induction s as [|c s IH]; intros [|p]; simpl; auto.
Qed.

Lemma substring_split (p a b : nat) (s : string) :
  (substring p a s ++ substring (p + a) b s)%string = substring p (a + b) s.
Proof.
  revert p a b. induction s as [|c s IH]; intros p a b.
  - destruct p, a, b; reflexivity.
  - destruct p as [|p].
    + destruct a as [|a]; [reflexivity|].
      simpl. f_equal. apply (IH 0).
    + destruct a as [|a].
      * rewrite Nat.add_0_r, substring_none. reflexivity.
      * change (substring (S p) (S a) (String c s)) with (substring p (S a) s).
        change (substring (S p + S a) b (String c s))
          with (substring (p + S a) b s).
        change (substring (S p) (S a + b) (String c s))
          with (substring p (S a + b) s).
        apply IH.
Qed.

Lemma slice_from (p n : nat) (s : string) :
  slice p (p + n) s = substring p n s.
Proof. unfold slice. f_equal. lia. Qed.

(** Property X1.  Two reads in a row return the columns one read of both
    widths returns, cut after the first width, and leave the stream where
    that read leaves it. *)
Theorem consecutive_takes_read_one_span (a b : nat) (stream : StringStream) :
  (x <~ take a ;; y <~ take b ;; rret (x, y)) stream
  = Ok ((substring (pos stream) a (str stream),
         substring (pos stream + a) b (str stream)),
        mkStream (str stream) (pos stream + (a + b)))
  /\ (x <~ take a ;; y <~ take b ;; rret (x ++ y)%string) stream
     = take (a + b) stream.
Proof.
  unfold rbind, take, rret. cbn [str pos].
  rewrite !slice_from, Nat.add_assoc. split; [reflexivity|].
  rewrite substring_split. reflexivity.
Qed.

(** Property X2.  A read never fails: past the end of the text it returns
    what is left, the empty text when nothing is, and the position moves on
    by the full width all the same. *)
Theorem take_returns_what_is_left (n : nat) (stream : StringStream) :
  exists taken,
    take n stream = Ok (taken, mkStream (str stream) (pos stream + n)) /\
    String.length taken
    = Nat.min n (String.length (str stream) - pos stream) /\
    (String.length (str stream) <= pos stream -> taken = EmptyString).
Proof.
  exists (substring (pos stream) n (str stream)).
  unfold take. rewrite slice_from. split; [reflexivity|].
  split; [apply substring_length|].
  intros H.
  assert (String.length (substring (pos stream) n (str stream)) = 0) as H0
    by (rewrite substring_length; lia).
  destruct (substring (pos stream) n (str stream)); [reflexivity|discriminate].
Qed.

(** ** White space around the input *)

Lemma trimStart_space (a s : string) :
  all_space a = true -> trimStart (a ++ s) = trimStart s.
Proof.
  induction a as [|c a IH]; simpl; intros H; [reflexivity|].
  apply andb_true_iff in H. destruct H as [-> Ha]. apply IH, Ha.
Qed.

Lemma trimEnd_all_space (b : string) :
  all_space b = true -> trimEnd b = EmptyString.
Proof.
  induction b as [|c b IH]; simpl; intros H; [reflexivity|].
  apply andb_true_iff in H. destruct H as [-> Hb].
  rewrite (IH Hb). reflexivity.
Qed.

Lemma trimEnd_space (s b : string) :
  all_space b = true -> trimEnd (s ++ b) = trimEnd s.
Proof.
  intros Hb. induction s as [|c s IH]; simpl.
  - apply trimEnd_all_space, Hb.
  - rewrite IH. reflexivity.
Qed.

Lemma trimStart_all_space (b : string) :
  all_space b = true -> trimStart b = EmptyString.
Proof.
  induction b as [|c b IH]; simpl; intros H; [reflexivity|].
  apply andb_true_iff in H. destruct H as [-> Hb]. apply IH, Hb.
Qed.

Lemma trim_space_after (s b : string) :
  all_space b = true -> trim (s ++ b) = trim s.
Proof.
  intros Hb. unfold trim. induction s as [|c s IH]; simpl.
  - rewrite (trimStart_all_space _ Hb). reflexivity.
  - destruct (is_space c); [exact IH|].
    apply (trimEnd_space (String c s) b Hb).
Qed.

Lemma trim_surrounded (a s b : string) :
  all_space a = true -> all_space b = true -> trim (a ++ s ++ b) = trim s.
Proof.
  intros Ha Hb. unfold trim. rewrite (trimStart_space _ _ Ha).
  apply (trim_space_after s b Hb).
Qed.

(** Property X3.  A text of white space only, the empty text among them, is
    no document: what is left after trimming is one empty line, which has no
    record type. *)
Theorem blank_text_is_no_document (now : Z) (coda : string) :
  all_space coda = true -> parse now coda = Err UnknownRecordType.
Proof.
  intros H. unfold parse, trim.
  rewrite (trimStart_all_space _ H). reflexivity.
Qed.

(** Property X4.  White space before the first record and after the last
    one, line breaks included, does not change the result. *)
Theorem surrounding_space_is_ignored (now : Z) (before coda after : string) :
  all_space before = true -> all_space after = true ->
  parse now (before ++ coda ++ after) = parse now coda.
Proof.
  intros Ha Hb. unfold parse. rewrite (trim_surrounded _ _ _ Ha Hb).
  reflexivity.
Qed.

(** ** Dates *)

Lemma century_of_year (now : Z) :
  (2000 <= now <= 2099)%Z -> century now = "20".
Proof.
  intros H. unfold century.
  assert (Z.quot now 100 = 20%Z) as ->; [|reflexivity].
  rewrite Z.quot_div_nonneg by lia.
  symmetry. apply (Z.div_unique now 100 20 (now - 2000)); lia.
Qed.

(** Property X5.  A date of six characters is read as day, month, year: in
    the years 2000 to 2099 the text DDMMYY becomes the date 20YY-MM-DD. *)
Theorem six_character_date_is_day_month_year (now : Z) (dd mm yy : string) :
  (2000 <= now <= 2099)%Z ->
  String.length dd = 2 -> String.length mm = 2 -> String.length yy = 2 ->
  parseDate now (dd ++ mm ++ yy)
  = Ok (VDate ("20" ++ yy ++ "-" ++ mm ++ "-" ++ dd)).
Proof.
  intros Hnow Hd Hm Hy.
  destruct dd as [|d1 [|d2 [|]]]; try discriminate Hd.
  destruct mm as [|m1 [|m2 [|]]]; try discriminate Hm.
  destruct yy as [|y1 [|y2 [|]]]; try discriminate Hy.
  unfold parseDate. cbn [String.length append].
  rewrite (century_of_year now Hnow). reflexivity.
Qed.

(** Property X6.  The date decoder looks at the length of the text only: a
    text of 6, 8 or 10 characters is accepted whatever its characters are,
    any other text is refused with its own content in the error; and only a
    text of six characters is read with the help of the clock. *)
Theorem date_is_accepted_by_length (now : Z) (input : string) :
  (if ((String.length input =? 6) || (String.length input =? 8)
       || (String.length input =? 10))%nat
   then exists arg, parseDate now input = Ok (VDate arg)
   else parseDate now input = Err (UnknownDateFormat input))
  /\ (String.length input <> 6 ->
      forall other, parseDate other input = parseDate now input).
Proof.
  unfold parseDate.
  destruct (String.length input) as [|[|[|[|[|[|[|[|[|[|[|n]]]]]]]]]]];
    cbn [Nat.eqb orb]; (split; [try reflexivity; eexists; reflexivity|]);
    intros H other; try reflexivity.
  contradiction H. reflexivity.
Qed.

(** ** Normalised texts *)

Lemma head_collapse fuel s :
  head_space (collapse_fuel fuel s) = head_space s.
Proof.
  destruct fuel as [|fuel]; [reflexivity|].
  destruct s as [|c [|d s]]; try reflexivity. cbn [collapse_fuel].
  destruct (is_space c) eqn:Hc; destruct (is_space d);
    cbn [andb head_space]; try rewrite Hc; reflexivity.
Qed.

Lemma head_skip_spaces s : head_space (skip_spaces s) = false.
Proof.
  induction s as [|c s IH]; simpl; [reflexivity|].
  destruct (is_space c) eqn:Hc; [exact IH|]. simpl. exact Hc.
Qed.

Lemma length_skip_spaces s : String.length (skip_spaces s) <= String.length s.
Proof.
  induction s as [|c s IH]; simpl; [lia|].
  destruct (is_space c); simpl; lia.
Qed.

Lemma single_spaced_cons c r :
  (is_space c && head_space r = false) -> single_spaced r = true ->
  single_spaced (String c r) = true.
Proof.
  intros H Hr. destruct r as [|d r]; [reflexivity|].
  cbn [single_spaced]. cbn [head_space] in H. rewrite H. exact Hr.
Qed.

Lemma collapse_single_spaced fuel : forall s,
  String.length s <= fuel -> single_spaced (collapse_fuel fuel s) = true.
Proof.
  induction fuel as [|fuel IH]; intros s H.
  - destruct s; [reflexivity | simpl in H; lia].
  - destruct s as [|c [|d s]]; try reflexivity.
    simpl in H. cbn [collapse_fuel].
    destruct (is_space c && is_space d) eqn:Hcd.
    + apply single_spaced_cons.
      * rewrite head_collapse, head_skip_spaces. apply andb_false_r.
      * apply IH. pose proof (length_skip_spaces s). lia.
    + apply single_spaced_cons.
      * rewrite head_collapse. exact Hcd.
      * apply IH. simpl. lia.
Qed.

Lemma collapse_fixed fuel : forall s,
  single_spaced s = true -> collapse_fuel fuel s = s.
Proof.
  induction fuel as [|fuel IH]; intros s H; [reflexivity|].
  destruct s as [|c [|d s]]; try reflexivity.
  cbn [collapse_fuel]. cbn [single_spaced] in H.
  apply andb_true_iff in H. destruct H as [Hcd Hs].
  apply negb_true_iff in Hcd. rewrite Hcd. f_equal. apply IH, Hs.
Qed.

Lemma collapse_nonempty fuel c s :
  exists c' r, collapse_fuel fuel (String c s) = String c' r.
Proof.
  destruct fuel as [|fuel]; [simpl; eauto|].
  destruct s as [|d s]; [simpl; eauto|].
  cbn [collapse_fuel]. destruct (is_space c && is_space d); eauto.
Qed.

Lemma ends_clean_cons c c' r :
  ends_clean (String c (String c' r)) = ends_clean (String c' r).
Proof. reflexivity. Qed.

Lemma skip_spaces_clean s :
  s <> EmptyString -> ends_clean s = true ->
  skip_spaces s <> EmptyString /\ ends_clean (skip_spaces s) = true.
Proof.
  induction s as [|c s IH]; intros Hne H; [contradiction|].
  simpl. destruct (is_space c) eqn:Hc.
  - destruct s as [|d s]; [simpl in H; rewrite Hc in H; discriminate|].
    apply IH; [discriminate | exact H].
  - split; [discriminate | exact H].
Qed.

Lemma collapse_ends_clean fuel : forall s,
  String.length s <= fuel -> ends_clean s = true ->
  ends_clean (collapse_fuel fuel s) = true.
Proof.
  induction fuel as [|fuel IH]; intros s Hl H; [exact H|].
  destruct s as [|c [|d s]]; try exact H.
  simpl in Hl. cbn [collapse_fuel].
  destruct (is_space c && is_space d) eqn:Hcd.
  - apply andb_true_iff in Hcd. destruct Hcd as [_ Hd].
    rewrite ends_clean_cons in H.
    destruct s as [|e s]; [simpl in H; rewrite Hd in H; discriminate|].
    rewrite ends_clean_cons in H.
    destruct (skip_spaces_clean (String e s)) as [Hne Hclean];
      [discriminate | exact H |].
    destruct (skip_spaces (String e s)) as [|x r] eqn:Hskip;
      [contradiction|].
    assert (String.length (String x r) <= fuel) as Hlen.
    { rewrite <- Hskip. pose proof (length_skip_spaces (String e s)).
      simpl in *. lia. }
    pose proof (IH _ Hlen Hclean) as Hr.
    destruct (collapse_nonempty fuel x r) as [x' [r' Heq]].
    rewrite Heq in *. exact Hr.
  - rewrite ends_clean_cons in H.
    assert (String.length (String d s) <= fuel) as Hlen by (simpl; lia).
    pose proof (IH _ Hlen H) as Hr.
    destruct (collapse_nonempty fuel d s) as [x' [r' Heq]].
    rewrite Heq in *. exact Hr.
Qed.

Lemma trimEnd_clean s : ends_clean s = true -> trimEnd s = s.
Proof.
  induction s as [|c s IH]; intros H; [reflexivity|].
  destruct s as [|d s].
  - simpl in *. apply negb_true_iff in H. rewrite H. reflexivity.
  - rewrite ends_clean_cons in H. specialize (IH H).
    change (trimEnd (String c (String d s)))
      with (match trimEnd (String d s) with
            | EmptyString =>
                if is_space c then EmptyString else String c EmptyString
            | t => String c t
            end).
    rewrite IH. reflexivity.
Qed.

Lemma trimStart_clean s : head_space s = false -> trimStart s = s.
Proof. destruct s as [|c s]; simpl; [reflexivity|]. intros ->. reflexivity. Qed.

Lemma ends_clean_trimEnd s : ends_clean (trimEnd s) = true.
Proof.
  induction s as [|c s IH]; [reflexivity|].
  simpl. destruct (trimEnd s) as [|d t] eqn:Ht.
  - destruct (is_space c) eqn:Hc; [reflexivity|]. simpl. rewrite Hc. reflexivity.
  - rewrite ends_clean_cons. exact IH.
Qed.

Lemma head_trimStart s : head_space (trimStart s) = false.
Proof.
  induction s as [|c s IH]; simpl; [reflexivity|].
  destruct (is_space c) eqn:Hc; [exact IH|]. simpl. exact Hc.
Qed.

Lemma head_trimEnd s : head_space s = false -> head_space (trimEnd s) = false.
Proof.
  destruct s as [|c s]; [reflexivity|]. simpl. intros Hc.
  destruct (trimEnd s); [rewrite Hc|]; simpl; exact Hc.
Qed.

Lemma length_trimEnd s : String.length (trimEnd s) <= String.length s.
Proof.
  induction s as [|c s IH]; simpl; [lia|].
  destruct (trimEnd s); [destruct (is_space c)|]; simpl in *; lia.
Qed.

Lemma normalise_single_spaced s : single_spaced (normalise s) = true.
Proof. apply collapse_single_spaced. lia. Qed.

Lemma normalise_head s : head_space (normalise s) = false.
Proof.
  unfold normalise, collapse_spaces. rewrite head_collapse.
  apply head_trimEnd, head_trimStart.
Qed.

Lemma normalise_trimmed s : trim (normalise s) = normalise s.
Proof.
  unfold trim at 1. rewrite (trimStart_clean _ (normalise_head s)).
  apply trimEnd_clean, collapse_ends_clean; [lia|]. apply ends_clean_trimEnd.
Qed.

Lemma normalise_twice s : normalise (normalise s) = normalise s.
Proof.
  unfold normalise at 1. rewrite normalise_trimmed.
  apply collapse_fixed, normalise_single_spaced.
Qed.

(** Property X7.  A normalised text, as the decoder leaves the
    communications and the free texts: no white space at either end, no two
    white-space characters in a row; normalising it again changes nothing. *)
Theorem normalised_text_is_single_spaced (s : string) :
  single_spaced (normalise s) = true /\
  head_space (normalise s) = false /\
  trim (normalise s) = normalise s /\
  normalise (normalise s) = normalise s.
Proof.
  split; [apply normalise_single_spaced|].
  split; [apply normalise_head|].
  split; [apply normalise_trimmed | apply normalise_twice].
Qed.

(** ** Which lines the line loop decodes *)

Lemma is_ok_bind {A B : Type} (r : result A) (k : A -> result B) :
  is_ok (bind r k) = match r with Ok a => is_ok (k a) | Err _ => false end.
Proof. destruct r; reflexivity. Qed.

Lemma is_ok_record fields :
  is_ok (record fields) = forallb (fun f => is_ok (snd f)) fields.
Proof.
  induction fields as [|[k r] fields IH]; [reflexivity|].
  simpl. destruct r as [v|e]; simpl; [|reflexivity].
  rewrite <- IH. destruct (record fields); reflexivity.
Qed.

Lemma is_ok_parseDate now s :
  is_ok (parseDate now s)
  = ((String.length s =? 6) || (String.length s =? 8)
     || (String.length s =? 10))%nat.
Proof.
  unfold parseDate.
  destruct (String.length s) as [|[|[|[|[|[|[|[|[|[|[|n]]]]]]]]]]];
    reflexivity.
Qed.

Lemma date_field_ok now a line :
  is_ok (parseDate now (slice a (a + 6) line))
  = (a + 6 <=? String.length line)%nat.
Proof.
  rewrite is_ok_parseDate, slice_from, substring_length.
  destruct (Nat.leb_spec (a + 6) (String.length line)) as [H|H].
  - replace (Nat.min 6 (String.length line - a)) with 6 by lia. reflexivity.
  - remember (Nat.min 6 (String.length line - a)) as k eqn:Hk.
    assert (k < 6) as Hlt by lia.
    destruct k as [|[|[|[|[|[|k]]]]]]; try reflexivity. lia.
Qed.

Lemma is_ok_sign_factor v : is_ok (sign_factor v) = is_sign v.
Proof.
  unfold sign_factor, is_sign, match_, key_of, Sign_Credit, Sign_Debit.
  destruct v as [| |[]|n|s| | |]; try reflexivity.
  - destruct n; reflexivity.
  - simpl. destruct (String.eqb s "0"); [reflexivity|].
    destruct (String.eqb s "1"); reflexivity.
Qed.

Lemma is_ok_communication_type_of v :
  is_ok (communication_type_of v) = is_communication_flag v.
Proof.
  unfold communication_type_of, is_communication_flag, match_, key_of.
  destruct v as [| |[]|n|s| | |]; try reflexivity.
  - destruct n; reflexivity.
  - simpl. destruct (String.eqb s "0"); [reflexivity|].
    destruct (String.eqb s "1"); reflexivity.
Qed.

Lemma get_in_range i : forall s,
  match String.get i s with
  | Some _ => i < String.length s
  | None => String.length s <= i
  end.
Proof.
  induction i as [|i IH]; intros [|c s]; simpl; try lia.
  specialize (IH s). destruct (String.get i s); lia.
Qed.

Lemma is_ok_trim_char line i :
  is_ok (trim_char line i) = (S i <=? String.length line)%nat.
Proof.
  unfold trim_char, char_at. pose proof (get_in_range i line) as H.
  destruct (String.get i line); cbn [is_ok]; symmetry;
    [apply Nat.leb_le | apply Nat.leb_gt]; lia.
Qed.

(** The header, column by column: the reads of the stream add up to these
    columns of the line. *)
Lemma parseHeader_columns now line :
  run (parseHeader now) line
  = (date <- parseDate now (slice 5 11 line) ;;
     Ok (VObj
           [("record_identification", VStr (slice 0 1 line));
            ("date", date);
            ("bank_identification_number", VStr (slice 11 14 line));
            ("application_code", VStr (slice 14 16 line));
            ("duplicate",
               VBool (strict_eq (VStr (slice 16 17 line)) (VStr Duplicate)));
            ("file_reference", VStr (slice 24 34 line));
            ("account",
               VObj [("name", VStr (trim (slice 34 60 line)));
                     ("bic", VStr (trim (slice 60 71 line)));
                     ("identification_number", VStr (slice 71 82 line))]);
            ("external_application_code", VStr (slice 83 88 line));
            ("transaction_reference", VStr (trim (slice 88 104 line)));
            ("related_reference", VStr (trim (slice 104 120 line)));
            ("version", VNum (Number (VStr (slice 127 128 line))))])).
Proof.
  unfold run, parseHeader, object_of, rmap.
  cbv [literal rbind raw skip_take take skip lift rret trimmed rmap
       new_StringStream str pos].
  cbn [Nat.add].
  destruct (parseDate now (slice 5 11 line)); reflexivity.
Qed.

Lemma is_ok_parseHeader now line :
  is_ok (run (parseHeader now) line) = (11 <=? String.length line)%nat.
Proof.
  rewrite parseHeader_columns, is_ok_bind.
  pose proof (date_field_ok now 5 line) as H. cbn [Nat.add] in H.
  rewrite <- H.
  destruct (parseDate now (slice 5 11 line)); reflexivity.
Qed.

Lemma is_ok_spread_account before structure line :
  is_ok (spread_account before structure line) = true.
Proof.
  destruct (spread_account_total before structure line) as [o ->].
  reflexivity.
Qed.

Lemma is_ok_parseOldBalance now line :
  is_ok (parseOldBalance now line)
  = is_sign (char_at line 42) && (64 <=? String.length line)%nat.
Proof.
  unfold parseOldBalance. rewrite is_ok_bind.
  pose proof (is_ok_record
    [("record_identification", Ok (char_at line 0));
     ("account",
        spread_account
          [("name", VStr (trim (slice 64 90 line)));
           ("description", VStr (trim (slice 90 125 line)))]
          (Number (char_at line 1)) (slice 5 42 line));
     ("sequence_number", text (slice 2 5 line));
     ("balance",
        f <- sign_factor (char_at line 42) ;;
        num (num_mul (Number (VStr (slice 43 58 line))) f));
     ("date", parseDate now (slice 58 64 line));
     ("coda_sequence_number", text (slice 125 128 line))]) as H.
  cbn [forallb snd] in H.
  rewrite is_ok_spread_account, is_ok_bind in H.
  change (slice 58 64 line) with (slice 58 (58 + 6) line) in H.
  rewrite date_field_ok in H. cbn [Nat.add] in H.
  rewrite <- is_ok_sign_factor.
  destruct (record _); cbn [is_ok] in *; rewrite H;
    destruct (sign_factor (char_at line 42)); cbn [is_ok text num andb];
    rewrite ?andb_true_r; reflexivity.
Qed.

Lemma is_ok_parseNewBalance now line asd :
  is_ok (parseNewBalance now line asd)
  = is_sign (char_at line 41) && (63 <=? String.length line)%nat.
Proof.
  unfold parseNewBalance. rewrite is_ok_bind.
  pose proof (is_ok_record
    [("record_identification", Ok (char_at line 0));
     ("sequence_number", text (slice 1 4 line));
     ("account",
        match asd with
        | None => Ok (VObj [])
        | Some structure => spread_account [] structure (slice 4 41 line)
        end);
     ("balance",
        f <- sign_factor (char_at line 41) ;;
        num (num_div (num_mul (Number (VStr (slice 42 57 line))) f)
                     (num_of_Z 1000)));
     ("date", parseDate now (slice 57 63 line));
     ("link_code", Ok (char_at line 127))]) as H.
  cbn [forallb snd] in H.
  assert (is_ok match asd with
                | None => Ok (VObj [])
                | Some structure =>
                    spread_account [] structure (slice 4 41 line)
                end = true) as Ha
    by (destruct asd; [apply is_ok_spread_account | reflexivity]).
  rewrite Ha, is_ok_bind in H.
  change (slice 57 63 line) with (slice 57 (57 + 6) line) in H.
  rewrite date_field_ok in H. cbn [Nat.add] in H.
  rewrite <- is_ok_sign_factor.
  destruct (record _); cbn [is_ok] in *; rewrite H;
    destruct (sign_factor (char_at line 41)); cbn [is_ok text num andb];
    rewrite ?andb_true_r; reflexivity.
Qed.

Lemma is_ok_parseTransactionCode input :
  is_ok (parseTransactionCode input) = true.
Proof. reflexivity. Qed.

Lemma is_ok_parseMovement21 now line :
  is_ok (parseMovement21 now line)
  = is_communication_flag (char_at line 61)
    && (121 <=? String.length line)%nat.
Proof.
  unfold parseMovement21. rewrite is_ok_record. cbn [forallb snd].
  rewrite is_ok_parseTransactionCode, is_ok_communication_type_of.
  change (slice 115 121 line) with (slice 115 (115 + 6) line).
  rewrite date_field_ok. cbn [Nat.add is_ok text num andb].
  rewrite !andb_true_r.
  destruct (Nat.leb_spec 121 (String.length line)) as [H|H];
    [|rewrite !andb_false_r; reflexivity].
  assert (is_ok (if strict_eq (VStr (slice 47 53 line)) (VStr UnknownDate)
                 then Ok VNull else parseDate now (slice 47 53 line))
          = true) as ->; [|reflexivity].
  destruct (strict_eq _ _); [reflexivity|].
  change (slice 47 53 line) with (slice 47 (47 + 6) line).
  rewrite date_field_ok. apply Nat.leb_le. lia.
Qed.

Lemma is_ok_parseMovement22 line :
  is_ok (parseMovement22 line) = (113 <=? String.length line)%nat.
Proof.
  unfold parseMovement22. rewrite is_ok_record. cbn [forallb snd].
  rewrite is_ok_trim_char. cbn [is_ok text andb].
  rewrite !andb_true_r. reflexivity.
Qed.

Lemma is_ok_parseAdditionalInformation31 line :
  is_ok (parseAdditionalInformation31 line)
  = is_communication_flag (char_at line 39).
Proof.
  unfold parseAdditionalInformation31. rewrite is_ok_record.
  cbn [forallb snd].
  rewrite is_ok_parseTransactionCode, is_ok_communication_type_of.
  cbn [is_ok text andb]. rewrite !andb_true_r. reflexivity.
Qed.

Lemma is_ok_with_movement st r : is_ok (with_movement st r) = is_ok r.
Proof. destruct r; reflexivity. Qed.

Lemma is_ok_with_information st r : is_ok (with_information st r) = is_ok r.
Proof. destruct r; reflexivity. Qed.

Lemma is_ok_bind_total {A B : Type} (r : result A) (k : A -> result B) :
  (forall a, is_ok (k a) = true) -> is_ok (bind r k) = is_ok r.
Proof. intros H. destruct r; [apply H | reflexivity]. Qed.

Lemma parse_line_accepts now st line :
  is_ok (parse_line now st line) = accepts line.
Proof.
  unfold parse_line, accepts.
  destruct (String.get 0 line) as [c|]; [|reflexivity].
  destruct c as [[] [] [] [] [] [] [] []]; cbv beta iota;
    lazymatch goal with
    | |- is_ok (Err _) = false => reflexivity
    | |- _ =>
        repeat match goal with
               | |- context [startsWith ?p line] =>
                   destruct (startsWith p line)
               end;
        rewrite ?is_ok_with_movement, ?is_ok_with_information;
        try (rewrite is_ok_bind_total by (intros; reflexivity));
        lazymatch goal with
        | |- is_ok (run (parseHeader _) _) = _ => apply is_ok_parseHeader
        | |- is_ok (parseOldBalance _ _) = _ => apply is_ok_parseOldBalance
        | |- is_ok (parseNewBalance _ _ _) = _ => apply is_ok_parseNewBalance
        | |- is_ok (parseMovement21 _ _) = _ => apply is_ok_parseMovement21
        | |- is_ok (parseMovement22 _) = _ => apply is_ok_parseMovement22
        | |- is_ok (parseAdditionalInformation31 _) = _ =>
            apply is_ok_parseAdditionalInformation31
        | |- _ => reflexivity
        end
    end.
Qed.

(** Property X8.  The line loop returns exactly when every line is accepted;
    the account structure and the records read so far play no part in it. *)
Theorem lines_are_read_iff_accepted (now : Z) (lines : list string) :
  forall st : parse_state,
    is_ok (parse_lines now st lines) = forallb accepts lines.
Proof.
  induction lines as [|line lines IH]; intros st; [reflexivity|].
  cbn [parse_lines forallb]. rewrite is_ok_bind, <- (parse_line_accepts now st).
  destruct (parse_line now st line) as [st'|e]; [apply IH | reflexivity].
Qed.

(** ** What the line loop collects *)

Lemma returned_objects_push o array :
  returned_objects (push o array) = returned_objects array ++ [Ok o].
Proof. unfold returned_objects, push. rewrite map_app. reflexivity. Qed.

Lemma other_record_type (a b : ascii) (line : string) (c : ascii) :
  String.get 0 line = Some c -> Ascii.eqb c a = false ->
  startsWith (String a (String b EmptyString)) line = false.
Proof.
  intros E Hc.
  destruct (startsWith (String a (String b EmptyString)) line) eqn:H;
    [|reflexivity].
  apply startsWith_two in H. destruct H as [H _].
  rewrite E in H. injection H as ->. rewrite Ascii.eqb_refl in Hc.
  discriminate Hc.
Qed.

Lemma not_movement_line line c :
  String.get 0 line = Some c -> Ascii.eqb c "2" = false ->
  is_movement_line line = false.
Proof.
  intros E Hc. unfold is_movement_line.
  rewrite !(other_record_type _ _ line c E Hc). reflexivity.
Qed.

Lemma not_information_line line c :
  String.get 0 line = Some c -> Ascii.eqb c "3" = false ->
  is_information_line line = false.
Proof.
  intros E Hc. unfold is_information_line.
  rewrite !(other_record_type _ _ line c E Hc). reflexivity.
Qed.

Lemma free_communication_line line c :
  String.get 0 line = Some c ->
  is_free_communication_line line = Ascii.eqb c "4".
Proof.
  unfold is_free_communication_line, startsWith.
  destruct line as [|c0 rest]; [discriminate|].
  cbn [String.get prefix]. intros [= ->].
  destruct (ascii_dec "4" c) as [<-|Hne]; [destruct rest; reflexivity|].
  symmetry. apply Ascii.eqb_neq. congruence.
Qed.

Lemma parse_line_collects now st line st' :
  parse_line now st line = Ok st' ->
  returned_objects (movements (snd st'))
  = returned_objects (movements (snd st))
    ++ map (decode_movement now) (filter is_movement_line [line])
  /\ returned_objects (information (snd st'))
     = returned_objects (information (snd st))
       ++ map decode_information (filter is_information_line [line])
  /\ returned_objects (free_communications (snd st'))
     = returned_objects (free_communications (snd st))
       ++ map parseFreeCommunication
            (filter is_free_communication_line [line]).
Proof.
  unfold parse_line, with_movement, with_information. intros H.
  destruct (String.get 0 line) as [c|] eqn:E; [|discriminate H].
  cbn [filter]. rewrite (free_communication_line line c E).
  destruct c as [[] [] [] [] [] [] [] []]; try discriminate H;
    try rewrite (not_movement_line line _ E eq_refl);
    try rewrite (not_information_line line _ E eq_refl);
    unfold is_movement_line, is_information_line, decode_movement,
      decode_information;
    cbn [Ascii.eqb Bool.eqb map];
    repeat match type of H with
           | context [startsWith ?p line] =>
               destruct (startsWith p line) eqn:?
           end;
    cbn [orb map];
    returned H; try discriminate H; injection H as <-;
    cbn [snd movements information free_communications];
    rewrite ?returned_objects_push, ?app_nil_r; repeat split;
    repeat match goal with
           | Hs : startsWith ?p line = _ |- context [startsWith ?p line] =>
               rewrite Hs
           end;
    reflexivity.
Qed.

Lemma parse_lines_collects now lines : forall st st',
  parse_lines now st lines = Ok st' ->
  returned_objects (movements (snd st'))
  = returned_objects (movements (snd st))
    ++ map (decode_movement now) (filter is_movement_line lines)
  /\ returned_objects (information (snd st'))
     = returned_objects (information (snd st))
       ++ map decode_information (filter is_information_line lines)
  /\ returned_objects (free_communications (snd st'))
     = returned_objects (free_communications (snd st))
       ++ map parseFreeCommunication
            (filter is_free_communication_line lines).
Proof.
  induction lines as [|line lines IH]; intros st st' H.
  - injection H as <-. cbn [filter map]. rewrite !app_nil_r. auto.
  - cbn [parse_lines] in H. apply bind_ok in H. destruct H as [st1 [H1 H]].
    destruct (parse_line_collects _ _ _ _ H1) as [Hm [Hi Hf]].
    destruct (IH _ _ H) as [Hm' [Hi' Hf']].
    rewrite Hm', Hi', Hf', Hm, Hi, Hf, <- !app_assoc, <- !map_app.
    change (line :: lines) with ([line] ++ lines).
    rewrite !filter_app. auto.
Qed.

Lemma parse_lines_counts now lines st :
  parse_lines now initial_state lines = Ok st ->
  map oid (movements (snd st))
  = seq 0 (length (filter is_movement_line lines))
  /\ map oid (information (snd st))
     = seq 0 (length (filter is_information_line lines))
  /\ map oid (free_communications (snd st))
     = seq 0 (length (filter is_free_communication_line lines)).
Proof.
  intros H.
  destruct (parse_lines_collects _ _ _ _ H) as [Hm [Hi Hf]].
  assert (well_numbered (snd st)) as [Nm [Ni Nf]]
    by (apply (parse_lines_numbered now _ _ _ H); repeat split; reflexivity).
  cbn [initial_state snd empty_document movements information
       free_communications returned_objects map app] in Hm, Hi, Hf.
  unfold numbered in Nm, Ni, Nf.
  repeat split.
  - rewrite Nm. f_equal.
    rewrite <- (length_map (decode_movement now)), <- Hm.
    unfold returned_objects. rewrite length_map. reflexivity.
  - rewrite Ni. f_equal.
    rewrite <- (length_map decode_information), <- Hi.
    unfold returned_objects. rewrite length_map. reflexivity.
  - rewrite Nf. f_equal.
    rewrite <- (length_map parseFreeCommunication), <- Hf.
    unfold returned_objects. rewrite length_map. reflexivity.
Qed.

(** Property X9.  The line loop leaves in each of the three arrays one
    record for every line of its kind, in the order of the lines and
    numbered from 0: the record of a line is what the decoder of that line
    returned.  Lines of the other kinds add nothing to an array. *)
Theorem arrays_hold_the_lines_in_file_order (now : Z) (lines : list string)
    (st : parse_state) :
  parse_lines now initial_state lines = Ok st ->
  (returned_objects (movements (snd st))
   = map (decode_movement now) (filter is_movement_line lines)
   /\ map oid (movements (snd st))
      = seq 0 (length (filter is_movement_line lines)))
  /\ (returned_objects (information (snd st))
      = map decode_information (filter is_information_line lines)
      /\ map oid (information (snd st))
         = seq 0 (length (filter is_information_line lines)))
  /\ (returned_objects (free_communications (snd st))
      = map parseFreeCommunication
          (filter is_free_communication_line lines)
      /\ map oid (free_communications (snd st))
         = seq 0 (length (filter is_free_communication_line lines))).
Proof.
  intros H.
  destruct (parse_lines_collects _ _ _ _ H) as [Hm [Hi Hf]].
  destruct (parse_lines_counts _ _ _ H) as [Nm [Ni Nf]].
  repeat split; assumption.
Qed.

(** ** The records a document holds once *)

Lemma first_character_decides now st line st' c :
  parse_line now st line = Ok st' ->
  String.get 0 line = Some c ->
  (if Ascii.eqb c "0" then run (parseHeader now) line = Ok (header (snd st'))
   else header (snd st') = header (snd st))
  /\ (if Ascii.eqb c "1"
      then parseOldBalance now line = Ok (balance_old (snd st'))
      else balance_old (snd st') = balance_old (snd st))
  /\ (if Ascii.eqb c "9" then parseTrailer line = Ok (trailer (snd st'))
      else trailer (snd st') = trailer (snd st)).
Proof.
  unfold parse_line, with_movement, with_information. intros H E.
  rewrite E in H.
  destruct c as [[] [] [] [] [] [] [] []]; try discriminate H;
    cbn [Ascii.eqb Bool.eqb];
    repeat match type of H with
           | context [startsWith ?p line] => destruct (startsWith p line)
           end;
    try (injection H as <-; repeat split; reflexivity).
  all: match type of H with
       | bind ?r _ = Ok _ => destruct r eqn:Hr; simpl in H; [|discriminate H]
       end; injection H as <-; repeat split; reflexivity.
Qed.

Lemma parse_line_first now st line st' :
  parse_line now st line = Ok st' -> exists c, String.get 0 line = Some c.
Proof.
  unfold parse_line. destruct (String.get 0 line); [eauto | discriminate].
Qed.

Lemma last_records now lines : forall st st',
  parse_lines now st lines = Ok st' ->
  match last_of "0" lines with
  | Some l => run (parseHeader now) l = Ok (header (snd st'))
  | None => header (snd st') = header (snd st)
  end
  /\ match last_of "1" lines with
     | Some l => parseOldBalance now l = Ok (balance_old (snd st'))
     | None => balance_old (snd st') = balance_old (snd st)
     end
  /\ match last_of "9" lines with
     | Some l => parseTrailer l = Ok (trailer (snd st'))
     | None => trailer (snd st') = trailer (snd st)
     end.
Proof.
  induction lines as [|line lines IH]; intros st st' H.
  - injection H as <-. cbn [last_of]. auto.
  - cbn [parse_lines] in H. apply bind_ok in H. destruct H as [st1 [H1 H]].
    destruct (parse_line_first _ _ _ _ H1) as [c E].
    destruct (first_character_decides _ _ _ _ c H1 E) as [Hh [Ho Ht]].
    destruct (IH _ _ H) as [Hh' [Ho' Ht']].
    cbn [last_of]. rewrite E.
    repeat split.
    + destruct (last_of "0" lines); [exact Hh'|].
      destruct (Ascii.eqb c "0"); congruence.
    + destruct (last_of "1" lines); [exact Ho'|].
      destruct (Ascii.eqb c "1"); congruence.
    + destruct (last_of "9" lines); [exact Ht'|].
      destruct (Ascii.eqb c "9"); congruence.
Qed.

(** Property X10.  A document has one header, one old balance and one
    trailer: of several lines of such a record type the last one is kept,
    the earlier ones leave no trace once they are decoded; without a line of
    the type the part is the empty object. *)
Theorem last_line_of_a_type_is_kept (now : Z) (lines : list string)
    (st : parse_state) :
  parse_lines now initial_state lines = Ok st ->
  match last_of "0" lines with
  | Some l => run (parseHeader now) l = Ok (header (snd st))
  | None => header (snd st) = VObj []
  end
  /\ match last_of "1" lines with
     | Some l => parseOldBalance now l = Ok (balance_old (snd st))
     | None => balance_old (snd st) = VObj []
     end
  /\ match last_of "9" lines with
     | Some l => parseTrailer l = Ok (trailer (snd st))
     | None => trailer (snd st) = VObj []
     end.
Proof. intros H. exact (last_records now lines initial_state st H). Qed.

(** ** The flags are gone from the result *)

Lemma has_key_delete k o : has_key k (delete k o) = false.
Proof.
  unfold has_key. induction o as [|[k' v] o IH]; simpl; [reflexivity|].
  destruct (String.eqb k k') eqn:E; [exact IH|]. simpl. rewrite E. exact IH.
Qed.

Lemma has_key_delete_other k k' o :
  has_key k o = false -> has_key k (delete k' o) = false.
Proof.
  unfold has_key. induction o as [|[k1 v] o IH]; simpl; [reflexivity|].
  intros H. apply orb_false_iff in H. destruct H as [H1 H2].
  destruct (String.eqb k' k1); [apply IH, H2|]. simpl. rewrite H1.
  apply IH, H2.
Qed.

Lemma has_key_deleted k fields : forall o,
  In k fields -> has_key k (fold_left (fun o k => delete k o) fields o) = false.
Proof.
  induction fields as [|f fields IH]; intros o H; [contradiction|].
  simpl. destruct H as [->|H]; [|apply IH, H].
  clear IH. generalize (has_key_delete k o). generalize (delete k o).
  induction fields as [|f fields IH]; intros o' H; simpl; [exact H|].
  apply IH, has_key_delete_other, H.
Qed.

Lemma cleanup_has_no k fields array e :
  In k fields -> In e (cleanup fields array) -> has_key k (props e) = false.
Proof.
  unfold cleanup. intros Hk He. apply in_map_iff in He.
  destruct He as [e0 [<- _]]. simpl. apply has_key_deleted, Hk.
Qed.

Lemma has_key_set k k' v o :
  String.eqb k k' = false -> has_key k (set k' v o) = has_key k o.
Proof.
  unfold has_key. intros Hk. induction o as [|[k1 v1] o IH]; simpl.
  - rewrite Hk. reflexivity.
  - destruct (String.eqb k' k1) eqn:E; simpl.
    + apply String.eqb_eq in E. subst k1. reflexivity.
    + rewrite IH. reflexivity.
Qed.

Lemma has_key_attach k information movement :
  String.eqb k "information" = false ->
  has_key k (attach information movement) = has_key k movement.
Proof.
  intros Hk. unfold attach.
  destruct (get "information" movement); apply has_key_set, Hk.
Qed.

Lemma has_key_linked_with k informations : forall m,
  String.eqb k "information" = false ->
  has_key k (props (linked_with informations m)) = has_key k (props m).
Proof.
  induction informations as [|i informations IH]; intros m Hk; [reflexivity|].
  change (has_key k
            (props (linked_with informations
                      (if same_key (props m) (props i)
                       then mkEntity (oid m) (attach (props i) (props m))
                       else m))) = has_key k (props m)).
  rewrite (IH _ Hk). destruct (same_key (props m) (props i)); [|reflexivity].
  apply has_key_attach, Hk.
Qed.

(** The [information] list of a movement after the linking pass: what it
    held, then the information records with its key, in their order. *)
Lemma attached_linked_with informations : forall m,
  attached (props (linked_with informations m))
  = attached (props m)
    ++ map (fun i => VObj (props i))
         (filter (fun i => same_key (props m) (props i)) informations).
Proof.
  induction informations as [|i informations IH]; intros m.
  - simpl. rewrite app_nil_r. reflexivity.
  - change (attached
              (props (linked_with informations
                        (if same_key (props m) (props i)
                         then mkEntity (oid m) (attach (props i) (props m))
                         else m)))
            = attached (props m)
              ++ map (fun i => VObj (props i))
                   (filter (fun i => same_key (props m) (props i))
                      (i :: informations))).
    rewrite IH. cbn [filter].
    destruct (same_key (props m) (props i)) eqn:E; [|reflexivity].
    cbn [props map]. rewrite attached_attach, <- app_assoc.
    cbn [app]. do 3 f_equal. apply filter_ext. intros j.
    apply same_key_attach.
Qed.

Lemma parse_stages now coda d :
  parse now coda = Ok d ->
  exists st m,
    parse_lines now initial_state (split_lines (trim coda)) = Ok st /\
    merge_records now (snd st) = Ok m /\
    d = link_records m.
Proof.
  unfold parse, parse_records. fold initial_state. intros H.
  apply bind_ok in H. destruct H as [st [H1 H]].
  apply bind_ok in H. destruct H as [m [H2 H]].
  injection H as <-. eauto.
Qed.

Lemma merge_records_stages now d m :
  merge_records now d = Ok m ->
  exists mo md io id fo fd,
    merge_movements now (movements d) = Ok (mo, md) /\
    merge_information now (information d) = Ok (io, id) /\
    merge_free_communications (free_communications d) = Ok (fo, fd) /\
    movements m = cleanup ["next_code"; "link_code"] (remove_dropped md mo) /\
    information m = cleanup ["next_code"; "link_code"] (remove_dropped id io) /\
    free_communications m = cleanup ["link_code"] (remove_dropped fd fo) /\
    header m = header d /\ balance_old m = balance_old d /\
    balance_new m = balance_new d /\ trailer m = trailer d.
Proof.
  unfold merge_records. intros H.
  apply bind_ok in H. destruct H as [[mo md] [H1 H]].
  apply bind_ok in H. destruct H as [[io id] [H2 H]].
  apply bind_ok in H. destruct H as [[fo fd] [H3 H]].
  injection H as <-. exists mo, md, io, id, fo, fd.
  repeat split; assumption.
Qed.

Lemma link_records_parts m :
  movements (link_records m)
  = map (linked_with (information m)) (movements m)
  /\ information (link_records m)
     = remove_dropped (snd (link (information m) (movements m)))
                      (information m)
  /\ free_communications (link_records m) = free_communications m
  /\ header (link_records m) = header m
  /\ balance_old (link_records m) = balance_old m
  /\ balance_new (link_records m) = balance_new m
  /\ trailer (link_records m) = trailer m.
Proof.
  unfold link_records. rewrite <- link_fst.
  destruct (link (information m) (movements m)) as [linked drop].
  repeat split.
Qed.

(** ** What the merge loop keeps *)

Section MergeInvariant.

Variable is_root : object -> bool.
Variables flag field : string.
Variable finish : object -> result object.
Variable visit : object -> result object.

(** [P] holds of the records of the array, [R] of a root while its chain
    is merged into it, [Q] of the records the loop leaves. *)
Variables P R Q : object -> Prop.

Hypothesis root_ready : forall o, is_root o = true -> P o -> R o.
Hypothesis merged_ready :
  forall root next, R root -> P next -> R (merged field root next).

Local Abbreviation merge := (merge_chains is_root flag field finish visit).

Lemma absorb_ready rest : forall root,
  R root -> Forall (fun e => P (props e)) rest ->
  R (fst (absorb flag field root rest)).
Proof.
  induction rest as [|next rest IH]; intros root Hr Hall; [exact Hr|].
  simpl. destruct (continues flag root); [|exact Hr].
  inversion Hall as [|? ? Hn Hrest]; subst.
  specialize (IH (merged field root (props next))
                 (merged_ready _ _ Hr Hn) Hrest).
  destruct (absorb flag field (merged field root (props next)) rest).
  exact IH.
Qed.

(** Every record the loop leaves is a finished root, a visited record or
    a record it stepped over. *)
Lemma merge_keeps array :
  (forall o o', R o -> finish o = Ok o' -> Q o') ->
  (forall o o', P o -> visit o = Ok o' -> Q o') ->
  (forall o, P o -> Q o) ->
  forall skip out drop,
    Forall (fun e => P (props e)) array ->
    merge skip array = Ok (out, drop) ->
    Forall (fun e => Q (props e)) out.
Proof.
  intros Hfinish Hvisit Hskip.
  induction array as [|e array IH]; intros skip out drop Hall H.
  - injection H as <- <-. constructor.
  - inversion Hall as [|? ? He Hrest]; subst.
    destruct skip as [|skip]; simpl in H.
    + destruct (is_root (props e)) eqn:Er.
      * pose proof (absorb_ready array (props e) (root_ready _ Er He) Hrest)
          as Hroot.
        destruct (absorb flag field (props e) array) as [root dropped].
        destruct (finish root) as [root'|] eqn:Ef; simpl in H;
          [|discriminate H].
        destruct (merge (length dropped) array) as [[o1 d1]|] eqn:E;
          simpl in H; [|discriminate H].
        injection H as <- <-. constructor.
        -- exact (Hfinish _ _ Hroot Ef).
        -- exact (IH _ _ _ Hrest E).
      * destruct (visit (props e)) as [o|] eqn:Ev; simpl in H;
          [|discriminate H].
        destruct (merge 0 array) as [[o1 d1]|] eqn:E; simpl in H;
          [|discriminate H].
        injection H as <- <-. constructor.
        -- exact (Hvisit _ _ He Ev).
        -- exact (IH _ _ _ Hrest E).
    + destruct (merge skip array) as [[o1 d1]|] eqn:E; simpl in H;
        [|discriminate H].
      injection H as <- <-. constructor.
      * exact (Hskip _ He).
      * exact (IH _ _ _ Hrest E).
Qed.

(** An error of the loop is an error of [finish] on a root or of [visit]
    on a record. *)
Lemma merge_error (bad : error -> Prop) array :
  (forall o e, R o -> finish o = Err e -> ~ bad e) ->
  (forall o e, P o -> visit o = Err e -> ~ bad e) ->
  forall skip e,
    Forall (fun e => P (props e)) array ->
    merge skip array = Err e -> ~ bad e.
Proof.
  intros Hfinish Hvisit.
  induction array as [|r array IH]; intros skip e Hall H; [discriminate H|].
  inversion Hall as [|? ? Hr Hrest]; subst.
  destruct skip as [|skip]; simpl in H.
  - destruct (is_root (props r)) eqn:Er.
    + pose proof (absorb_ready array (props r) (root_ready _ Er Hr) Hrest)
        as Hroot.
      destruct (absorb flag field (props r) array) as [root dropped].
      destruct (finish root) as [root'|e0] eqn:Ef; simpl in H.
      * destruct (merge (length dropped) array) as [[o1 d1]|e1] eqn:E;
          simpl in H; [discriminate H|].
        injection H as <-. exact (IH _ _ Hrest E).
      * injection H as <-. exact (Hfinish _ _ Hroot Ef).
    + destruct (visit (props r)) as [o|e0] eqn:Ev; simpl in H.
      * destruct (merge 0 array) as [[o1 d1]|e1] eqn:E; simpl in H;
          [discriminate H|].
        injection H as <-. exact (IH _ _ Hrest E).
      * injection H as <-. exact (Hvisit _ _ Hr Ev).
  - destruct (merge skip array) as [[o1 d1]|e1] eqn:E; simpl in H;
      [discriminate H|].
    injection H as <-. exact (IH _ _ Hrest E).
Qed.

End MergeInvariant.

(** ** The properties a record has *)

Lemma record_keys fields : forall o,
  record fields = Ok o -> map fst o = map fst fields.
Proof.
  induction fields as [|[k r] fields IH]; intros o H.
  - injection H as <-. reflexivity.
  - simpl in H. apply bind_ok in H. destruct H as [v [_ H]].
    apply bind_ok in H. destruct H as [o' [Ho H]].
    injection H as <-. simpl. f_equal. exact (IH _ Ho).
Qed.

Lemma decode_movement_keys now line o :
  decode_movement now line = Ok o ->
  In (map fst o) [movement_21_keys; movement_22_keys; movement_23_keys].
Proof.
  unfold decode_movement. intros H.
  destruct (startsWith "21" line); [|destruct (startsWith "22" line)];
    apply record_keys in H; rewrite H; simpl; auto.
Qed.

Lemma decode_information_keys line o :
  decode_information line = Ok o ->
  In (map fst o) [information_31_keys; information_32_keys].
Proof.
  unfold decode_information. intros H.
  destruct (startsWith "31" line); [|destruct (startsWith "32" line)];
    apply record_keys in H; rewrite H; simpl; auto.
Qed.

Lemma returned_objects_In array decoders e :
  returned_objects array = decoders -> In e array ->
  In (Ok (props e)) decoders.
Proof.
  intros <- He. unfold returned_objects.
  apply (in_map (fun e => Ok (props e))), He.
Qed.

Lemma raw_movement now lines st e :
  parse_lines now initial_state lines = Ok st ->
  In e (movements (snd st)) ->
  exists line, is_movement_line line = true /\ decode_movement now line = Ok (props e).
Proof.
  intros H He.
  destruct (parse_lines_collects _ _ _ _ H) as [Hm _].
  apply (returned_objects_In _ _ e Hm) in He.
  apply in_map_iff in He. destruct He as [line [He Hin]].
  apply filter_In in Hin. destruct Hin as [_ Hin]. eauto.
Qed.

Lemma raw_information now lines st e :
  parse_lines now initial_state lines = Ok st ->
  In e (information (snd st)) ->
  exists line, is_information_line line = true /\ decode_information line = Ok (props e).
Proof.
  intros H He.
  destruct (parse_lines_collects _ _ _ _ H) as [_ [Hi _]].
  apply (returned_objects_In _ _ e Hi) in He.
  apply in_map_iff in He. destruct He as [line [He Hin]].
  apply filter_In in Hin. destruct Hin as [_ Hin]. eauto.
Qed.

Lemma raw_free_communication now lines st e :
  parse_lines now initial_state lines = Ok st ->
  In e (free_communications (snd st)) ->
  exists line, is_free_communication_line line = true /\ parseFreeCommunication line = Ok (props e).
Proof.
  intros H He.
  destruct (parse_lines_collects _ _ _ _ H) as [_ [_ Hf]].
  apply (returned_objects_In _ _ e Hf) in He.
  apply in_map_iff in He. destruct He as [line [He Hin]].
  apply filter_In in Hin. destruct Hin as [_ Hin]. eauto.
Qed.

Lemma has_key_set_same k v o : has_key k (set k v o) = true.
Proof.
  unfold has_key. induction o as [|[k1 v1] o IH]; simpl.
  - rewrite String.eqb_refl. reflexivity.
  - destruct (String.eqb k k1) eqn:E; simpl.
    + rewrite String.eqb_refl. reflexivity.
    + rewrite E. exact IH.
Qed.

Lemma has_key_assign k source : forall target,
  has_key k (assign target source) = has_key k target || has_key k source.
Proof.
  unfold assign.
  induction source as [|[k' v] source IH]; intros target; simpl.
  - rewrite orb_false_r. reflexivity.
  - rewrite IH.
    change (has_key k ((k', v) :: source))
      with (String.eqb k k' || has_key k source).
    destruct (String.eqb k k') eqn:E.
    + apply String.eqb_eq in E. subst k'.
      rewrite has_key_set_same, orb_true_r. reflexivity.
    + rewrite (has_key_set _ _ _ _ E). reflexivity.
Qed.

Lemma has_key_merged k field root next :
  String.eqb k field = false ->
  has_key k (merged field root next) = has_key k root || has_key k next.
Proof.
  intros Hk. unfold merged. rewrite (has_key_set _ _ _ _ Hk).
  apply has_key_assign.
Qed.

Lemma has_key_tidy k field o :
  String.eqb k field = false -> has_key k (tidy field o) = has_key k o.
Proof.
  intros Hk. unfold tidy. destruct (get field o); try reflexivity.
  apply has_key_set, Hk.
Qed.

Lemma has_key_finish_movement k now o o' :
  String.eqb k "communication" = false ->
  finish_movement now o = Ok o' -> has_key k o' = has_key k o.
Proof.
  unfold finish_movement, tidy_communication. intros Hk H.
  apply bind_ok in H. destruct H as [c [_ H]]. injection H as <-.
  rewrite (has_key_tidy _ _ _ Hk). apply has_key_set, Hk.
Qed.

Lemma has_key_finish_information k now o o' :
  String.eqb k "communication" = false ->
  finish_information now o = Ok o' -> has_key k o' = has_key k o.
Proof.
  unfold finish_information, tidy_communication. intros Hk H.
  apply bind_ok in H. destruct H as [c [_ H]]. injection H as <-.
  rewrite (has_key_tidy _ _ _ Hk). apply has_key_set, Hk.
Qed.

Lemma has_key_tidy_communication k o o' :
  String.eqb k "communication" = false ->
  tidy_communication o = Ok o' -> has_key k o' = has_key k o.
Proof.
  unfold tidy_communication. intros Hk [= <-]. apply has_key_tidy, Hk.
Qed.

Lemma has_key_of_keys k o keys :
  map fst o = keys -> has_key k o = existsb (String.eqb k) keys.
Proof. intros <-. reflexivity. Qed.

(** A movement has no [information] list before the linking pass. *)
Lemma merged_movements_hold_nothing now array out drop :
  Forall (fun e => has_key "information" (props e) = false) array ->
  merge_movements now array = Ok (out, drop) ->
  Forall (fun e => has_key "information" (props e) = false) out.
Proof.
  unfold merge_movements.
  apply (merge_keeps first_article "next_code" "communication"
           (finish_movement now) tidy_communication
           (fun o => has_key "information" o = false)
           (fun o => has_key "information" o = false)
           (fun o => has_key "information" o = false)).
  - auto.
  - intros root next Hr Hn. rewrite has_key_merged by reflexivity.
    rewrite Hr, Hn. reflexivity.
  - intros o o' Ho H.
    rewrite (has_key_finish_movement "information" _ _ _ eq_refl H).
    exact Ho.
  - intros o o' Ho H.
    rewrite (has_key_tidy_communication "information" _ _ eq_refl H).
    exact Ho.
  - auto.
Qed.

Lemma nothing_attached_before_linking now lines st m e :
  parse_lines now initial_state lines = Ok st ->
  merge_records now (snd st) = Ok m ->
  In e (movements m) -> has_key "information" (props e) = false.
Proof.
  intros Hl Hm He.
  destruct (merge_records_stages _ _ _ Hm)
    as [mo [md [io [id [fo [fd [Mm [_ [_ [Em _]]]]]]]]]].
  rewrite Em in He. unfold cleanup in He. apply in_map_iff in He.
  destruct He as [e1 [<- He]].
  apply (subseq_In _ _ _ (remove_dropped_subseq _ _)) in He.
  assert (Forall (fun e => has_key "information" (props e) = false) mo)
    as Hall.
  { apply (merged_movements_hold_nothing now _ _ _ ) with (2 := Mm).
    apply Forall_forall. intros r Hr.
    destruct (raw_movement _ _ _ _ Hl Hr) as [line [_ Hd]].
    apply decode_movement_keys in Hd.
    destruct Hd as [Hd|[Hd|[Hd|[]]]];
      rewrite (has_key_of_keys "information" _ _ (eq_sym Hd));
      reflexivity. }
  rewrite Forall_forall in Hall. cbn [props fold_left].
  do 2 apply has_key_delete_other. exact (Hall _ He).
Qed.

Lemma attached_absent o : has_key "information" o = false -> attached o = [].
Proof. intros H. unfold attached. rewrite (get_absent _ _ H). reflexivity. Qed.

(** Property X11.  The document [parse] returns has no continuation flag
    left: no movement and no information record, at the top level or in the
    list of a movement, has a [next_code] or a [link_code], and no free
    communication has a [link_code]. *)
Theorem result_has_no_flags (now : Z) (coda : string) (d : document) :
  parse now coda = Ok d ->
  (forall e, In e (movements d) \/ In e (information d) ->
     has_key "next_code" (props e) = false /\
     has_key "link_code" (props e) = false)
  /\ (forall e o, In e (movements d) -> In o (attached_objects (props e)) ->
        has_key "next_code" o = false /\ has_key "link_code" o = false)
  /\ (forall e, In e (free_communications d) ->
        has_key "link_code" (props e) = false).
Proof.
  intros H. destruct (parse_stages _ _ _ H) as [st [m [Hl [Hm ->]]]].
  destruct (merge_records_stages _ _ _ Hm)
    as [mo [md [io [id [fo [fd [Mm [_ [_ [Em [Ei [Ef _]]]]]]]]]]]].
  destruct (link_records_parts m) as [Lm [Li [Lf _]]].
  assert (forall k e, In k ["next_code"; "link_code"] ->
            In e (information m) -> has_key k (props e) = false) as Hinfo.
  { intros k e Hk He. rewrite Ei in He.
    exact (cleanup_has_no k _ _ e Hk He). }
  assert (forall k e, In k ["next_code"; "link_code"] ->
            In e (movements m) -> has_key k (props e) = false) as Hmov.
  { intros k e Hk He. rewrite Em in He.
    exact (cleanup_has_no k _ _ e Hk He). }
  split; [|split].
  - intros e [He|He].
    + rewrite Lm in He. apply in_map_iff in He. destruct He as [e0 [<- He]].
      rewrite !has_key_linked_with by reflexivity.
      split; apply Hmov; simpl; auto.
    + rewrite Li in He.
      apply (subseq_In _ _ _ (remove_dropped_subseq _ _)) in He.
      split; apply Hinfo; simpl; auto.
  - intros e o He Ho. rewrite Lm in He. apply in_map_iff in He.
    destruct He as [e0 [<- He]].
    unfold attached_objects in Ho. rewrite attached_linked_with in Ho.
    pose proof (nothing_attached_before_linking _ _ _ _ _ Hl Hm He) as Hnone.
    apply attached_absent in Hnone.
    rewrite Hnone in Ho. cbn [app] in Ho.
    apply in_flat_map in Ho. destruct Ho as [v [Hv Ho]].
    apply in_map_iff in Hv. destruct Hv as [i [<- Hi]].
    apply filter_In in Hi. destruct Hi as [Hi _].
    destruct Ho as [<-|[]]. split; apply Hinfo; simpl; auto.
  - intros e He. rewrite Lf, Ef in He.
    apply (cleanup_has_no "link_code" ["link_code"] (remove_dropped fd fo) e);
      [simpl; auto | exact He].
Qed.

(** ** The order of the result *)

Lemma map_oid_linked informations array :
  map oid (map (linked_with informations) array) = map oid array.
Proof.
  rewrite map_map. apply map_ext. intros m. apply linked_with_oid.
Qed.

(** Property X12.  The records of the result are in the order of their lines
    and none is there twice: the identities of each array of the result,
    which are the ranks of the lines of its kind, go up along the array. *)
Theorem result_keeps_the_file_order (now : Z) (coda : string) (d : document) :
  parse now coda = Ok d ->
  subseq (map oid (movements d))
         (seq 0 (length (filter is_movement_line (split_lines (trim coda)))))
  /\ subseq (map oid (information d))
            (seq 0 (length (filter is_information_line
                              (split_lines (trim coda)))))
  /\ subseq (map oid (free_communications d))
            (seq 0 (length (filter is_free_communication_line
                              (split_lines (trim coda))))).
Proof.
  intros H. destruct (parse_stages _ _ _ H) as [st [m [Hl [Hm ->]]]].
  destruct (merge_records_stages _ _ _ Hm)
    as [mo [md [io [id [fo [fd [Mm [Mi [Mf [Em [Ei [Ef _]]]]]]]]]]]].
  destruct (link_records_parts m) as [Lm [Li [Lf _]]].
  destruct (parse_lines_counts _ _ _ Hl) as [Nm [Ni Nf]].
  rewrite Lm, Li, Lf, map_oid_linked, <- Nm, <- Ni, <- Nf.
  rewrite <- (merge_oids _ _ _ _ _ _ _ _ _ Mm),
          <- (merge_oids _ _ _ _ _ _ _ _ _ Mi),
          <- (merge_oids _ _ _ _ _ _ _ _ _ Mf).
  split; [|split].
  - rewrite Em, cleanup_oids. apply subseq_map, remove_dropped_subseq.
  - apply (subseq_trans _ (map oid (information m))).
    + apply subseq_map, remove_dropped_subseq.
    + rewrite Ei, cleanup_oids. apply subseq_map, remove_dropped_subseq.
  - rewrite Ef, cleanup_oids. apply subseq_map, remove_dropped_subseq.
Qed.

(** ** Errors [parse] never raises *)

Lemma quiet_Ok {A : Type} (a : A) : quiet (Ok a).
Proof. intros e H. discriminate H. Qed.

Lemma quiet_bind {A B : Type} (r : result A) (k : A -> result B) :
  quiet r -> (forall a, quiet (k a)) -> quiet (bind r k).
Proof.
  intros Hr Hk e H. destruct r as [a|e0]; simpl in H.
  - exact (Hk a e H).
  - injection H as <-. apply Hr. reflexivity.
Qed.

Lemma quiet_if {A : Type} (b : bool) (x y : result A) :
  quiet x -> quiet y -> quiet (if b then x else y).
Proof. destruct b; auto. Qed.

Lemma quiet_record fields :
  Forall (fun f => quiet (snd f)) fields -> quiet (record fields).
Proof.
  induction 1 as [|[k r] fields Hr _ IH]; [apply quiet_Ok|].
  simpl. apply quiet_bind; [exact Hr|]. intros v.
  apply quiet_bind; [exact IH|]. intros o. apply quiet_Ok.
Qed.

Lemma quiet_parseDate now s : quiet (parseDate now s).
Proof.
  intros e. unfold parseDate.
  destruct (String.length s) as [|[|[|[|[|[|[|[|[|[|[|n]]]]]]]]]]];
    try (intros [= <-]; reflexivity); discriminate.
Qed.

Lemma quiet_match {R : Type} v (table : list (string * R)) w :
  quiet (match_ v table w).
Proof.
  intros e. unfold match_. destruct (own_property _ _); [discriminate|].
  destruct w; [discriminate|]. intros [= <-]. reflexivity.
Qed.

Lemma quiet_match_number {R : Type} n (table : list (Z * R)) w :
  quiet (match_number n table w).
Proof.
  intros e. unfold match_number. destruct (own_index _ _); [discriminate|].
  destruct w; [discriminate|]. intros [= <-]. reflexivity.
Qed.

Lemma quiet_trim_char line i : quiet (trim_char line i).
Proof.
  intros e. unfold trim_char.
  destruct (char_at line i); try discriminate; intros [= <-]; reflexivity.
Qed.

Lemma quiet_total {A : Type} (r : result A) : is_ok r = true -> quiet r.
Proof. destruct r; [intros _; apply quiet_Ok | discriminate]. Qed.

Lemma quiet_run {A : Type} (r : reader A) s : quiet_reader r -> quiet (run r s).
Proof.
  intros Hr e. unfold run.
  destruct (r (new_StringStream s)) as [[a st]|e0] eqn:E; [discriminate|].
  intros [= <-]. exact (Hr _ _ E).
Qed.

Lemma quiet_rret {A : Type} (a : A) : quiet_reader (rret a).
Proof. intros st. apply quiet_Ok. Qed.

Lemma quiet_take n : quiet_reader (take n).
Proof. intros st. apply quiet_Ok. Qed.

Lemma quiet_skip n : quiet_reader (skip n).
Proof. intros st. apply quiet_Ok. Qed.

Lemma quiet_rbind {A B : Type} (r : reader A) (k : A -> reader B) :
  quiet_reader r -> (forall a, quiet_reader (k a)) -> quiet_reader (rbind r k).
Proof.
  intros Hr Hk st e. unfold rbind.
  destruct (r st) as [[a st']|e0] eqn:E.
  - apply Hk.
  - intros [= <-]. exact (Hr _ _ E).
Qed.

Lemma quiet_rmap {A B : Type} (f : A -> B) (r : reader A) :
  quiet_reader r -> quiet_reader (rmap f r).
Proof.
  intros Hr. apply quiet_rbind; [exact Hr|]. intros a. apply quiet_rret.
Qed.

Lemma quiet_lift {A : Type} (r : result A) : quiet r -> quiet_reader (lift r).
Proof.
  intros Hr st e. unfold lift. destruct r; [discriminate|].
  intros [= <-]. apply Hr. reflexivity.
Qed.

Lemma quiet_skip_take k n : quiet_reader (skip_take k n).
Proof.
  apply quiet_rbind; [apply quiet_skip|]. intros _. apply quiet_take.
Qed.

Lemma quiet_literal fields :
  Forall (fun f => quiet_reader (snd f)) fields -> quiet_reader (literal fields).
Proof.
  induction 1 as [|[k r] fields Hr _ IH]; [apply quiet_rret|].
  simpl. apply quiet_rbind; [exact Hr|]. intros v.
  apply quiet_rbind; [exact IH|]. intros o. apply quiet_rret.
Qed.

Lemma quiet_object_of fields :
  Forall (fun f => quiet_reader (snd f)) fields ->
  quiet_reader (object_of fields).
Proof. intros H. apply quiet_rmap, quiet_literal, H. Qed.

Lemma quiet_dated now n : quiet_reader (dated now n).
Proof.
  apply quiet_rbind; [apply quiet_take|]. intros s.
  apply quiet_lift, quiet_parseDate.
Qed.

(** Settles that a reader built from the reads of the layouts is quiet. *)
Ltac quiet_fields :=
  repeat first
    [ apply quiet_object_of
    | apply Forall_cons
    | apply Forall_nil
    | apply quiet_take
    | apply quiet_skip_take
    | apply quiet_rret
    | apply quiet_dated
    | apply quiet_lift
    | apply quiet_parseDate
    | apply quiet_match
    | apply quiet_Ok
    | (apply quiet_rbind; [|intros ?]) ];
  cbn [snd].

Lemma quiet_movement_layouts now n :
  Forall (fun l => quiet_reader (snd l)) (movement_layouts now n).
Proof.
  unfold movement_layouts, layout, transaction_of, terminal_tidied,
    terminal_city, raw, trimmed, tidied, integer, scaled, flagged.
  repeat (apply Forall_cons; [cbn [snd]; quiet_fields|]).
  apply Forall_nil.
Qed.

Lemma quiet_detail_layouts now :
  Forall (fun l => quiet_reader (snd l)) (detail_layouts now).
Proof.
  unfold detail_layouts, detail_001, detail_002, detail_006, detail_007,
    detail_008, detail_010, detail_011, detail_amount, sign_factor,
    raw, trimmed, tidied, integer, scaled, flagged.
  repeat (apply Forall_cons; [cbn [snd]; quiet_fields|]).
  apply Forall_nil.
Qed.

Lemma own_index_In {R : Type} n (table : list (Z * R)) r :
  own_index n table = Some r -> In r (map snd table).
Proof.
  induction table as [|[k r0] table IH]; cbn [own_index map snd In];
    [discriminate|].
  destruct (strict_eq (VNum n) (VNum (num_of_Z k)));
    [intros [= <-]; auto | auto].
Qed.

Lemma own_property_In {R : Type} k (table : list (string * R)) r :
  own_property k table = Some r -> In r (map snd table).
Proof.
  induction table as [|[k0 r0] table IH]; simpl; [discriminate|].
  destruct (String.eqb k k0); [intros [= <-]; auto | auto].
Qed.

Lemma Forall_snd {A B : Type} (P : B -> Prop) (l : list (A * B)) b :
  Forall (fun x => P (snd x)) l -> In b (map snd l) -> P b.
Proof.
  intros H Hin. apply in_map_iff in Hin. destruct Hin as [x [<- Hx]].
  rewrite Forall_forall in H. exact (H _ Hx).
Qed.

(** A communication decoder that is handed a text and one of the two
    communication types raises none of those errors. *)
Lemma quiet_parseCommunicationMovement now s type :
  is_communication_type type = true ->
  quiet (parseCommunicationMovement now (VStr s) type).
Proof.
  unfold is_communication_type, parseCommunicationMovement. intros H.
  destruct (strict_eq type (VStr "unstructured")); [apply quiet_Ok|].
  simpl in H. rewrite H. cbn [over]. apply quiet_run.
  apply quiet_rbind; [apply quiet_take|]. intros discriminant.
  destruct (own_index _ _) as [layout|] eqn:E.
  - apply own_index_In in E.
    exact (Forall_snd _ _ _ (quiet_movement_layouts now _) E).
  - apply quiet_lift. intros e [= <-]. reflexivity.
Qed.

Lemma quiet_parseCommunicationDetail now s type :
  is_communication_type type = true ->
  quiet (parseCommunicationDetail now (VStr s) type).
Proof.
  unfold is_communication_type, parseCommunicationDetail. intros H.
  destruct (strict_eq type (VStr "unstructured")); [apply quiet_Ok|].
  simpl in H. rewrite H. cbn [over]. apply quiet_run.
  apply quiet_rbind; [apply quiet_take|]. intros discriminant.
  destruct (own_property _ _) as [layout|] eqn:E.
  - apply own_property_In in E.
    exact (Forall_snd _ _ _ (quiet_detail_layouts now) E).
  - apply quiet_lift. intros e [= <-]. reflexivity.
Qed.

(** ** The communication type of a root *)

Lemma typed_root_ready o :
  first_article o = true -> typed_record o -> typed_root o.
Proof. intros Hr [_ [Ht [Hv Hk]]]. split; [exact Ht | exact (Hv (Hk Hr))]. Qed.

Lemma typed_root_merged root next :
  typed_root root -> typed_record next ->
  typed_root (merged "communication" root next).
Proof.
  intros [_ Hv] [Hd [_ [Hn _]]]. split.
  - rewrite (get_field_merged "communication"). reflexivity.
  - unfold merged. rewrite get_set_other by reflexivity.
    destruct (has_key "communication_type" next) eqn:E.
    + rewrite (get_assign_present _ _ _ Hd E). exact (Hn eq_refl).
    + rewrite (get_assign_absent _ _ _ E). exact Hv.
Qed.

Lemma quiet_finish_movement now o :
  typed_root o -> quiet (finish_movement now o).
Proof.
  intros [Ht Hv]. unfold finish_movement, tidy_communication.
  destruct (get "communication" o) as [| | | |s| | |]; try discriminate Ht.
  apply quiet_bind; [apply quiet_parseCommunicationMovement, Hv|].
  intros c. apply quiet_Ok.
Qed.

Lemma quiet_finish_information now o :
  typed_root o -> quiet (finish_information now o).
Proof.
  intros [Ht Hv]. unfold finish_information, tidy_communication.
  destruct (get "communication" o) as [| | | |s| | |]; try discriminate Ht.
  apply quiet_bind; [apply quiet_parseCommunicationDetail, Hv|].
  intros c. apply quiet_Ok.
Qed.

Lemma communication_type_of_valid flag v :
  communication_type_of flag = Ok v -> is_communication_type v = true.
Proof.
  unfold communication_type_of, match_. simpl.
  destruct (String.eqb (key_of flag) "0"); [intros [= <-]; reflexivity|].
  destruct (String.eqb (key_of flag) "1"); [intros [= <-]; reflexivity|].
  discriminate.
Qed.

Lemma second_character a b line :
  startsWith (String a (String b EmptyString)) line = true ->
  char_at line 1 = VStr (String b EmptyString).
Proof.
  intros H. apply startsWith_two in H. destruct H as [_ H].
  unfold char_at. rewrite H. reflexivity.
Qed.

(** The value a record holds under a name is what the expression written
    under that name returned. *)
Lemma record_get fields : forall o k,
  record fields = Ok o ->
  match own_property k fields with
  | Some r => r = Ok (get k o)
  | None => get k o = VUndefined
  end.
Proof.
  induction fields as [|[k0 r] fields IH]; intros o k H.
  - injection H as <-. reflexivity.
  - simpl in H. apply bind_ok in H. destruct H as [v [Hv H]].
    apply bind_ok in H. destruct H as [o' [Ho H]]. injection H as <-.
    simpl. destruct (String.eqb k k0); [exact Hv | exact (IH _ k Ho)].
Qed.

Lemma distinct_keys_ext (o o' : object) :
  map fst o = map fst o' -> distinct_keys o = distinct_keys o'.
Proof.
  revert o'. induction o as [|[k v] o IH]; intros [|[k' v'] o'] H;
    try discriminate H; [reflexivity|].
  simpl in H. injection H as -> H. simpl.
  rewrite (IH _ H). unfold has_key. rewrite H. reflexivity.
Qed.

Lemma distinct_keys_of (keys : list string) (o : object) :
  map fst o = keys ->
  distinct_keys (map (fun k => (k, VUndefined)) keys) = true ->
  distinct_keys o = true.
Proof.
  intros H <-. apply distinct_keys_ext. rewrite map_map. simpl.
  rewrite map_id. exact H.
Qed.

Lemma typed_movement now line o :
  is_movement_line line = true -> decode_movement now line = Ok o ->
  typed_record o.
Proof.
  unfold is_movement_line, decode_movement. intros Hline H.
  destruct (startsWith "21" line) eqn:E1;
    [|destruct (startsWith "22" line) eqn:E2].
  - pose proof (record_keys _ _ H) as Hk.
    pose proof (record_get _ _ "communication" H) as Hc.
    pose proof (record_get _ _ "communication_type" H) as Ht.
    cbn in Hk. simpl in Hc, Ht. injection Hc as Hc.
    repeat split.
    + apply (distinct_keys_of _ _ Hk). reflexivity.
    + rewrite <- Hc. reflexivity.
    + intros _. exact (communication_type_of_valid _ _ Ht).
    + intros _. rewrite (has_key_of_keys _ _ _ Hk). reflexivity.
  - pose proof (record_keys _ _ H) as Hk.
    pose proof (record_get _ _ "communication" H) as Hc.
    pose proof (record_get _ _ "article_code" H) as Ha.
    cbn in Hk. simpl in Hc, Ha. injection Hc as Hc. injection Ha as Ha.
    rewrite (second_character _ _ _ E2) in Ha.
    repeat split.
    + apply (distinct_keys_of _ _ Hk). reflexivity.
    + rewrite <- Hc. reflexivity.
    + rewrite (has_key_of_keys _ _ _ Hk). discriminate.
    + unfold first_article. rewrite <- Ha. discriminate.
  - simpl in Hline.
    pose proof (record_keys _ _ H) as Hk.
    pose proof (record_get _ _ "communication" H) as Hc.
    pose proof (record_get _ _ "article_code" H) as Ha.
    cbn in Hk. simpl in Hc, Ha. injection Hc as Hc. injection Ha as Ha.
    rewrite (second_character _ _ _ Hline) in Ha.
    repeat split.
    + apply (distinct_keys_of _ _ Hk). reflexivity.
    + rewrite <- Hc. reflexivity.
    + rewrite (has_key_of_keys _ _ _ Hk). discriminate.
    + unfold first_article. rewrite <- Ha. discriminate.
Qed.

Lemma typed_information line o :
  is_information_line line = true -> decode_information line = Ok o ->
  typed_record o.
Proof.
  unfold is_information_line, decode_information. intros Hline H.
  destruct (startsWith "31" line) eqn:E1;
    [|destruct (startsWith "32" line) eqn:E2].
  - pose proof (record_keys _ _ H) as Hk.
    pose proof (record_get _ _ "communication" H) as Hc.
    pose proof (record_get _ _ "communication_type" H) as Ht.
    cbn in Hk. simpl in Hc, Ht. injection Hc as Hc.
    repeat split.
    + apply (distinct_keys_of _ _ Hk). reflexivity.
    + rewrite <- Hc. reflexivity.
    + intros _. exact (communication_type_of_valid _ _ Ht).
    + intros _. rewrite (has_key_of_keys _ _ _ Hk). reflexivity.
  - pose proof (record_keys _ _ H) as Hk.
    pose proof (record_get _ _ "communication" H) as Hc.
    pose proof (record_get _ _ "article_code" H) as Ha.
    cbn in Hk. simpl in Hc, Ha. injection Hc as Hc. injection Ha as Ha.
    rewrite (second_character _ _ _ E2) in Ha.
    repeat split.
    + apply (distinct_keys_of _ _ Hk). reflexivity.
    + rewrite <- Hc. reflexivity.
    + rewrite (has_key_of_keys _ _ _ Hk). discriminate.
    + unfold first_article. rewrite <- Ha. discriminate.
  - simpl in Hline.
    pose proof (record_keys _ _ H) as Hk.
    pose proof (record_get _ _ "communication" H) as Hc.
    pose proof (record_get _ _ "article_code" H) as Ha.
    cbn in Hk. simpl in Hc, Ha. injection Hc as Hc. injection Ha as Ha.
    rewrite (second_character _ _ _ Hline) in Ha.
    repeat split.
    + apply (distinct_keys_of _ _ Hk). reflexivity.
    + rewrite <- Hc. reflexivity.
    + rewrite (has_key_of_keys _ _ _ Hk). discriminate.
    + unfold first_article. rewrite <- Ha. discriminate.
Qed.

Ltac quiet_record_fields :=
  apply quiet_record;
  repeat first
    [ apply Forall_cons
    | apply Forall_nil
    | apply quiet_Ok
    | apply quiet_parseDate
    | apply quiet_match
    | apply quiet_trim_char
    | apply quiet_if
    | (apply quiet_total; reflexivity)
    | (apply quiet_total; apply is_ok_spread_account)
    | (apply quiet_bind; [|intros ?]) ];
  cbn [snd].

Lemma quiet_parse_line now st line : quiet (parse_line now st line).
Proof.
  unfold parse_line, with_movement, with_information.
  destruct (String.get 0 line) as [c|]; [|intros e [= <-]; reflexivity].
  destruct c as [[] [] [] [] [] [] [] []];
    try (intros e [= <-]; reflexivity);
    repeat match goal with
           | |- context [startsWith ?p line] => destruct (startsWith p line)
           end;
    try apply quiet_Ok;
    (apply quiet_bind; [|intros ?; apply quiet_Ok]);
    try (rewrite parseHeader_columns;
         apply quiet_bind; [apply quiet_parseDate | intros ?; apply quiet_Ok]);
    unfold parseNewBalance, parseOldBalance, parseTrailer,
      parseFreeCommunication, parseMovement21, parseMovement22,
      parseMovement23, parseAdditionalInformation31,
      parseAdditionalInformation32, parseAdditionalInformation33,
      communication_type_of, sign_factor, text, num;
    try match goal with
        | |- quiet (bind (record _) _) =>
            apply quiet_bind; [|intros ?; apply quiet_Ok]
        end;
    quiet_record_fields;
    destruct (fst st);
    [apply quiet_total, is_ok_spread_account | apply quiet_Ok].
Qed.

Lemma quiet_parse_lines now lines : forall st,
  quiet (parse_lines now st lines).
Proof.
  induction lines as [|line lines IH]; intros st; [apply quiet_Ok|].
  cbn [parse_lines]. apply quiet_bind; [apply quiet_parse_line | exact IH].
Qed.

Lemma quiet_merge_movements now array :
  Forall (fun e => typed_record (props e)) array ->
  quiet (merge_movements now array).
Proof.
  intros Hall e H. apply not_true_is_false. revert H.
  apply (merge_error first_article "next_code" "communication"
           (finish_movement now) tidy_communication typed_record typed_root
           typed_root_ready typed_root_merged
           (fun e => unreachable e = true)); [| |exact Hall].
  - intros o e0 Ho Hf. apply not_true_iff_false.
    exact (quiet_finish_movement now o Ho e0 Hf).
  - intros o e0 _ Hf. discriminate Hf.
Qed.

Lemma quiet_merge_information now array :
  Forall (fun e => typed_record (props e)) array ->
  quiet (merge_information now array).
Proof.
  intros Hall e H. apply not_true_is_false. revert H.
  apply (merge_error first_article "next_code" "communication"
           (finish_information now) tidy_communication typed_record
           typed_root typed_root_ready typed_root_merged
           (fun e => unreachable e = true)); [| |exact Hall].
  - intros o e0 Ho Hf. apply not_true_iff_false.
    exact (quiet_finish_information now o Ho e0 Hf).
  - intros o e0 _ Hf. discriminate Hf.
Qed.

Lemma quiet_tidy_text o : quiet (tidy_text o).
Proof.
  intros e. unfold tidy_text.
  destruct (get "text" o); try discriminate; intros [= <-]; reflexivity.
Qed.

Lemma quiet_merge_free_communications array :
  quiet (merge_free_communications array).
Proof.
  intros e H. apply not_true_is_false. revert H.
  apply (merge_error (fun _ => true) "link_code" "text" tidy_text tidy_text
           (fun _ => True) (fun _ => True) (fun _ _ _ => I)
           (fun _ _ _ _ => I) (fun e => unreachable e = true)).
  - intros o e0 _ Hf. apply not_true_iff_false.
    exact (quiet_tidy_text o e0 Hf).
  - intros o e0 _ Hf. apply not_true_iff_false.
    exact (quiet_tidy_text o e0 Hf).
  - apply Forall_forall. intros; exact I.
Qed.

(** Property X13.  [parse] never raises the error of the outer [switch] of a
    communication decoder, 'Unknown movement communication type' or 'Unknown
    communication type': a record whose article code is 1 always carries one
    of the two communication types, also after the records of its chain are
    merged into it; and a decoder is always handed a text. *)
Theorem outer_defaults_are_never_reached (now : Z) (coda : string) :
  parse now coda <> Err UnknownMovementCommunicationType /\
  parse now coda <> Err UnknownCommunicationType /\
  forall e, parse now coda = Err e -> unreachable e = false.
Proof.
  assert (quiet (parse now coda)) as Hq.
  { unfold parse, parse_records. fold initial_state.
    destruct (parse_lines now initial_state (split_lines (trim coda)))
      as [st|e0] eqn:Hl;
      [|intros e H; injection H as <-;
        exact (quiet_parse_lines _ _ _ e0 Hl)].
    cbn [bind]. apply quiet_bind; [|intros ?; apply quiet_Ok].
    unfold merge_records.
    apply quiet_bind; [|intros m].
    { apply quiet_merge_movements. apply Forall_forall. intros r Hr.
      destruct (raw_movement _ _ _ _ Hl Hr) as [line [Hk Hd]].
      exact (typed_movement _ _ _ Hk Hd). }
    apply quiet_bind; [|intros i].
    { apply quiet_merge_information. apply Forall_forall. intros r Hr.
      destruct (raw_information _ _ _ _ Hl Hr) as [line [Hk Hd]].
      exact (typed_information _ _ Hk Hd). }
    apply quiet_bind; [apply quiet_merge_free_communications|].
    intros f. apply quiet_Ok. }
  split; [|split].
  - intros H. discriminate (Hq _ H).
  - intros H. discriminate (Hq _ H).
  - exact Hq.
Qed.

(** ** What the linking pass leaves *)

Lemma matches_link_one i array j :
  matches (fst (link_one i array)) j = matches array j.
Proof.
  unfold matches, link_one. cbn [fst].
  induction array as [|m array IH]; [reflexivity|].
  cbn [map filter].
  assert (same_key
            (props (if same_key (props m) (props i)
                    then mkEntity (oid m) (attach (props i) (props m))
                    else m)) (props j)
          = same_key (props m) (props j)) as ->.
  { destruct (same_key (props m) (props i)); [|reflexivity].
    apply same_key_attach. }
  destruct (same_key (props m) (props j)); simpl; rewrite IH; reflexivity.
Qed.

Lemma map_constant {A B : Type} (b : B) (l : list A) :
  map (fun _ => b) l = repeat b (length l).
Proof. induction l as [|a l IH]; simpl; [|rewrite IH]; reflexivity. Qed.

(** The [drop] list of the pass: every information record, once for each
    movement it has the key of. *)
Lemma link_drop informations : forall array,
  snd (link informations array)
  = flat_map (fun i => repeat i (matches array i)) informations.
Proof.
  induction informations as [|i informations IH]; intros array;
    [reflexivity|].
  rewrite link_cons. cbn [snd flat_map]. rewrite IH. f_equal.
  - unfold link_one. cbn [snd]. apply map_constant.
  - apply flat_map_ext. intros j. rewrite matches_link_one. reflexivity.
Qed.

Lemma indexOf_bound record array : forall i,
  indexOf record array = Some i -> i < length array.
Proof.
  induction array as [|e array IH]; simpl; intros i H; [discriminate H|].
  destruct (Nat.eqb (oid e) (oid record)); [injection H as <-; lia|].
  destruct (indexOf record array) as [j|]; [|discriminate H].
  injection H as <-. specialize (IH j eq_refl). lia.
Qed.

Lemma length_remove_at array : forall i,
  i < length array -> length (remove_at i array) = pred (length array).
Proof.
  induction array as [|e array IH]; intros i H; [simpl in H; lia|].
  destruct i as [|i]; [reflexivity|].
  simpl in H |- *. rewrite IH by lia. destruct array; [simpl in H; lia|].
  reflexivity.
Qed.

Lemma length_removelast (array : list entity) :
  length (removelast array) = pred (length array).
Proof.
  induction array as [|e array IH]; [reflexivity|].
  destruct array as [|e' array]; [reflexivity|].
  change (S (length (removelast (e' :: array))) = S (length array)).
  rewrite IH. reflexivity.
Qed.

(** One [splice] takes one record out of a list that has any: the record
    asked for when it is there, the last one when it is not. *)
Lemma length_splice_out array record :
  length (splice_out array record) = pred (length array).
Proof.
  unfold splice_out. destruct (indexOf record array) as [i|] eqn:E.
  - apply length_remove_at, (indexOf_bound record), E.
  - apply length_removelast.
Qed.

Lemma length_remove_dropped drop : forall array,
  length (remove_dropped drop array) = length array - length drop.
Proof.
  unfold remove_dropped.
  induction drop as [|d drop IH]; intros array; simpl; [lia|].
  rewrite IH, length_splice_out. lia.
Qed.

Lemma length_flat_repeat {A : Type} (f : A -> nat) (l : list A) :
  length (flat_map (fun a => repeat a (f a)) l) = list_sum (map f l).
Proof.
  induction l as [|a l IH]; [reflexivity|].
  cbn [flat_map map list_sum]. rewrite length_app, repeat_length, IH.
  reflexivity.
Qed.

(** Property X14.  The information list of the result is shorter than the
    list before the linking pass by one record for every pair of an
    information record and a movement with the same key (and is empty when
    there are more pairs than records): an information record with the key
    of two movements is put on the removal list twice, and the second
    removal takes the last record of the list, whichever it is. *)
Theorem linking_removes_one_record_per_pair (m : document) :
  length (information (link_records m))
  = length (information m)
    - list_sum (map (matches (movements m)) (information m)).
Proof.
  destruct (link_records_parts m) as [_ [-> _]].
  rewrite length_remove_dropped, link_drop, length_flat_repeat.
  reflexivity.
Qed.

Lemma linked_with_none informations : forall m,
  forallb (fun i => negb (same_key (props m) (props i))) informations = true ->
  linked_with informations m = m.
Proof.
  induction informations as [|i informations IH]; intros m H; [reflexivity|].
  cbn [forallb] in H. apply andb_true_iff in H. destruct H as [Hi H].
  apply negb_true_iff in Hi.
  change (linked_with informations
            (if same_key (props m) (props i)
             then mkEntity (oid m) (attach (props i) (props m))
             else m) = m).
  rewrite Hi. apply IH, H.
Qed.

(** Property X15.  After the linking pass the [information] list of a
    movement that had none holds exactly the information records with the
    sequence and the reference number of the movement, in the order of the
    file; a movement with the key of no information record is left as it
    was, without an [information] property. *)
Theorem movement_holds_its_information (m : document) (k : nat)
    (movement : entity) :
  nth_error (movements m) k = Some movement ->
  has_key "information" (props movement) = false ->
  exists linked,
    nth_error (movements (link_records m)) k = Some linked /\
    oid linked = oid movement /\
    attached (props linked)
    = map (fun i => VObj (props i))
        (filter (fun i => same_key (props movement) (props i))
                (information m)) /\
    (forallb (fun i => negb (same_key (props movement) (props i)))
             (information m) = true ->
     linked = movement).
Proof.
  intros Hk Hnone. exists (linked_with (information m) movement).
  destruct (link_records_parts m) as [-> _].
  split; [rewrite nth_error_map, Hk; reflexivity|].
  split; [apply linked_with_oid|].
  split; [|apply linked_with_none].
  rewrite attached_linked_with. unfold attached at 1.
  rewrite (get_absent _ _ Hnone). reflexivity.
Qed.

(** ** Information records that stay at the top level *)

Lemma filter_absent d array :
  ~ In (oid d) (map oid array) ->
  filter (fun e => negb (is_record d e)) array = array.
Proof.
  induction array as [|e array IH]; intros H; [reflexivity|].
  simpl in H |- *. unfold is_record at 1.
  destruct (Nat.eqb (oid e) (oid d)) eqn:E.
  - apply Nat.eqb_eq in E. exfalso. apply H. left. exact E.
  - simpl. f_equal. apply IH. intros Hin. apply H. right. exact Hin.
Qed.

Lemma splice_out_present array d :
  NoDup (map oid array) -> In (oid d) (map oid array) ->
  splice_out array d = filter (fun e => negb (is_record d e)) array.
Proof.
  unfold splice_out. intros Hn Hin.
  destruct (indexOf d array) as [i|] eqn:E;
    [|exfalso; exact (indexOf_none d array E Hin)].
  clear Hin. revert i E.
  induction array as [|e array IH]; intros i E; [discriminate E|].
  inversion Hn as [|? ? He Hn']; subst.
  simpl in E |- *. unfold is_record at 1.
  destruct (Nat.eqb (oid e) (oid d)) eqn:Eq.
  - injection E as <-. apply Nat.eqb_eq in Eq. simpl.
    symmetry. apply filter_absent. rewrite <- Eq. exact He.
  - destruct (indexOf d array) as [j|]; [|discriminate E].
    injection E as <-. simpl. f_equal. exact (IH Hn' j eq_refl).
Qed.

Lemma filter_filter {A : Type} (p q : A -> bool) (l : list A) :
  filter p (filter q l) = filter (fun a => q a && p a) l.
Proof.
  induction l as [|a l IH]; [reflexivity|].
  simpl. destruct (q a); simpl; [destruct (p a)|]; rewrite IH; reflexivity.
Qed.

(** Removing records that are in the array, each listed once, leaves the
    others in their order. *)
Lemma remove_dropped_filter drop : forall array,
  NoDup (map oid array) -> NoDup (map oid drop) ->
  incl (map oid drop) (map oid array) ->
  remove_dropped drop array
  = filter (fun e => negb (existsb (fun d => is_record d e) drop)) array.
Proof.
  unfold remove_dropped.
  induction drop as [|d drop IH]; intros array Hn Hd Hsub.
  - simpl. symmetry. apply forallb_filter_id. apply forallb_forall. auto.
  - inversion Hd as [|? ? Hd0 Hd']; subst.
    cbn [fold_left].
    rewrite (splice_out_present array d Hn) by (apply Hsub; left; reflexivity).
    rewrite IH.
    + rewrite filter_filter. apply filter_ext. intros e.
      cbn [existsb]. rewrite negb_orb. reflexivity.
    + apply (subseq_NoDup _ (map oid array)); [|exact Hn].
      apply subseq_map.
      rewrite <- (splice_out_present array d Hn)
        by (apply Hsub; left; reflexivity).
      apply splice_out_subseq.
    + exact Hd'.
    + intros x Hx.
      assert (In x (map oid array)) as Hxa by (apply Hsub; right; exact Hx).
      apply in_map_iff in Hxa. destruct Hxa as [e [<- He]].
      apply in_map, filter_In. split; [exact He|].
      unfold is_record. apply negb_true_iff, Nat.eqb_neq.
      intros Heq. apply Hd0. rewrite <- Heq. exact Hx.
Qed.

Lemma flat_repeat_filter {A : Type} (f : A -> nat) (l : list A) :
  (forall a, In a l -> f a <= 1) ->
  flat_map (fun a => repeat a (f a)) l = filter (fun a => Nat.ltb 0 (f a)) l.
Proof.
  induction l as [|a l IH]; intros H; [reflexivity|].
  cbn [flat_map filter]. rewrite IH by (intros b Hb; apply H; right; exact Hb).
  assert (f a <= 1) as Ha by (apply H; left; reflexivity).
  destruct (f a) as [|[|n]]; [reflexivity | reflexivity | lia].
Qed.

(** Property X16.  When no information record has the key of two movements,
    the information records left at the top level are those with the key of
    no movement, in the order of the file. *)
Theorem unmatched_information_stays (m : document) :
  NoDup (map oid (information m)) ->
  (forall i, In i (information m) -> matches (movements m) i <= 1) ->
  information (link_records m)
  = filter (fun i => Nat.eqb (matches (movements m) i) 0) (information m).
Proof.
  intros Hn Hone. destruct (link_records_parts m) as [_ [-> _]].
  rewrite link_drop, (flat_repeat_filter _ _ Hone).
  rewrite remove_dropped_filter.
  - apply filter_ext_in. intros e He.
    destruct (matches (movements m) e) as [|n] eqn:E.
    + cbn [Nat.eqb]. apply negb_true_iff.
      destruct (existsb _ _) eqn:Ex; [|reflexivity].
      apply existsb_exists in Ex. destruct Ex as [d [Hd Hr]].
      apply filter_In in Hd. destruct Hd as [Hd Hpos].
      unfold is_record in Hr. apply Nat.eqb_eq in Hr.
      rewrite (NoDup_map_inj oid _ e d Hn He Hd Hr) in E.
      rewrite E in Hpos. discriminate Hpos.
    + cbn [Nat.eqb]. apply negb_false_iff, existsb_exists.
      exists e. split; [|apply Nat.eqb_refl].
      apply filter_In. split; [exact He|]. rewrite E. reflexivity.
  - exact Hn.
  - apply (subseq_NoDup _ (map oid (information m))); [|exact Hn].
    apply subseq_map. clear. induction (information m) as [|a l IH];
      [apply subseq_nil|].
    simpl. destruct (Nat.ltb 0 (matches (movements m) a));
      [apply subseq_take | apply subseq_skip]; exact IH.
  - intros x Hx. apply in_map_iff in Hx. destruct Hx as [e [<- He]].
    apply filter_In in He. apply in_map, (proj1 He).
Qed.

(** ** The chains of information records and of free communications *)

(** Property X17.  An information chain is merged as a movement chain is:
    for a chain whose records carry ['1'] in [next_code] but for the last,
    which carries ['0'], the text handed to the decoder of the details is
    the concatenation of the fragments in the order of the file, and the
    sequence after the removal holds the root and none of the records after
    it. *)
Theorem information_chain_is_merged_in_file_order (now : Z)
    (pre : list entity) (root : entity) (records rest : list entity) :
  settled first_article "next_code" "communication" 0 pre = true ->
  first_article (props root) = true ->
  closed_chain "next_code" root records = true ->
  is_text (get "communication" (props root)) = true ->
  let merged_root := chain_root "communication" (props root) records in
  let text := chain_text "communication" (props root) records in
  get "communication" merged_root = VStr text /\
  merge_information now (pre ++ root :: records ++ rest)
  = (r <- merge_information now pre ;;
     c <- parseCommunicationDetail now (VStr text)
            (get "communication_type" merged_root) ;;
     r' <- merge_information now rest ;;
     Ok (fst r ++ emitted root merged_root c :: records ++ fst r',
         snd r ++ records ++ snd r')) /\
  (forall out drop,
     NoDup (map oid (pre ++ root :: records ++ rest)) ->
     merge_information now (pre ++ root :: records ++ rest) = Ok (out, drop) ->
     (forall r, In r records ->
        ~ In (oid r) (map oid (remove_dropped drop out))) /\
     exists c,
       parseCommunicationDetail now (VStr text)
         (get "communication_type" merged_root) = Ok c /\
       In (emitted root merged_root c) (remove_dropped drop out)).
Proof.
  intros Hc Hr Hchain Ht merged_root text. subst merged_root text.
  pose proof (chain_root_text "communication" records (props root) Ht) as Htext.
  destruct (merge_chain first_article "next_code" "communication"
              (finish_information now) tidy_communication eq_refl
              pre root records rest Hc Hr Hchain) as [_ Hm].
  split; [exact Htext|]. split.
  - unfold merge_information. rewrite Hm.
    destruct (merge_chains _ _ _ _ _ 0 pre) as [[o1 d1]|]; simpl;
      [|reflexivity].
    unfold finish_information at 1. rewrite Htext.
    destruct (parseCommunicationDetail now (VStr (chain_text _ _ _)) _);
      reflexivity.
  - intros out drop Hn Hmerge.
    destruct (chain_emitted first_article "next_code" "communication"
                (finish_information now) tidy_communication eq_refl
                pre root records rest out drop Hc Hr Hchain Hn Hmerge)
      as [Hgone [root' [Hf Hin]]].
    split; [exact Hgone|].
    unfold finish_information in Hf. rewrite Htext in Hf.
    destruct (parseCommunicationDetail now _ _) as [c|];
      simpl in Hf; [|discriminate Hf].
    injection Hf as <-. exists c. split; [reflexivity | exact Hin].
Qed.

(** Property X18.  Free communications are joined by their link code:
    every record starts a chain; for a chain whose records carry ['1'] in
    [link_code] but for the last, which carries ['0'], the root is left
    with the texts of the chain put together without a separator in the
    order of the file, and normalised, and the records after the root are
    removed. *)
Theorem free_communication_chain_is_joined (pre : list entity)
    (root : entity) (records rest : list entity) :
  settled (fun _ => true) "link_code" "text" 0 pre = true ->
  closed_chain "link_code" root records = true ->
  is_text (get "text" (props root)) = true ->
  let merged_root := chain_root "text" (props root) records in
  let joined :=
    mkEntity (oid root)
      (set "text"
         (VStr (normalise (chain_text "text" (props root) records)))
         merged_root) in
  merge_free_communications (pre ++ root :: records ++ rest)
  = (r <- merge_free_communications pre ;;
     r' <- merge_free_communications rest ;;
     Ok (fst r ++ joined :: records ++ fst r', snd r ++ records ++ snd r')) /\
  (forall out drop,
     NoDup (map oid (pre ++ root :: records ++ rest)) ->
     merge_free_communications (pre ++ root :: records ++ rest)
     = Ok (out, drop) ->
     (forall r, In r records ->
        ~ In (oid r) (map oid (remove_dropped drop out))) /\
     In joined (remove_dropped drop out)).
Proof.
  intros Hc Hchain Ht merged_root joined. subst merged_root joined.
  destruct (merge_chain (fun _ => true) "link_code" "text" tidy_text
              tidy_text eq_refl pre root records rest Hc eq_refl Hchain)
    as [_ Hm].
  pose proof (tidy_text_chain root records Ht) as Htidy.
  split.
  - unfold merge_free_communications. rewrite Hm, Htidy.
    destruct (merge_chains _ _ _ _ _ 0 pre) as [[o1 d1]|]; reflexivity.
  - intros out drop Hn Hmerge.
    destruct (chain_emitted (fun _ => true) "link_code" "text" tidy_text
                tidy_text eq_refl pre root records rest out drop Hc eq_refl
                Hchain Hn Hmerge) as [Hgone [root' [Hf Hin]]].
    split; [exact Hgone|].
    rewrite Htidy in Hf. injection Hf as <-. exact Hin.
Qed.

(** ** The columns of the header and of the account *)

(** Property X19.  The header read from the stream is the header read by
    column: the widths taken and skipped add up to the columns of the
    record, the date in columns 5 to 10 and the version code in column 127;
    only the date can make the header fail, and it does when the line has
    fewer than 11 characters. *)
Theorem header_is_read_by_column (now : Z) (line : string) :
  run (parseHeader now) line
  = (date <- parseDate now (slice 5 11 line) ;;
     Ok (VObj
           [("record_identification", VStr (slice 0 1 line));
            ("date", date);
            ("bank_identification_number", VStr (slice 11 14 line));
            ("application_code", VStr (slice 14 16 line));
            ("duplicate",
               VBool (strict_eq (VStr (slice 16 17 line)) (VStr Duplicate)));
            ("file_reference", VStr (slice 24 34 line));
            ("account",
               VObj [("name", VStr (trim (slice 34 60 line)));
                     ("bic", VStr (trim (slice 60 71 line)));
                     ("identification_number", VStr (slice 71 82 line))]);
            ("external_application_code", VStr (slice 83 88 line));
            ("transaction_reference", VStr (trim (slice 88 104 line)));
            ("related_reference", VStr (trim (slice 104 120 line)));
            ("version", VNum (Number (VStr (slice 127 128 line))))]))
  /\ is_ok (run (parseHeader now) line) = (11 <=? String.length line)%nat.
Proof. split; [apply parseHeader_columns | apply is_ok_parseHeader]. Qed.

(** Property X20.  The account of a balance, by account structure: a Belgian
    account number (0) is read from columns 0 to 11 of the field, its
    currency from columns 13 to 15; a foreign account number (1) and the
    IBAN of one (3) from columns 0 to 33 with the currency in columns 34 to
    36; the IBAN of a Belgian account (2) from columns 0 to 30 with the
    currency in columns 34 to 36.  Any other structure, the number that is
    not one among them, gives no account properties at all. *)
Theorem account_is_read_by_structure (structure : number) (line : string) :
  parseAccount structure line
  = Ok (if strict_eq (VNum structure) (VNum (num_of_Z 0)) then
          Some [("type", VNum structure);
                ("type_description", VStr "Belgian account number");
                ("number", VStr (trim (slice 0 12 line)));
                ("currency", VStr (trim (slice 13 16 line)));
                ("qualification_code", VStr (trim (slice 16 17 line)));
                ("country", VStr (trim (slice 17 19 line)));
                ("extension_zone", VStr (trim (slice 22 37 line)))]
        else if strict_eq (VNum structure) (VNum (num_of_Z 1)) then
          Some [("type", VNum structure);
                ("type_description", VStr "Foreign account number");
                ("number", VStr (trim (slice 0 34 line)));
                ("currency", VStr (trim (slice 34 37 line)))]
        else if strict_eq (VNum structure) (VNum (num_of_Z 2)) then
          Some [("type", VNum structure);
                ("type_description",
                   VStr "IBAN of the Belgian account number");
                ("number", VStr (trim (slice 0 31 line)));
                ("currency", VStr (trim (slice 34 37 line)))]
        else if strict_eq (VNum structure) (VNum (num_of_Z 3)) then
          Some [("type", VNum structure);
                ("type_description",
                   VStr "IBAN of the foreign account number");
                ("number", VStr (trim (slice 0 34 line)));
                ("currency", VStr (trim (slice 34 37 line)))]
        else None).
Proof.
  unfold parseAccount.
  destruct (strict_eq (VNum structure) (VNum (num_of_Z 0))); [reflexivity|].
  destruct (strict_eq (VNum structure) (VNum (num_of_Z 1))); [reflexivity|].
  destruct (strict_eq (VNum structure) (VNum (num_of_Z 2))); [reflexivity|].
  destruct (strict_eq (VNum structure) (VNum (num_of_Z 3))); reflexivity.
Qed.

(** ** The code books *)

Lemma own_property_listed {R : Type} k (r : R) table :
  listed_once table = true -> In (k, r) table ->
  own_property k table = Some r.
Proof.
  induction table as [|[k0 r0] table IH]; intros Hd Hin; [contradiction|].
  cbn [listed_once] in Hd. apply andb_true_iff in Hd. destruct Hd as [Hk Hd].
  cbn [own_property]. destruct Hin as [[= -> ->]|Hin].
  - rewrite String.eqb_refl. reflexivity.
  - destruct (String.eqb k k0) eqn:E; [|exact (IH Hd Hin)].
    apply String.eqb_eq in E. subst k0. apply negb_true_iff in Hk.
    assert (existsb (String.eqb k) (map fst table) = true) as Hex.
    { apply existsb_exists. exists k. split; [|apply String.eqb_refl].
      exact (in_map fst _ _ Hin). }
    rewrite Hex in Hk. discriminate Hk.
Qed.

Lemma transaction_tables_listed_once :
  listed_once transaction_descriptions = true /\
  forallb (fun entry => listed_once (snd entry)) transaction_descriptions
  = true.
Proof. split; vm_compute; reflexivity. Qed.

(** Property X21.  No code book of the transaction code lists a code twice,
    so every listed code resolves to the description written next to it: a
    family, a transaction within its family, a category. *)
Theorem listed_code_has_its_description (tc : object) :
  (forall family d,
     get "family" tc = VStr family -> In (family, d) family_descriptions ->
     family_description tc = Ok d)
  /\ (forall family table transaction d,
        get "family" tc = VStr family ->
        get "transaction" tc = VStr transaction ->
        In (family, table) transaction_descriptions ->
        In (transaction, d) table ->
        transaction_description tc = Ok d)
  /\ (forall category d,
        get "category" tc = VStr category ->
        In (category, d) category_descriptions ->
        category_description tc = Ok d).
Proof.
  split; [|split].
  - intros family d Hf Hin. unfold family_description, match_.
    rewrite Hf. cbn [key_of text_of].
    rewrite (own_property_listed family d family_descriptions);
      [reflexivity | vm_compute; reflexivity | exact Hin].
  - intros family table transaction d Hf Ht Hin Hd.
    destruct transaction_tables_listed_once as [Houter Hinner].
    rewrite transaction_description_eq, Hf, Ht. cbn [key_of text_of].
    rewrite (own_property_listed family table transaction_descriptions
               Houter Hin).
    unfold match_. cbn [key_of text_of].
    rewrite (own_property_listed transaction d table); [reflexivity | | exact Hd].
    exact (proj1 (forallb_forall _ _) Hinner (family, table) Hin).
  - intros category d Hc Hin. unfold category_description, match_.
    rewrite Hc. cbn [key_of text_of].
    rewrite (own_property_listed category d category_descriptions);
      [reflexivity | vm_compute; reflexivity | exact Hin].
Qed.

(** ** Structured communications without a date *)

Lemma total_rret {A : Type} (a : A) : total (rret a).
Proof. intros st. reflexivity. Qed.

Lemma total_take n : total (take n).
Proof. intros st. reflexivity. Qed.

Lemma total_rbind {A B : Type} (r : reader A) (k : A -> reader B) :
  total r -> (forall a, total (k a)) -> total (rbind r k).
Proof.
  intros Hr Hk st. unfold rbind. specialize (Hr st).
  destruct (r st) as [[a st']|]; [apply Hk | discriminate Hr].
Qed.

Lemma total_skip_take k n : total (skip_take k n).
Proof. intros st. reflexivity. Qed.

Lemma total_literal fields :
  Forall (fun f => total (snd f)) fields -> total (literal fields).
Proof.
  induction 1 as [|[k r] fields Hr _ IH]; [apply total_rret|].
  simpl. apply total_rbind; [exact Hr|]. intros v.
  apply total_rbind; [exact IH|]. intros o. apply total_rret.
Qed.

Lemma total_object_of fields :
  Forall (fun f => total (snd f)) fields -> total (object_of fields).
Proof.
  intros H. apply total_rbind; [apply total_literal, H|].
  intros o. apply total_rret.
Qed.

Ltac total_fields :=
  repeat first
    [ apply total_object_of
    | apply Forall_cons
    | apply Forall_nil
    | apply total_take
    | apply total_skip_take
    | apply total_rret
    | (apply total_rbind; [|intros ?]) ];
  cbn [snd].

Lemma structured_movement_is_decoded now code rest layout :
  String.length code = 3 ->
  own_index (Number (VStr code)) (movement_layouts now (Number (VStr code)))
  = Some layout ->
  total layout ->
  is_ok (parseCommunicationMovement now (VStr (code ++ rest))
           (VStr "structured")) = true.
Proof.
  intros Hl Hi Ht.
  destruct code as [|a [|b [|c [|]]]]; try discriminate Hl.
  unfold parseCommunicationMovement.
  change (strict_eq (VStr "structured") (VStr "unstructured")) with false.
  change (strict_eq (VStr "structured") (VStr "structured")) with true.
  cbn [over]. unfold run, rbind at 1, take at 1.
  cbn [new_StringStream str pos Nat.add append slice Nat.sub substring].
  rewrite substring_none, Hi. specialize (Ht (mkStream (String a (String b (String c rest))) 3)).
  destruct (layout _) as [[v st]|]; [reflexivity | discriminate Ht].
Qed.

Lemma structured_detail_is_decoded now code rest layout :
  String.length code = 3 ->
  own_property code (detail_layouts now) = Some layout ->
  total layout ->
  is_ok (parseCommunicationDetail now (VStr (code ++ rest))
           (VStr "structured")) = true.
Proof.
  intros Hl Hi Ht.
  destruct code as [|a [|b [|c [|]]]]; try discriminate Hl.
  unfold parseCommunicationDetail.
  change (strict_eq (VStr "structured") (VStr "unstructured")) with false.
  change (strict_eq (VStr "structured") (VStr "structured")) with true.
  cbn [over]. unfold run, rbind at 1, take at 1.
  cbn [new_StringStream str pos Nat.add append slice Nat.sub substring].
  rewrite substring_none, Hi. specialize (Ht (mkStream (String a (String b (String c rest))) 3)).
  destruct (layout _) as [[v st]|]; [reflexivity | discriminate Ht].
Qed.

Lemma own_index_integer {R : Type} z (table : list (Z * R)) :
  own_index (num_of_Z z) table = lookup_integer z table.
Proof.
  induction table as [|[k r] table IH]; [reflexivity|].
  cbn [own_index lookup_integer]. rewrite IH.
  assert (strict_eq (VNum (num_of_Z z)) (VNum (num_of_Z k)) = Z.eqb z k) as ->;
    [|reflexivity].
  unfold strict_eq, num_of_Z, Qeq_bool. cbn [Qnum Qden].
  rewrite !Z.mul_1_r. reflexivity.
Qed.

(** Settles the goals of a layout with the number [z]. *)
Ltac movement_layout z :=
  eapply structured_movement_is_decoded;
  [ reflexivity
  | replace (Number (VStr _)) with (num_of_Z z) by (vm_compute; reflexivity);
    rewrite own_index_integer; unfold movement_layouts;
    cbn [lookup_integer Z.eqb Pos.eqb]; reflexivity
  | unfold layout, raw, trimmed, tidied, integer, scaled, flagged, rmap;
    total_fields ].

Ltac detail_layout :=
  eapply structured_detail_is_decoded;
  [ reflexivity
  | reflexivity
  | unfold detail_001, detail_002, detail_007, detail_008, raw, trimmed,
      tidied, integer, scaled, rmap;
    total_fields ].

(** Property X22.  A structured communication whose layout has no date, no
    sign and no code without a default is decoded whatever follows its
    type, also when the text ends before the last field: on the side of
    the movements the types 100, 101, 102, 103, 105 and 106, on the side
    of the information records the types 001, 002, 004, 005, 007, 008 and
    009. *)
Theorem layouts_without_a_date_always_decode (now : Z) (rest : string) :
  (forall code, In code ["100"; "101"; "102"; "103"; "105"; "106"] ->
     is_ok (parseCommunicationMovement now (VStr (code ++ rest))
              (VStr "structured")) = true)
  /\ (forall code,
        In code ["001"; "002"; "004"; "005"; "007"; "008"; "009"] ->
        is_ok (parseCommunicationDetail now (VStr (code ++ rest))
                 (VStr "structured")) = true).
Proof.
  split; intros code Hin; simpl in Hin;
    repeat (destruct Hin as [<-|Hin]); try contradiction;
    first [ movement_layout 100%Z | movement_layout 101%Z
          | movement_layout 102%Z | movement_layout 103%Z
          | movement_layout 105%Z | movement_layout 106%Z
          | detail_layout ].
Qed.

(** ** Amounts *)

(** Property X23.  The amount of a movement is the integer of columns 32 to
    46 over 1000, positive when the sign in column 31 is 0 and negative for
    every other sign character: unlike the sign of a balance, the sign of a
    movement is never refused. *)
Theorem movement_amount_is_signed_thousandths (now : Z) (line : string)
    (o : object) :
  parseMovement21 now line = Ok o ->
  is_magnitude (slice 32 47 line) = true ->
  get "amount" o
  = VNum (thousandth
            (if strict_eq (char_at line 31) (VStr "0")
             then magnitude (slice 32 47 line)
             else - magnitude (slice 32 47 line))).
Proof.
  intros H Hm. pose proof (record_get _ _ "amount" H) as Ha.
  simpl in Ha. injection Ha as Ha. rewrite <- Ha.
  rewrite (movement_amount_value line Hm). unfold factor_of, Sign_Credit.
  destruct (strict_eq (char_at line 31) (VStr "0")); do 2 f_equal; lia.
Qed.

(** Property X24.  The new balance is the integer of columns 42 to 56 over
    1000, with the sign of column 41: positive for 0, negative for 1. *)
Theorem new_balance_is_signed_thousandths (now : Z) (line : string)
    (accountStructureData : option number) (v : value) :
  parseNewBalance now line accountStructureData = Ok v ->
  is_magnitude (slice 42 57 line) = true ->
  is_sign (char_at line 41) = true /\
  field "balance" v
  = VNum (thousandth
            (if strict_eq (char_at line 41) (VStr "0")
             then magnitude (slice 42 57 line)
             else - magnitude (slice 42 57 line))).
Proof.
  intros H Hm.
  assert (is_sign (char_at line 41) = true) as Hs.
  { pose proof (is_ok_parseNewBalance now line accountStructureData) as Hok.
    rewrite H in Hok. symmetry in Hok. apply andb_true_iff in Hok.
    exact (proj1 Hok). }
  split; [exact Hs|].
  rewrite (new_balance_value now line accountStructureData v Hm Hs H).
  unfold factor_of, Sign_Credit.
  destruct (strict_eq (char_at line 41) (VStr "0")); do 2 f_equal; lia.
Qed.

Lemma slice_past_the_end a b line :
  String.length line <= a -> slice a b line = EmptyString.
Proof.
  intros H. unfold slice.
  assert (String.length (substring a (b - a) line) = 0) as H0
    by (rewrite substring_length; lia).
  destruct (substring a (b - a) line); [reflexivity | discriminate H0].
Qed.

(** Property X25.  The trailer never fails.  Its totals carry no sign: each
    is the integer of its fifteen digits over 1000, and the number of
    records is the integer of columns 16 to 21.  A line that ends before
    column 16 gives zeros, not an error. *)
Theorem trailer_totals_are_thousandths (line : string) :
  exists v,
    parseTrailer line = Ok v /\
    field "record_identification" v = char_at line 0 /\
    (is_magnitude (slice 16 22 line) = true ->
     field "number_of_records" v
     = VNum (num_of_Z (magnitude (slice 16 22 line)))) /\
    (is_magnitude (slice 22 37 line) = true ->
     field "debit_amount" v
     = VNum (thousandth (magnitude (slice 22 37 line)))) /\
    (is_magnitude (slice 37 52 line) = true ->
     field "credit_amount" v
     = VNum (thousandth (magnitude (slice 37 52 line)))) /\
    (String.length line <= 16 ->
     field "number_of_records" v = VNum (num_of_Z 0) /\
     field "debit_amount" v = VNum (num_of_Z 0) /\
     field "credit_amount" v = VNum (num_of_Z 0)).
Proof.
  unfold parseTrailer. eexists. split; [reflexivity|].
  cbn [field get String.eqb Ascii.eqb Bool.eqb].
  split; [reflexivity|].
  split; [intros H; rewrite (Number_digits _ H); reflexivity|].
  split; [intros H; rewrite (Number_digits _ H), scaled_integer; reflexivity|].
  split; [intros H; rewrite (Number_digits _ H), scaled_integer; reflexivity|].
  intros H. rewrite !slice_past_the_end by lia.
  repeat split.
Qed.

Lemma num_div_integers z p :
  num_div (num_of_Z z) (num_of_Z (Zpos p)) = Fin (Qred (z # p)).
Proof.
  unfold num_div, num_of_Z. cbn [Qzero Qnum Z.eqb].
  f_equal. apply Qred_complete. unfold Qeq, Qdiv, Qmult, Qinv.
  cbn [Qnum Qden]. simpl. lia.
Qed.

Lemma Qred_zero p : Qred (0 # p) = (0 # 1)%Q.
Proof.
  rewrite <- (Qred_integer 0). apply Qred_complete. reflexivity.
Qed.

(** Property X26.  The fixed-point fields of the structured communications,
    for the widths and the scales the layouts have: at most 15 characters,
    over 100, 1000, 10000, 1000000 or 100000000.  A field of digits is the
    integer it spells, for [scaled] over the scale of the field; a blank
    field, and a field past the end of the text, is 0.  The read moves on
    by the width of the field in every case. *)
Theorem fixed_point_field_is_scaled (n : nat) (scale : positive)
    (stream : StringStream) :
  n <= 15 ->
  In scale [100; 1000; 10000; 1000000; 100000000]%positive ->
  let field := substring (pos stream) n (str stream) in
  let after := mkStream (str stream) (pos stream + n) in
  (is_magnitude field = true ->
   integer n stream = Ok (VNum (num_of_Z (magnitude field)), after) /\
   scaled n (Zpos scale) stream
   = Ok (VNum (Fin (Qred (magnitude field # scale))), after))
  /\ (all_space field = true ->
      integer n stream = Ok (VNum (num_of_Z 0), after) /\
      scaled n (Zpos scale) stream = Ok (VNum (num_of_Z 0), after)).
Proof.
  intros _ _ field after. subst field after.
  unfold integer, scaled, rmap, rbind, take, rret. rewrite slice_from.
  split; intros H.
  - assert (all_digits (substring (pos stream) n (str stream)) = true) as Hd
      by (unfold is_magnitude in H; apply andb_true_iff in H; exact (proj1 H)).
    rewrite (trim_digits _ Hd), (Number_digits _ H), num_div_integers.
    split; reflexivity.
  - assert (trim (substring (pos stream) n (str stream)) = EmptyString) as ->.
    { unfold trim. rewrite (trimStart_all_space _ H). reflexivity. }
    change (Number (VStr "")) with (num_of_Z 0).
    rewrite num_div_integers, Qred_zero. split; reflexivity.
Qed.

(** ** The account of the counterparty *)

Lemma length_append (a b : string) :
  String.length (a ++ b) = String.length a + String.length b.
Proof. induction a as [|c a IH]; simpl; [|rewrite IH]; reflexivity. Qed.

Lemma append_empty (a : string) : (a ++ "")%string = a.
Proof. induction a as [|c a IH]; simpl; [|rewrite IH]; reflexivity. Qed.

Lemma split_spaces_nonempty fuel s : split_spaces_fuel fuel s <> [].
Proof.
  destruct fuel as [|fuel]; [discriminate|].
  destruct s as [|c s]; [discriminate|]. simpl.
  destruct (is_space c); [discriminate|].
  destruct (split_spaces_fuel fuel s); discriminate.
Qed.

Lemma split_spaces_empty fuel : split_spaces_fuel fuel "" = [""].
Proof. destruct fuel; reflexivity. Qed.

Lemma split_word w : forall fuel rest,
  no_space w = true -> String.length (w ++ rest) <= fuel ->
  split_spaces_fuel fuel (w ++ rest)
  = match split_spaces_fuel (fuel - String.length w) rest with
    | p :: ps => (w ++ p)%string :: ps
    | [] => [w]
    end.
Proof.
  induction w as [|c w IH]; intros fuel rest Hw Hl.
  - cbn [append String.length]. rewrite Nat.sub_0_r.
    destruct (split_spaces_fuel fuel rest) eqn:E; [|reflexivity].
    exfalso. exact (split_spaces_nonempty _ _ E).
  - cbn [no_space] in Hw. apply andb_true_iff in Hw. destruct Hw as [Hc Hw].
    apply negb_true_iff in Hc.
    cbn [append String.length] in Hl |- *.
    destruct fuel as [|fuel]; [lia|].
    cbn [split_spaces_fuel Nat.sub]. rewrite Hc.
    rewrite (IH fuel rest Hw) by lia.
    destruct (split_spaces_fuel (fuel - String.length w) rest) eqn:E;
      [|reflexivity].
    exfalso. exact (split_spaces_nonempty _ _ E).
Qed.

Lemma skip_spaces_gap gap rest :
  all_space gap = true -> skip_spaces (gap ++ rest) = skip_spaces rest.
Proof.
  induction gap as [|c gap IH]; intros H; [reflexivity|].
  cbn [all_space] in H. apply andb_true_iff in H. destruct H as [Hc H].
  cbn [append skip_spaces]. rewrite Hc. apply IH, H.
Qed.

Lemma skip_spaces_word w :
  is_word w = true -> skip_spaces w = w.
Proof.
  unfold is_word. intros H. apply andb_true_iff in H. destruct H as [H Hne].
  destruct w as [|c w]; [discriminate Hne|].
  cbn [no_space] in H. apply andb_true_iff in H. destruct H as [Hc _].
  apply negb_true_iff in Hc. cbn [skip_spaces]. rewrite Hc. reflexivity.
Qed.

Lemma split_one_word w fuel :
  no_space w = true -> String.length w <= fuel ->
  split_spaces_fuel fuel w = [w].
Proof.
  intros Hw Hl. rewrite <- (append_empty w) at 1.
  rewrite (split_word w fuel "" Hw) by (rewrite append_empty; exact Hl).
  rewrite split_spaces_empty, append_empty. reflexivity.
Qed.

Lemma split_two_words number gap currency :
  is_word number = true -> is_word currency = true ->
  all_space gap = true -> gap <> EmptyString ->
  split_spaces (number ++ gap ++ currency) = [number; currency].
Proof.
  intros Hn Hc Hg Hne. unfold split_spaces.
  pose proof Hn as Hn'. pose proof Hc as Hc'. unfold is_word in Hn', Hc'.
  apply andb_true_iff in Hn', Hc'.
  destruct Hn' as [Hnw _]. destruct Hc' as [Hcw _].
  rewrite (split_word number _ _ Hnw) by lia.
  rewrite !length_append.
  destruct gap as [|g gap]; [contradiction|].
  cbn [all_space] in Hg. apply andb_true_iff in Hg. destruct Hg as [Hg1 Hg].
  replace (String.length number
           + (String.length (String g gap) + String.length currency)
           - String.length number)
    with (S (String.length gap + String.length currency))
    by (cbn [String.length]; lia).
  cbn [append split_spaces_fuel]. rewrite Hg1.
  rewrite (skip_spaces_gap _ _ Hg), (skip_spaces_word _ Hc).
  rewrite (split_one_word currency _ Hcw) by lia.
  rewrite append_empty. reflexivity.
Qed.

Lemma ends_clean_word x w :
  is_word w = true -> ends_clean (x ++ w) = true.
Proof.
  unfold is_word. intros H. apply andb_true_iff in H. destruct H as [Hw Hne].
  induction x as [|c x IH].
  - cbn [append]. clear Hne. induction w as [|c w IH]; [reflexivity|].
    cbn [no_space] in Hw. apply andb_true_iff in Hw. destruct Hw as [Hc Hw].
    destruct w as [|d w]; [exact Hc|].
    rewrite ends_clean_cons. exact (IH Hw).
  - cbn [append]. destruct (x ++ w)%string as [|d t] eqn:E.
    + destruct x; [|discriminate E]. cbn [append] in E. subst w.
      discriminate Hne.
    + rewrite ends_clean_cons. exact IH.
Qed.

Lemma head_word w rest : is_word w = true -> head_space (w ++ rest) = false.
Proof.
  unfold is_word. intros H. apply andb_true_iff in H. destruct H as [Hw Hne].
  destruct w as [|c w]; [discriminate Hne|].
  cbn [no_space] in Hw. apply andb_true_iff in Hw.
  cbn [append head_space]. apply negb_true_iff, (proj1 Hw).
Qed.

Lemma trim_words w x pad :
  is_word w = true -> ends_clean (w ++ x) = true -> all_space pad = true ->
  trim ((w ++ x) ++ pad) = (w ++ x)%string.
Proof.
  intros Hw He Hp. rewrite (trim_space_after _ _ Hp). unfold trim.
  rewrite (trimStart_clean _ (head_word w x Hw)). apply trimEnd_clean, He.
Qed.

Lemma append_assoc (a b c : string) :
  ((a ++ b) ++ c)%string = (a ++ b ++ c)%string.
Proof. induction a as [|x a IH]; simpl; [|rewrite IH]; reflexivity. Qed.

(** Property X27.  The account of the counterparty of a record 2.3 is split
    at white space: of a field that holds a number and a currency, each
    without white space, with white space between them and after them, the
    number and the currency are those two; a field with one word gives that
    word as the number and an empty currency; a blank field gives two empty
    texts.  The decoder of the record never fails. *)
Theorem counterparty_account_is_split (line : string) :
  exists o,
    parseMovement23 line = Ok o /\
    (forall number gap currency pad,
       is_word number = true -> is_word currency = true ->
       all_space gap = true -> gap <> EmptyString -> all_space pad = true ->
       slice 10 47 line = (number ++ gap ++ currency ++ pad)%string ->
       field "account" (get "counterparty" o)
       = VObj [("number", VStr number); ("currency", VStr currency)]) /\
    (forall number pad,
       is_word number = true -> all_space pad = true ->
       slice 10 47 line = (number ++ pad)%string ->
       field "account" (get "counterparty" o)
       = VObj [("number", VStr number); ("currency", VStr "")]) /\
    (all_space (slice 10 47 line) = true ->
     field "account" (get "counterparty" o)
     = VObj [("number", VStr ""); ("currency", VStr "")]).
Proof.
  unfold parseMovement23. eexists. split; [reflexivity|].
  cbn [field get String.eqb Ascii.eqb Bool.eqb].
  split; [|split].
  - intros number gap currency pad Hn Hc Hg Hne Hp ->.
    replace (number ++ gap ++ currency ++ pad)%string
      with ((number ++ gap ++ currency) ++ pad)%string
      by (rewrite !append_assoc; reflexivity).
    rewrite (trim_words number (gap ++ currency) pad Hn); [| |exact Hp].
    + rewrite (split_two_words _ _ _ Hn Hc Hg Hne). reflexivity.
    + rewrite <- append_assoc. apply ends_clean_word, Hc.
  - intros number pad Hn Hp ->.
    rewrite <- (append_empty number) at 1 2.
    rewrite (trim_words number "" pad Hn); [| |exact Hp].
    + rewrite append_empty. unfold split_spaces.
      unfold is_word in Hn. apply andb_true_iff in Hn.
      rewrite (split_one_word number _ (proj1 Hn)) by lia. reflexivity.
    + rewrite append_empty. apply (ends_clean_word "" number Hn).
  - intros H. unfold trim. rewrite (trimStart_all_space _ H). reflexivity.
Qed.

(** ** The further properties on the sample records *)

Lemma blank_text_is_no_document_witness :
  all_space (newline ++ " ") = true /\
  parse 2026 (newline ++ " ") = Err UnknownRecordType.
Proof.
  split; [reflexivity|].
  apply (blank_text_is_no_document 2026%Z (newline ++ " ")). reflexivity.
Defined.

Lemma surrounding_space_is_ignored_witness :
  (all_space " " = true /\ all_space newline = true) /\
  parse 2026 (" " ++ sample_header ++ newline) = parse 2026 sample_header.
Proof.
  split; [split; reflexivity|].
  apply (surrounding_space_is_ignored 2026%Z " " sample_header newline);
    reflexivity.
Defined.

Lemma six_character_date_is_day_month_year_witness :
  parseDate 2026 "251214" = Ok (VDate "2014-12-25").
Proof.
  apply (six_character_date_is_day_month_year 2026%Z "25" "12" "14");
    [lia | reflexivity | reflexivity | reflexivity].
Defined.

Lemma arrays_hold_the_lines_in_file_order_witness :
  parse_lines 2026 initial_state (split_lines (trim sample_statement))
  = Ok sample_state /\
  returned_objects (movements (snd sample_state))
  = [parseMovement21 2026 sample_movement_1; parseMovement22 sample_movement_2]
  /\ map oid (movements (snd sample_state)) = [0; 1]
  /\ returned_objects (information (snd sample_state))
     = [parseAdditionalInformation31 sample_information_1;
        parseAdditionalInformation32 sample_information_2]
  /\ map oid (information (snd sample_state)) = [0; 1]
  /\ free_communications (snd sample_state) = [].
Proof.
  assert (parse_lines 2026 initial_state (split_lines (trim sample_statement))
          = Ok sample_state) as H by (vm_compute; reflexivity).
  split; [exact H|].
  destruct (arrays_hold_the_lines_in_file_order 2026%Z _ sample_state H)
    as [[Hm Nm] [[Hi Ni] [Hf Nf]]].
  split; [exact Hm|]. split; [exact Nm|]. split; [exact Hi|].
  split; [exact Ni|].
  destruct (free_communications (snd sample_state)); [reflexivity|].
  discriminate Hf.
Defined.

Lemma last_line_of_a_type_is_kept_witness :
  parse_lines 2026 initial_state
    [sample_header; sample_old_balance; sample_header; sample_trailer]
  = Ok sample_singles /\
  run (parseHeader 2026) sample_header = Ok (header (snd sample_singles)) /\
  parseOldBalance 2026 sample_old_balance
  = Ok (balance_old (snd sample_singles)) /\
  parseTrailer sample_trailer = Ok (trailer (snd sample_singles)).
Proof.
  assert (parse_lines 2026 initial_state
            [sample_header; sample_old_balance; sample_header; sample_trailer]
          = Ok sample_singles) as H by (vm_compute; reflexivity).
  split; [exact H|].
  exact (last_line_of_a_type_is_kept 2026%Z _ sample_singles H).
Defined.

Lemma result_has_no_flags_witness :
  parse 2026 sample_statement = Ok sample_result /\
  (forall e,
     In e (movements sample_result) \/ In e (information sample_result) ->
     has_key "next_code" (props e) = false /\
     has_key "link_code" (props e) = false)
  /\ (forall e o,
        In e (movements sample_result) ->
        In o (attached_objects (props e)) ->
        has_key "next_code" o = false /\ has_key "link_code" o = false)
  /\ (forall e, In e (free_communications sample_result) ->
        has_key "link_code" (props e) = false).
Proof.
  assert (parse 2026 sample_statement = Ok sample_result) as H
    by (vm_compute; reflexivity).
  split; [exact H|].
  exact (result_has_no_flags 2026%Z sample_statement sample_result H).
Defined.

Lemma result_keeps_the_file_order_witness :
  parse 2026 sample_statement = Ok sample_result /\
  subseq (map oid (movements sample_result)) [0; 1] /\
  subseq (map oid (information sample_result)) [0; 1] /\
  subseq (map oid (free_communications sample_result)) [].
Proof.
  assert (parse 2026 sample_statement = Ok sample_result) as H
    by (vm_compute; reflexivity).
  split; [exact H|].
  exact (result_keeps_the_file_order 2026%Z sample_statement sample_result H).
Defined.

Lemma movement_holds_its_information_witness :
  let movement := nth 0 (movements sample_linkable) (mkEntity 0 []) in
  (nth_error (movements sample_linkable) 0 = Some movement /\
   has_key "information" (props movement) = false) /\
  exists linked,
    nth_error (movements (link_records sample_linkable)) 0 = Some linked /\
    oid linked = 0 /\
    attached (props linked)
    = map (fun i => VObj (props i)) (information sample_linkable) /\
    length (information sample_linkable) = 1.
Proof.
  intros movement. split; [split; reflexivity|].
  destruct (movement_holds_its_information sample_linkable 0 movement
              eq_refl eq_refl) as [linked [H1 [H2 [H3 _]]]].
  exists linked. split; [exact H1|]. split; [exact H2|].
  split; [exact H3 | reflexivity].
Defined.

Lemma unmatched_information_stays_witness :
  (NoDup (map oid (information sample_linkable)) /\
   forall i, In i (information sample_linkable) ->
             matches (movements sample_linkable) i <= 1) /\
  information (link_records sample_linkable) = [].
Proof.
  assert (NoDup (map oid (information sample_linkable))) as Hn
    by (repeat constructor; simpl; intuition discriminate).
  assert (forall i, In i (information sample_linkable) ->
                    matches (movements sample_linkable) i <= 1) as Hone
    by (intros i [<-|[]]; apply Nat.leb_le; vm_compute; reflexivity).
  split; [split; assumption|].
  exact (unmatched_information_stays sample_linkable Hn Hone).
Defined.

Lemma information_chain_is_merged_in_file_order_witness :
  let root := nth 0 sample_information_chain (mkEntity 0 []) in
  let records := tl sample_information_chain in
  (first_article (props root) = true /\
   closed_chain "next_code" root records = true /\
   is_text (get "communication" (props root)) = true /\
   chain_text "communication" (props root) records
   = (slice 40 113 sample_information_1
      ++ slice 10 115 sample_information_2)%string) /\
  forall out drop,
    merge_information 2026 (root :: records) = Ok (out, drop) ->
    (forall r, In r records ->
       ~ In (oid r) (map oid (remove_dropped drop out))) /\
    exists c,
      parseCommunicationDetail 2026
        (VStr (chain_text "communication" (props root) records))
        (get "communication_type"
             (chain_root "communication" (props root) records))
      = Ok c /\
      In (emitted root (chain_root "communication" (props root) records) c)
         (remove_dropped drop out).
Proof.
  intros root records. split; [repeat split; reflexivity|].
  intros out drop H.
  destruct (information_chain_is_merged_in_file_order 2026%Z [] root records
              [] eq_refl eq_refl eq_refl eq_refl) as [_ [_ Hfinal]].
  rewrite app_nil_r in Hfinal. apply Hfinal; [|exact H].
  repeat constructor; simpl; intuition discriminate.
Defined.

Lemma free_communication_chain_is_joined_witness :
  let root := nth 0 sample_free_chain (mkEntity 0 []) in
  let records := tl sample_free_chain in
  (closed_chain "link_code" root records = true /\
   is_text (get "text" (props root)) = true /\
   normalise (chain_text "text" (props root) records)
   = "ACCOUNT INFORMATIONTHIS IS A PUBLIC MESSAGE") /\
  forall out drop,
    merge_free_communications (root :: records) = Ok (out, drop) ->
    (forall r, In r records ->
       ~ In (oid r) (map oid (remove_dropped drop out))) /\
    In (mkEntity (oid root)
          (set "text"
             (VStr (normalise (chain_text "text" (props root) records)))
             (chain_root "text" (props root) records)))
       (remove_dropped drop out).
Proof.
  intros root records. split; [repeat split; reflexivity|].
  intros out drop H.
  destruct (free_communication_chain_is_joined [] root records []
              eq_refl eq_refl eq_refl) as [_ Hfinal].
  rewrite app_nil_r in Hfinal. apply Hfinal; [|exact H].
  repeat constructor; simpl; intuition discriminate.
Defined.

Lemma movement_amount_is_signed_thousandths_witness :
  (parseMovement21 2026 sample_movement_1 = Ok sample_movement_object /\
   is_magnitude (slice 32 47 sample_movement_1) = true) /\
  get "amount" sample_movement_object = VNum (thousandth 1767820).
Proof.
  split; [split; reflexivity|].
  exact (movement_amount_is_signed_thousandths 2026%Z sample_movement_1
           sample_movement_object eq_refl eq_refl).
Defined.

Lemma new_balance_is_signed_thousandths_witness :
  (parseNewBalance 2026 sample_new_balance None
   = Ok sample_new_balance_object /\
   is_magnitude (slice 42 57 sample_new_balance) = true) /\
  is_sign (char_at sample_new_balance 41) = true /\
  field "balance" sample_new_balance_object
  = VNum (thousandth (-500012100)).
Proof.
  split; [split; reflexivity|].
  exact (new_balance_is_signed_thousandths 2026%Z sample_new_balance None
           sample_new_balance_object eq_refl eq_refl).
Defined.

(** ** The properties of a merged root *)

Lemma get_merged k field root next :
  String.eqb k field = false -> distinct_keys next = true ->
  get k (merged field root next)
  = if has_key k next then get k next else get k root.
Proof.
  intros Hk Hd. unfold merged. rewrite (get_set_other _ _ _ _ Hk).
  destruct (has_key k next) eqn:E.
  - apply get_assign_present; assumption.
  - apply get_assign_absent, E.
Qed.

Lemma chain_root_app field root a b :
  chain_root field root (a ++ b)
  = chain_root field (chain_root field root a) b.
Proof. unfold chain_root. rewrite map_app, fold_left_app. reflexivity. Qed.

Lemma get_chain_root_absent k field chain : forall root,
  String.eqb k field = false ->
  forallb (fun e => distinct_keys (props e)) chain = true ->
  forallb (fun e => negb (has_key k (props e))) chain = true ->
  get k (chain_root field root chain) = get k root.
Proof.
  induction chain as [|next chain IH]; intros root Hk Hd Hn; [reflexivity|].
  cbn [forallb] in Hd, Hn. apply andb_true_iff in Hd, Hn.
  destruct Hd as [Hd1 Hd]. destruct Hn as [Hn1 Hn].
  apply negb_true_iff in Hn1.
  change (chain_root field root (next :: chain))
    with (chain_root field (merged field root (props next)) chain).
  rewrite (IH _ Hk Hd Hn), (get_merged _ _ _ _ Hk Hd1), Hn1. reflexivity.
Qed.

(** Property X28.  The root of a chain takes over the properties of the
    records merged into it: under a name other than that of the text, the
    merged root holds the value of the last record of the chain that has a
    property of that name, and its own value when no record of the chain has
    one. *)
Theorem merged_root_holds_the_latest_value (field k : string) (root : object)
    (chain : list entity) :
  String.eqb k field = false ->
  forallb (fun e => distinct_keys (props e)) chain = true ->
  (forall before r after,
     chain = before ++ r :: after ->
     has_key k (props r) = true ->
     forallb (fun e => negb (has_key k (props e))) after = true ->
     get k (chain_root field root chain) = get k (props r))
  /\ (forallb (fun e => negb (has_key k (props e))) chain = true ->
      get k (chain_root field root chain) = get k root).
Proof.
  intros Hk Hd. split.
  - intros before r after -> Hr Hafter.
    rewrite forallb_app in Hd. apply andb_true_iff in Hd.
    destruct Hd as [_ Hd]. cbn [forallb] in Hd. apply andb_true_iff in Hd.
    destruct Hd as [Hdr Hda].
    rewrite chain_root_app.
    change (chain_root field (chain_root field root before) (r :: after))
      with (chain_root field
              (merged field (chain_root field root before) (props r)) after).
    rewrite (get_chain_root_absent _ _ _ _ Hk Hda Hafter).
    rewrite (get_merged _ _ _ _ Hk Hdr), Hr. reflexivity.
  - intros Hn. exact (get_chain_root_absent _ _ _ _ Hk Hd Hn).
Qed.

Lemma merged_root_holds_the_latest_value_witness :
  (String.eqb "sequence_number" "communication" = false /\
   forallb (fun e => distinct_keys (props e)) (tl sample_chain) = true) /\
  (get "sequence_number" (props sample_root) = VStr "214" /\
   get "sequence_number"
       (chain_root "communication" (props sample_root) (tl sample_chain))
   = VStr "0001") /\
  get "amount"
      (chain_root "communication" (props sample_root) (tl sample_chain))
  = get "amount" (props sample_root).
Proof.
  destruct (merged_root_holds_the_latest_value "communication"
              "sequence_number" (props sample_root) (tl sample_chain)
              eq_refl eq_refl) as [Hlast _].
  destruct (merged_root_holds_the_latest_value "communication"
              "amount" (props sample_root) (tl sample_chain)
              eq_refl eq_refl) as [_ Hown].
  split; [split; reflexivity|]. split; [split; [reflexivity|]|].
  - exact (Hlast [] (nth 1 sample_chain (mkEntity 0 []))
             [nth 2 sample_chain (mkEntity 0 [])] eq_refl eq_refl eq_refl).
  - exact (Hown eq_refl).
Defined.

(** ** The texts of the result *)

Section MergeLeaves.

Variable is_root : object -> bool.
Variables flag field : string.
Variable finish : object -> result object.
Variable visit : object -> result object.
Variable Q : object -> Prop.

Hypothesis finish_leaves : forall o o', finish o = Ok o' -> Q o'.
Hypothesis visit_leaves : forall o o', visit o = Ok o' -> Q o'.

Local Abbreviation merge := (merge_chains is_root flag field finish visit).

(** A record the loop leaves in the array was finished as a root,
    visited, or stepped over; the records stepped over are on the [drop]
    list. *)
Lemma merge_leaves array : forall skip out drop,
  merge skip array = Ok (out, drop) ->
  forall e, In e out ->
    Q (props e) \/ In e drop \/ In e (firstn skip array).
Proof.
  induction array as [|r array IH]; intros skip out drop H e He.
  - injection H as <- <-. contradiction.
  - destruct skip as [|skip]; simpl in H.
    + destruct (is_root (props r)).
      * destruct (absorb_prefix flag field array (props r)) as [rem Hrem].
        destruct (absorb flag field (props r) array) as [root dropped].
        simpl in Hrem.
        destruct (finish root) as [root'|] eqn:Ef; simpl in H;
          [|discriminate H].
        destruct (merge (length dropped) array) as [[o1 d1]|] eqn:E;
          simpl in H; [|discriminate H].
        injection H as <- <-. destruct He as [<-|He].
        -- left. exact (finish_leaves _ _ Ef).
        -- destruct (IH _ _ _ E e He) as [Hq|[Hd|Hs]].
           ++ left. exact Hq.
           ++ right. left. apply in_or_app. right. exact Hd.
           ++ right. left. apply in_or_app. left.
              rewrite Hrem in Hs. rewrite firstn_app, firstn_all in Hs.
              rewrite Nat.sub_diag in Hs. simpl in Hs.
              rewrite app_nil_r in Hs. exact Hs.
      * destruct (visit (props r)) as [o|] eqn:Ev; simpl in H;
          [|discriminate H].
        destruct (merge 0 array) as [[o1 d1]|] eqn:E; simpl in H;
          [|discriminate H].
        injection H as <- <-. destruct He as [<-|He].
        -- left. exact (visit_leaves _ _ Ev).
        -- destruct (IH _ _ _ E e He) as [Hq|[Hd|Hs]];
             [left; exact Hq | right; left; exact Hd | contradiction].
    + destruct (merge skip array) as [[o1 d1]|] eqn:E; simpl in H;
        [|discriminate H].
      injection H as <- <-. destruct He as [<-|He].
      * right. right. left. reflexivity.
      * destruct (IH _ _ _ E e He) as [Hq|[Hd|Hs]];
          [left; exact Hq | right; left; exact Hd |].
        right. right. right. exact Hs.
Qed.

(** After the removal, only finished roots and visited records are
    left. *)
Lemma merge_then_remove_leaves array out drop :
  merge 0 array = Ok (out, drop) ->
  NoDup (map oid array) ->
  forall e, In e (remove_dropped drop out) -> Q (props e).
Proof.
  intros H Hn e He.
  apply (merge_then_remove_In _ _ _ _ _ _ _ _ H Hn) in He.
  destruct He as [He Hnot].
  destruct (merge_leaves _ _ _ _ H e He) as [Hq|[Hd|[]]]; [exact Hq|].
  exfalso. apply Hnot, in_map, Hd.
Qed.

End MergeLeaves.

Lemma get_delete_other k k' o :
  String.eqb k k' = false -> get k (delete k' o) = get k o.
Proof.
  intros Hk. induction o as [|[k1 v] o IH]; [reflexivity|].
  simpl. destruct (String.eqb k' k1) eqn:E.
  - apply String.eqb_eq in E. subst k1. rewrite Hk. exact IH.
  - simpl. destruct (String.eqb k k1); [reflexivity | exact IH].
Qed.

Lemma get_cleaned k fields : forall o,
  forallb (fun f => negb (String.eqb k f)) fields = true ->
  get k (fold_left (fun o f => delete f o) fields o) = get k o.
Proof.
  induction fields as [|f fields IH]; intros o H; [reflexivity|].
  cbn [forallb] in H. apply andb_true_iff in H. destruct H as [Hf H].
  apply negb_true_iff in Hf. cbn [fold_left].
  rewrite (IH _ H). apply get_delete_other, Hf.
Qed.

Lemma get_linked_with k informations : forall m,
  String.eqb k "information" = false ->
  get k (props (linked_with informations m)) = get k (props m).
Proof.
  induction informations as [|i informations IH]; intros m Hk; [reflexivity|].
  change (get k
            (props (linked_with informations
                      (if same_key (props m) (props i)
                       then mkEntity (oid m) (attach (props i) (props m))
                       else m))) = get k (props m)).
  rewrite (IH _ Hk). destruct (same_key (props m) (props i)); [|reflexivity].
  cbn [props]. unfold attach.
  destruct (get "information" (props m)); apply get_set_other, Hk.
Qed.

Lemma tidy_normalised field o : normalised (get field (tidy field o)).
Proof.
  unfold tidy. destruct (get field o) as [| | | |t| | |] eqn:E;
    try (rewrite E; intros s Hs; discriminate Hs).
  rewrite get_set_same. intros s [= <-]. apply normalise_twice.
Qed.

Lemma finish_movement_normalised now o o' :
  finish_movement now o = Ok o' -> normalised (get "communication" o').
Proof.
  unfold finish_movement, tidy_communication. intros H.
  apply bind_ok in H. destruct H as [c [_ H]]. injection H as <-.
  apply tidy_normalised.
Qed.

Lemma finish_information_normalised now o o' :
  finish_information now o = Ok o' -> normalised (get "communication" o').
Proof.
  unfold finish_information, tidy_communication. intros H.
  apply bind_ok in H. destruct H as [c [_ H]]. injection H as <-.
  apply tidy_normalised.
Qed.

Lemma tidy_communication_normalised o o' :
  tidy_communication o = Ok o' -> normalised (get "communication" o').
Proof. intros [= <-]. apply tidy_normalised. Qed.

Lemma tidy_text_normalised o o' :
  tidy_text o = Ok o' ->
  exists s, get "text" o' = VStr s /\ normalise s = s.
Proof.
  unfold tidy_text. destruct (get "text" o); try discriminate.
  intros [= <-]. rewrite get_set_same. eexists. split; [reflexivity|].
  apply normalise_twice.
Qed.

(** Property X29.  Every text [parse] returns in a record is normalised: the
    communication of a movement or of an information record, at the top
    level or in the list of a movement, when it is a text and not the object
    of a structured communication, and the text of a free communication. *)
Theorem texts_of_the_result_are_normalised (now : Z) (coda : string)
    (d : document) :
  parse now coda = Ok d ->
  (forall e, In e (movements d) \/ In e (information d) ->
     normalised (get "communication" (props e)))
  /\ (forall e o, In e (movements d) -> In o (attached_objects (props e)) ->
        normalised (get "communication" o))
  /\ (forall e, In e (free_communications d) ->
        exists s, get "text" (props e) = VStr s /\ normalise s = s).
Proof.
  intros H. destruct (parse_stages _ _ _ H) as [st [m [Hl [Hm ->]]]].
  destruct (merge_records_stages _ _ _ Hm)
    as [mo [md [io [id [fo [fd [Mm [Mi [Mf [Em [Ei [Ef _]]]]]]]]]]]].
  destruct (link_records_parts m) as [Lm [Li [Lf _]]].
  assert (well_numbered (snd st)) as [Nm [Ni Nf]]
    by (apply (parse_lines_numbered now _ _ _ Hl); repeat split; reflexivity).
  apply numbered_NoDup in Nm, Ni, Nf.
  assert (forall e, In e (movements m) ->
            normalised (get "communication" (props e))) as Hmov.
  { intros e He. rewrite Em in He. unfold cleanup in He.
    apply in_map_iff in He. destruct He as [e0 [<- He]]. cbn [props].
    rewrite get_cleaned by reflexivity.
    exact (merge_then_remove_leaves first_article "next_code" "communication"
             (finish_movement now) tidy_communication
             (fun o => normalised (get "communication" o))
             (finish_movement_normalised now) tidy_communication_normalised
             _ _ _ Mm Nm e0 He). }
  assert (forall e, In e (information m) ->
            normalised (get "communication" (props e))) as Hinf.
  { intros e He. rewrite Ei in He. unfold cleanup in He.
    apply in_map_iff in He. destruct He as [e0 [<- He]]. cbn [props].
    rewrite get_cleaned by reflexivity.
    exact (merge_then_remove_leaves first_article "next_code" "communication"
             (finish_information now) tidy_communication
             (fun o => normalised (get "communication" o))
             (finish_information_normalised now)
             tidy_communication_normalised
             _ _ _ Mi Ni e0 He). }
  split; [|split].
  - intros e [He|He].
    + rewrite Lm in He. apply in_map_iff in He. destruct He as [e0 [<- He]].
      rewrite get_linked_with by reflexivity. exact (Hmov _ He).
    + rewrite Li in He.
      apply (subseq_In _ _ _ (remove_dropped_subseq _ _)) in He.
      exact (Hinf _ He).
  - intros e o He Ho. rewrite Lm in He. apply in_map_iff in He.
    destruct He as [e0 [<- He]].
    unfold attached_objects in Ho. rewrite attached_linked_with in Ho.
    apply in_flat_map in Ho. destruct Ho as [v [Hv Ho]].
    apply in_app_or in Hv. destruct Hv as [Hv|Hv].
    + rewrite (attached_absent _
                 (nothing_attached_before_linking _ _ _ _ _ Hl Hm He)) in Hv.
      contradiction.
    + apply in_map_iff in Hv. destruct Hv as [i [<- Hi]].
      apply filter_In in Hi. destruct Hi as [Hi _].
      destruct Ho as [<-|[]]. exact (Hinf _ Hi).
  - intros e He. rewrite Lf, Ef in He. unfold cleanup in He.
    apply in_map_iff in He. destruct He as [e0 [<- He]]. cbn [props].
    rewrite get_cleaned by reflexivity.
    exact (merge_then_remove_leaves (fun _ => true) "link_code" "text"
             tidy_text tidy_text
             (fun o => exists s, get "text" o = VStr s /\ normalise s = s)
             tidy_text_normalised tidy_text_normalised
             _ _ _ Mf Nf e0 He).
Qed.

Lemma texts_of_the_result_are_normalised_witness :
  parse 2026 sample_statement = Ok sample_result /\
  (forall e,
     In e (movements sample_result) \/ In e (information sample_result) ->
     normalised (get "communication" (props e)))
  /\ (forall e o,
        In e (movements sample_result) ->
        In o (attached_objects (props e)) ->
        normalised (get "communication" o))
  /\ (forall e, In e (free_communications sample_result) ->
        exists s, get "text" (props e) = VStr s /\ normalise s = s).
Proof.
  assert (parse 2026 sample_statement = Ok sample_result) as H
    by (vm_compute; reflexivity).
  split; [exact H|].
  exact (texts_of_the_result_are_normalised 2026%Z sample_statement
           sample_result H).
Defined.

Lemma listed_code_has_its_description_witness :
  family_description sample_transaction_code
  = Ok (VStr "Domestic or local SEPA credit transfers") /\
  transaction_description sample_transaction_code
  = Ok (VStr "Individual transfer order") /\
  category_description sample_transaction_code
  = Ok (VStr "Net amount").
Proof.
  destruct (listed_code_has_its_description sample_transaction_code)
    as [Hf [Ht Hc]].
  split; [|split].
  - apply (Hf "01"); [reflexivity|]. left. reflexivity.
  - apply (Ht "01" transactions_01 "01"); try reflexivity; left; reflexivity.
  - apply (Hc "000"); [reflexivity|]. left. reflexivity.
Defined.

Lemma layouts_without_a_date_always_decode_witness :
  is_ok (parseCommunicationMovement 2026 (VStr "101") (VStr "structured"))
  = true /\
  is_ok (parseCommunicationDetail 2026 (VStr "001") (VStr "structured"))
  = true /\
  is_ok (parseCommunicationMovement 2026 (VStr "124") (VStr "structured"))
  = false.
Proof.
  destruct (layouts_without_a_date_always_decode 2026%Z "") as [Hm Hd].
  split; [|split].
  - apply (Hm "101"). simpl. auto.
  - apply (Hd "001"). simpl. auto.
  - reflexivity.
Defined.

Lemma trailer_totals_are_thousandths_witness :
  exists v,
    parseTrailer sample_trailer = Ok v /\
    field "number_of_records" v = VNum (num_of_Z 15) /\
    field "debit_amount" v = VNum (thousandth 16837520) /\
    field "credit_amount" v = VNum (thousandth 3967220).
Proof.
  destruct (trailer_totals_are_thousandths sample_trailer)
    as [v [Hv [_ [Hn [Hd [Hc _]]]]]].
  exists v. split; [exact Hv|].
  split; [exact (Hn eq_refl)|]. split; [exact (Hd eq_refl) | exact (Hc eq_refl)].
Defined.

Lemma fixed_point_field_is_scaled_witness :
  (12 <= 15 /\
   In 100000000%positive [100; 1000; 10000; 1000000; 100000000]%positive) /\
  scaled 12 100000000 sample_stream
  = Ok (VNum (Fin (Qred (12500 # 100000000))),
        mkStream "105000000012500" 15) /\
  Qred (12500 # 100000000) = (1 # 8000)%Q /\
  integer 12 (mkStream "105" 3) = Ok (VNum (num_of_Z 0), mkStream "105" 15).
Proof.
  assert (12 <= 15) as Hn by lia.
  assert (In 100000000%positive
             [100; 1000; 10000; 1000000; 100000000]%positive) as Hs
    by (simpl; auto 6).
  destruct (fixed_point_field_is_scaled 12 100000000 sample_stream Hn Hs)
    as [Hdigits _].
  destruct (fixed_point_field_is_scaled 12 100000000 (mkStream "105" 3) Hn Hs)
    as [_ Hblank].
  split; [split; assumption|].
  split; [exact (proj2 (Hdigits eq_refl))|].
  split; [reflexivity | exact (proj1 (Hblank eq_refl))].
Defined.

Lemma counterparty_account_is_split_witness :
  slice 10 47 sample_movement_3
  = ("BE54805480215856" ++ "                  " ++ "EUR" ++ "")%string /\
  exists o,
    parseMovement23 sample_movement_3 = Ok o /\
    field "account" (get "counterparty" o)
    = VObj [("number", VStr "BE54805480215856"); ("currency", VStr "EUR")].
Proof.
  split; [reflexivity|].
  destruct (counterparty_account_is_split sample_movement_3)
    as [o [Ho [Hsplit _]]].
  exists o. split; [exact Ho|].
  apply (Hsplit "BE54805480215856" "                  " "EUR" "");
    try reflexivity.
  discriminate.
Defined.

(** * The chains in the document [parse] returns *)

(** ** The arrays the line loop hands to the merge loops *)

Lemma parsed_arrays_distinct now lines st :
  parse_lines now initial_state lines = Ok st ->
  NoDup (map oid (movements (snd st)))
  /\ NoDup (map oid (information (snd st)))
  /\ NoDup (map oid (free_communications (snd st))).
Proof.
  intros Hl.
  assert (well_numbered (snd st)) as [Nm [Ni Nf]]
    by (apply (parse_lines_numbered now _ _ _ Hl); repeat split; reflexivity).
  repeat split; apply numbered_NoDup; assumption.
Qed.

Lemma parsed_movement_typed now lines st e :
  parse_lines now initial_state lines = Ok st ->
  In e (movements (snd st)) -> typed_record (props e).
Proof.
  intros Hl He. destruct (raw_movement _ _ _ _ Hl He) as [line [Hline Hd]].
  exact (typed_movement now line _ Hline Hd).
Qed.

Lemma parsed_information_typed now lines st e :
  parse_lines now initial_state lines = Ok st ->
  In e (information (snd st)) -> typed_record (props e).
Proof.
  intros Hl He. destruct (raw_information _ _ _ _ Hl He) as [line [Hline Hd]].
  exact (typed_information line _ Hline Hd).
Qed.

Lemma parsed_free_communication_text now lines st e :
  parse_lines now initial_state lines = Ok st ->
  In e (free_communications (snd st)) ->
  is_text (get "text" (props e)) = true.
Proof.
  intros Hl He.
  destruct (raw_free_communication _ _ _ _ Hl He) as [line [_ Hd]].
  unfold parseFreeCommunication in Hd.
  pose proof (record_get _ _ "text" Hd) as Ht. simpl in Ht.
  injection Ht as Ht. rewrite <- Ht. reflexivity.
Qed.

(** The loop over the free communications raises no error on records whose
    text is a text: the text of a root stays one while its chain is merged
    into it. *)
Lemma merge_free_communications_returns array :
  Forall (fun e => is_text (get "text" (props e)) = true) array ->
  exists r, merge_free_communications array = Ok r.
Proof.
  intros Hall.
  destruct (merge_free_communications array) as [r|e] eqn:E; [eauto|].
  exfalso.
  refine (merge_error (fun _ => true) "link_code" "text" tidy_text tidy_text
            (fun o => is_text (get "text" o) = true)
            (fun o => is_text (get "text" o) = true)
            (fun _ _ H => H)
            (fun root next _ _ =>
               f_equal is_text
                 (get_set_same "text"
                    (concat_text (get "text" root) (get "text" next))
                    (assign root next)))
            (fun _ => True) array _ _ 0 e Hall E I).
  - intros o e0 Ho Hf. unfold tidy_text in Hf.
    destruct (get "text" o); discriminate.
  - intros o e0 Ho Hf. unfold tidy_text in Hf.
    destruct (get "text" o); discriminate.
Qed.

(** ** From the merge loops to the document *)

(** [parse] returns when the three loops do, with the document the linking
    pass makes of what they leave. *)
Lemma parse_returns now coda st mo md io id fo fd :
  parse_lines now initial_state (split_lines (trim coda)) = Ok st ->
  merge_movements now (movements (snd st)) = Ok (mo, md) ->
  merge_information now (information (snd st)) = Ok (io, id) ->
  merge_free_communications (free_communications (snd st)) = Ok (fo, fd) ->
  exists merged,
    merge_records now (snd st) = Ok merged /\
    parse now coda = Ok (link_records merged) /\
    movements merged
    = cleanup ["next_code"; "link_code"] (remove_dropped md mo) /\
    information merged
    = cleanup ["next_code"; "link_code"] (remove_dropped id io) /\
    free_communications merged
    = cleanup ["link_code"] (remove_dropped fd fo).
Proof.
  intros Hl Mm Mi Mf. eexists. split; [|split].
  - unfold merge_records. rewrite Mm, Mi, Mf. cbn [bind fst snd]. reflexivity.
  - unfold parse, parse_records, merge_records. fold initial_state.
    rewrite Hl. cbn [bind]. rewrite Mm, Mi, Mf. reflexivity.
  - repeat split.
Qed.

(** A record the removal leaves is in the document, with its identity and
    its properties but for the flags and the information records the
    linking pass gives a movement. *)
Lemma kept_property_clean k :
  kept_property k ->
  String.eqb k "information" = false /\
  forallb (fun f => negb (String.eqb k f)) ["next_code"; "link_code"] = true.
Proof.
  intros [H1 [H2 H3]]. apply String.eqb_neq in H1, H2, H3.
  cbn [forallb]. rewrite H1, H2, H3. split; reflexivity.
Qed.

Lemma movement_of_result informations array e :
  In e array ->
  exists m,
    In m (map (linked_with informations)
              (cleanup ["next_code"; "link_code"] array)) /\
    oid m = oid e /\
    forall k, kept_property k -> get k (props m) = get k (props e).
Proof.
  intros He.
  exists (linked_with informations
            (mkEntity (oid e)
               (fold_left (fun o f => delete f o) ["next_code"; "link_code"]
                          (props e)))).
  split; [|split].
  - apply in_map. unfold cleanup.
    exact (in_map (fun e0 => mkEntity (oid e0) _) _ _ He).
  - rewrite linked_with_oid. reflexivity.
  - intros k Hk. destruct (kept_property_clean k Hk) as [Hi Hc].
    rewrite (get_linked_with k informations _ Hi). cbn [props].
    apply get_cleaned, Hc.
Qed.

Lemma movements_of_result_oids m :
  map oid (movements (link_records m)) = map oid (movements m).
Proof.
  destruct (link_records_parts m) as [-> _]. apply map_oid_linked.
Qed.

(** An information record that has the key of no movement stays at the top
    level, when no information record has the key of two movements. *)
Lemma unmatched_record_stays m i :
  NoDup (map oid (information m)) ->
  (forall j, In j (information m) -> matches (movements m) j <= 1) ->
  In i (information m) -> matches (movements m) i = 0 ->
  In i (information (link_records m)).
Proof.
  intros Hn Hone Hi Hz. destruct (link_records_parts m) as [_ [-> _]].
  rewrite link_drop, (flat_repeat_filter _ _ Hone).
  rewrite remove_dropped_filter.
  - apply filter_In. split; [exact Hi|]. apply negb_true_iff.
    destruct (existsb _ _) eqn:Ex; [|reflexivity].
    apply existsb_exists in Ex. destruct Ex as [d [Hd Hr]].
    apply filter_In in Hd. destruct Hd as [Hd Hpos].
    unfold is_record in Hr. apply Nat.eqb_eq in Hr.
    rewrite <- (NoDup_map_inj oid _ i d Hn Hi Hd Hr), Hz in Hpos.
    discriminate Hpos.
  - exact Hn.
  - apply (subseq_NoDup _ (map oid (information m))); [|exact Hn].
    apply subseq_map. clear. induction (information m) as [|a l IH];
      [apply subseq_nil|].
    simpl. destruct (Nat.ltb 0 (matches (movements m) a));
      [apply subseq_take | apply subseq_skip]; exact IH.
  - intros x Hx. apply in_map_iff in Hx. destruct Hx as [e [<- He]].
    apply filter_In in He. apply in_map, (proj1 He).
Qed.

(** A movement of the document holds every information record of the
    linking pass that has its key. *)
Lemma movement_holds_record m i e :
  In i (information m) ->
  In e (movements (link_records m)) ->
  same_key (props e) (props i) = true ->
  In (VObj (props i)) (attached (props e)).
Proof.
  intros Hi He Hk. destruct (link_records_parts m) as [Lm _].
  rewrite Lm in He. apply in_map_iff in He. destruct He as [e0 [<- He]].
  rewrite linked_with_same_key in Hk.
  exact (linked_with_attached (information m) i e0 Hi Hk).
Qed.

(** ** A movement chain *)

(** Claim C4.  The movements are the array the line loop built from the
    input, [pre ++ root :: records ++ rest], in which [root] has the
    article code 1 and starts a chain whose records carry ['1'] in
    [next_code] but for the last, which carries ['0'].  The loop consumes
    exactly the records after the root; the communication of the root is
    then the concatenation of the fragments in the order of the file, and
    that text is what the communication decoder is handed: an error of the
    decoder on it is the error of [parse], and [parse] returns when the
    decoder accepts it and the other records are merged without error.
    When [parse] returns, no record after the root is in the movements of
    the document (the identity of a record is the rank of its line), and
    the root is, with what the decoder made of the text. *)
Theorem chain_is_merged_in_file_order (now : Z) (coda : string)
    (st : parse_state) (pre : list entity) (root : entity)
    (records rest : list entity) :
  parse_lines now initial_state (split_lines (trim coda)) = Ok st ->
  movements (snd st) = pre ++ root :: records ++ rest ->
  settled first_article "next_code" "communication" 0 pre = true ->
  first_article (props root) = true ->
  closed_chain "next_code" root records = true ->
  let merged_root := chain_root "communication" (props root) records in
  let text := chain_text "communication" (props root) records in
  absorb "next_code" "communication" (props root) (records ++ rest)
  = (merged_root, records) /\
  get "communication" merged_root = VStr text /\
  merge_movements now (movements (snd st))
  = (r <- merge_movements now pre ;;
     c <- parseCommunicationMovement now (VStr text)
            (get "communication_type" merged_root) ;;
     r' <- merge_movements now rest ;;
     Ok (fst r ++ emitted root merged_root c :: records ++ fst r',
         snd r ++ records ++ snd r')) /\
  (forall e,
     is_ok (merge_movements now pre) = true ->
     parseCommunicationMovement now (VStr text)
       (get "communication_type" merged_root) = Err e ->
     parse now coda = Err e) /\
  (forall c,
     parseCommunicationMovement now (VStr text)
       (get "communication_type" merged_root) = Ok c ->
     is_ok (merge_movements now pre) = true ->
     is_ok (merge_movements now rest) = true ->
     is_ok (merge_information now (information (snd st))) = true ->
     is_ok (parse now coda) = true) /\
  (forall d,
     parse now coda = Ok d ->
     (forall r, In r records -> ~ In (oid r) (map oid (movements d))) /\
     exists c m,
       parseCommunicationMovement now (VStr text)
         (get "communication_type" merged_root) = Ok c /\
       In m (movements d) /\ oid m = oid root /\
       forall k, kept_property k ->
         get k (props m) = get k (props (emitted root merged_root c))).
Proof.
  intros Hl Hs Hc Hr Hchain merged_root text. subst merged_root text.
  assert (In root (movements (snd st))) as Hroot
    by (rewrite Hs; apply in_or_app; right; left; reflexivity).
  destruct (parsed_movement_typed _ _ _ _ Hl Hroot) as [_ [Ht _]].
  destruct (movement_chain_merged now pre root records rest Hc Hr Hchain Ht)
    as [Ha [Htext [Hm Hfinal]]].
  split; [exact Ha|]. split; [exact Htext|].
  split; [rewrite Hs; exact Hm|]. split; [|split].
  - intros e Hok Hd. unfold parse, parse_records, merge_records.
    fold initial_state. rewrite Hl. cbn [bind]. rewrite Hs, Hm.
    destruct (merge_movements now pre) as [[o1 d1]|]; [|discriminate Hok].
    cbn [bind]. rewrite Hd. reflexivity.
  - intros c Hd Hpre Hrest Hinf.
    destruct (merge_movements now pre) as [[o1 d1]|] eqn:Ep;
      [|discriminate Hpre].
    destruct (merge_movements now rest) as [[o2 d2]|] eqn:Er;
      [|discriminate Hrest].
    destruct (merge_information now (information (snd st))) as [[io id]|]
      eqn:Ei; [|discriminate Hinf].
    destruct (merge_free_communications_returns
                (free_communications (snd st))) as [[fo fd] Ef].
    { apply Forall_forall. intros e He.
      exact (parsed_free_communication_text _ _ _ _ Hl He). }
    rewrite <- Hs in Hm. cbn [bind] in Hm. rewrite Hd in Hm.
    cbn [bind fst snd] in Hm.
    destruct (parse_returns now coda st _ _ io id fo fd Hl Hm Ei Ef)
      as [merged [_ [Hp _]]].
    rewrite Hp. reflexivity.
  - intros d Hp. destruct (parse_stages _ _ _ Hp) as [st' [m [Hl' [Hmr ->]]]].
    rewrite Hl in Hl'. injection Hl' as <-.
    destruct (merge_records_stages _ _ _ Hmr)
      as [mo [md [io [id [fo [fd [Mm [_ [_ [Em _]]]]]]]]]].
    destruct (parsed_arrays_distinct _ _ _ Hl) as [Nm _].
    rewrite Hs in Mm, Nm.
    destruct (Hfinal mo md Nm Mm) as [Hgone [c [Hdec Hin]]].
    split.
    + intros r Hrec. rewrite movements_of_result_oids, Em, cleanup_oids.
      exact (Hgone r Hrec).
    + destruct (movement_of_result (information m) _ _ Hin)
        as [m' [Hm' [Ho Hk]]].
      exists c, m'. split; [exact Hdec|]. split.
      * destruct (link_records_parts m) as [-> _]. rewrite Em. exact Hm'.
      * split; [exact Ho | exact Hk].
Qed.

(** ** A chain the input ends in the middle of *)

(** Claim C3, as amended.  The array the line loop built ends in a chain
    whose every record carries the continuation flag ['1'], after records
    that are merged without error.  The merge loop raises no error of its
    own, and [parse] returns when the communication decoder accepts the
    text accumulated so far and the other two arrays are merged without
    error (the free communications always are).  A movement root is in the
    movements of the document with what the decoder made of that text; an
    information root is handed likewise to the linking pass, which leaves
    it in the information list of every movement with its key, and at the
    top level when no movement has its key and no information record has
    the key of two movements; a free communication is in the document with
    that text, normalised.  The records after the root are not in the
    document. *)
Theorem truncated_chain_is_emitted :
  (forall now coda st pre root chain c,
     parse_lines now initial_state (split_lines (trim coda)) = Ok st ->
     movements (snd st) = pre ++ root :: chain ->
     settled first_article "next_code" "communication" 0 pre = true ->
     first_article (props root) = true ->
     forallb (carries "next_code" "1") (root :: chain) = true ->
     let merged_root := chain_root "communication" (props root) chain in
     parseCommunicationMovement now
       (VStr (chain_text "communication" (props root) chain))
       (get "communication_type" merged_root) = Ok c ->
     is_ok (merge_movements now pre) = true ->
     is_ok (merge_information now (information (snd st))) = true ->
     exists d m,
       parse now coda = Ok d /\
       In m (movements d) /\ oid m = oid root /\
       (forall k, kept_property k ->
          get k (props m) = get k (props (emitted root merged_root c))) /\
       (forall r, In r chain -> ~ In (oid r) (map oid (movements d)))) /\
  (forall now coda st pre root chain c,
     parse_lines now initial_state (split_lines (trim coda)) = Ok st ->
     information (snd st) = pre ++ root :: chain ->
     settled first_article "next_code" "communication" 0 pre = true ->
     first_article (props root) = true ->
     forallb (carries "next_code" "1") (root :: chain) = true ->
     let merged_root := chain_root "communication" (props root) chain in
     parseCommunicationDetail now
       (VStr (chain_text "communication" (props root) chain))
       (get "communication_type" merged_root) = Ok c ->
     is_ok (merge_movements now (movements (snd st))) = true ->
     is_ok (merge_information now pre) = true ->
     exists merged i,
       merge_records now (snd st) = Ok merged /\
       parse now coda = Ok (link_records merged) /\
       In i (information merged) /\ oid i = oid root /\
       props i
       = delete "link_code"
           (delete "next_code" (props (emitted root merged_root c))) /\
       (forall r, In r chain ->
          ~ In (oid r) (map oid (information merged)) /\
          ~ In (oid r) (map oid (information (link_records merged)))) /\
       (forall m,
          In m (movements (link_records merged)) ->
          same_key (props m) (props i) = true ->
          In (VObj (props i)) (attached (props m))) /\
       ((forall j, In j (information merged) ->
           matches (movements merged) j <= 1) ->
        matches (movements merged) i = 0 ->
        In i (information (link_records merged)))) /\
  (forall now coda st pre root chain,
     parse_lines now initial_state (split_lines (trim coda)) = Ok st ->
     free_communications (snd st) = pre ++ root :: chain ->
     settled (fun _ => true) "link_code" "text" 0 pre = true ->
     forallb (carries "link_code" "1") (root :: chain) = true ->
     is_ok (merge_movements now (movements (snd st))) = true ->
     is_ok (merge_information now (information (snd st))) = true ->
     let merged_root := chain_root "text" (props root) chain in
     let text := normalise (chain_text "text" (props root) chain) in
     exists d f,
       parse now coda = Ok d /\
       In f (free_communications d) /\ oid f = oid root /\
       props f = delete "link_code" (set "text" (VStr text) merged_root) /\
       (forall r, In r chain ->
          ~ In (oid r) (map oid (free_communications d)))).
Proof.
  split; [|split].
  - intros now coda st pre root chain c Hl Hs Hc Hr Hall merged_root Hd
           Hpre Hinf.
    subst merged_root.
    destruct (merge_movements now pre) as [[out drop]|] eqn:Ep;
      [|discriminate Hpre].
    destruct (merge_information now (information (snd st))) as [[io id]|]
      eqn:Ei; [|discriminate Hinf].
    assert (In root (movements (snd st))) as Hroot
      by (rewrite Hs; apply in_or_app; right; left; reflexivity).
    destruct (parsed_movement_typed _ _ _ _ Hl Hroot) as [_ [Ht _]].
    destruct (parsed_arrays_distinct _ _ _ Hl) as [Nm _].
    destruct (merge_free_communications_returns
                (free_communications (snd st))) as [[fo fd] Ef].
    { apply Forall_forall. intros e He.
      exact (parsed_free_communication_text _ _ _ _ Hl He). }
    pose proof (finish_movement_text now root chain c Ht Hd) as Hf.
    rewrite Hs in Nm.
    destruct (truncated_emitted first_article "next_code" "communication"
                (finish_movement now) tidy_communication eq_refl
                pre root chain out drop _ Hc Ep Hr Hall Hf Nm)
      as [Hm [Hin _]].
    pose proof (merge_then_remove _ _ _ _ _ _ _ _ Hm Nm) as Hoids.
    assert (merge_movements now (movements (snd st))
            = Ok (out ++ emitted root
                           (chain_root "communication" (props root) chain) c
                      :: chain, drop ++ chain)) as Mm
      by (rewrite Hs; exact Hm).
    destruct (parse_returns now coda st _ _ io id fo fd Hl Mm Ei Ef)
      as [merged [_ [Hp [Em _]]]].
    destruct (movement_of_result (information merged) _ _ Hin)
      as [m [Hm' [Ho Hk]]].
    exists (link_records merged), m. split; [exact Hp|]. split.
    { destruct (link_records_parts merged) as [-> _]. rewrite Em. exact Hm'. }
    split; [exact Ho|]. split; [exact Hk|].
    intros r Hrec. rewrite movements_of_result_oids, Em, cleanup_oids.
    intros Hx. apply Hoids in Hx. apply (proj2 Hx).
    rewrite map_app. apply in_or_app. right. apply in_map, Hrec.
  - intros now coda st pre root chain c Hl Hs Hc Hr Hall merged_root Hd
           Hmov Hpre.
    subst merged_root.
    destruct (merge_information now pre) as [[out drop]|] eqn:Ep;
      [|discriminate Hpre].
    destruct (merge_movements now (movements (snd st))) as [[mo md]|]
      eqn:Mm; [|discriminate Hmov].
    assert (In root (information (snd st))) as Hroot
      by (rewrite Hs; apply in_or_app; right; left; reflexivity).
    destruct (parsed_information_typed _ _ _ _ Hl Hroot) as [_ [Ht _]].
    destruct (parsed_arrays_distinct _ _ _ Hl) as [_ [Ni _]].
    destruct (merge_free_communications_returns
                (free_communications (snd st))) as [[fo fd] Ef].
    { apply Forall_forall. intros e He.
      exact (parsed_free_communication_text _ _ _ _ Hl He). }
    pose proof (finish_information_text now root chain c Ht Hd) as Hf.
    pose proof Ni as Ni'. rewrite Hs in Ni.
    destruct (truncated_emitted first_article "next_code" "communication"
                (finish_information now) tidy_communication eq_refl
                pre root chain out drop _ Hc Ep Hr Hall Hf Ni)
      as [Hm [Hin _]].
    pose proof (merge_then_remove _ _ _ _ _ _ _ _ Hm Ni) as Hoids.
    assert (merge_information now (information (snd st))
            = Ok (out ++ emitted root
                           (chain_root "communication" (props root) chain) c
                      :: chain, drop ++ chain)) as Mi
      by (rewrite Hs; exact Hm).
    destruct (parse_returns now coda st mo md _ _ fo fd Hl Mm Mi Ef)
      as [merged [Hmr [Hp [_ [Ei _]]]]].
    pose proof (merge_records_information now _ _ Hmr Ni') as Nmerged.
    set (e := emitted root (chain_root "communication" (props root) chain) c)
      in *.
    set (i := mkEntity (oid e)
                (fold_left (fun o f => delete f o) ["next_code"; "link_code"]
                           (props e))).
    assert (In i (information merged)) as Hi.
    { rewrite Ei. unfold cleanup.
      exact (in_map (fun e0 => mkEntity (oid e0) _) _ _ Hin). }
    assert (forall r, In r chain -> ~ In (oid r) (map oid (information merged)))
      as Hgone.
    { intros r Hrec. rewrite Ei, cleanup_oids.
      intros Hx. apply Hoids in Hx. apply (proj2 Hx).
      rewrite map_app. apply in_or_app. right. apply in_map, Hrec. }
    exists merged, i. split; [exact Hmr|]. split; [exact Hp|].
    split; [exact Hi|]. split; [reflexivity|]. split; [reflexivity|].
    split; [|split].
    + intros r Hrec. split; [exact (Hgone r Hrec)|].
      intros Hx. apply (Hgone r Hrec).
      destruct (link_records_parts merged) as [_ [Li _]]. rewrite Li in Hx.
      exact (subseq_In _ _ _
               (subseq_map oid _ _ (remove_dropped_subseq _ _)) Hx).
    + intros m Hm' Hk. exact (movement_holds_record merged i m Hi Hm' Hk).
    + intros Hone Hz. exact (unmatched_record_stays merged i Nmerged Hone Hi Hz).
  - intros now coda st pre root chain Hl Hs Hc Hall Hmov Hinf merged_root text.
    subst merged_root text.
    destruct (merge_movements now (movements (snd st))) as [[mo md]|]
      eqn:Mm; [|discriminate Hmov].
    destruct (merge_information now (information (snd st))) as [[io id]|]
      eqn:Mi; [|discriminate Hinf].
    assert (In root (free_communications (snd st))) as Hroot
      by (rewrite Hs; apply in_or_app; right; left; reflexivity).
    pose proof (parsed_free_communication_text _ _ _ _ Hl Hroot) as Ht.
    destruct (parsed_arrays_distinct _ _ _ Hl) as [_ [_ Nf]].
    destruct (merge_free_communications_returns pre) as [[out drop] Ep].
    { apply Forall_forall. intros e He.
      apply (parsed_free_communication_text _ _ _ _ Hl).
      rewrite Hs. apply in_or_app. left. exact He. }
    pose proof (tidy_text_chain root chain Ht) as Hf.
    rewrite Hs in Nf.
    destruct (truncated_emitted (fun _ => true) "link_code" "text"
                tidy_text tidy_text eq_refl
                pre root chain out drop _ Hc Ep eq_refl Hall Hf Nf)
      as [Hm [Hin _]].
    pose proof (merge_then_remove _ _ _ _ _ _ _ _ Hm Nf) as Hoids.
    assert (merge_free_communications (free_communications (snd st))
            = Ok (out ++ mkEntity (oid root)
                           (set "text"
                              (VStr (normalise
                                       (chain_text "text" (props root) chain)))
                              (chain_root "text" (props root) chain))
                      :: chain, drop ++ chain)) as Mf
      by (rewrite Hs; exact Hm).
    destruct (parse_returns now coda st mo md io id _ _ Hl Mm Mi Mf)
      as [merged [_ [Hp [_ [_ Ef]]]]].
    destruct (link_records_parts merged) as [_ [_ [Lf _]]].
    eexists (link_records merged), (mkEntity (oid root) _).
    split; [exact Hp|]. split.
    { rewrite Lf, Ef. unfold cleanup.
      exact (in_map (fun e0 => mkEntity (oid e0)
                                 (fold_left (fun o f => delete f o)
                                            ["link_code"] (props e0)))
                    _ _ Hin). }
    split; [reflexivity|]. split; [reflexivity|].
    intros r Hrec. rewrite Lf, Ef, cleanup_oids.
    intros Hx. apply Hoids in Hx. apply (proj2 Hx).
    rewrite map_app. apply in_or_app. right. apply in_map, Hrec.
Qed.

Lemma chain_is_merged_in_file_order_witness :
  let records := tl sample_chain in
  let text := chain_text "communication" (props sample_root) records in
  (parse_lines 2026 initial_state (split_lines (trim sample_chain_statement))
   = Ok sample_chain_state /\
   movements (snd sample_chain_state) = [] ++ sample_root :: records ++ [] /\
   first_article (props sample_root) = true /\
   closed_chain "next_code" sample_root records = true) /\
  text = (slice 62 115 sample_movement_1 ++ slice 10 63 sample_movement_2
          ++ slice 82 115 sample_movement_3)%string /\
  exists d m,
    parse 2026 sample_chain_statement = Ok d /\
    (forall r, In r records -> ~ In (oid r) (map oid (movements d))) /\
    In m (movements d) /\ oid m = oid sample_root /\
    get "communication" (props m)
    = VStr "112/4554/46812 813 ANOTHER MESSAGE MESSAGE".
Proof.
  intros records text.
  assert (parse_lines 2026 initial_state
            (split_lines (trim sample_chain_statement))
          = Ok sample_chain_state) as Hl by (vm_compute; reflexivity).
  assert (movements (snd sample_chain_state)
          = [] ++ sample_root :: records ++ []) as Hs
    by (vm_compute; reflexivity).
  assert (first_article (props sample_root) = true) as Hr
    by (vm_compute; reflexivity).
  assert (closed_chain "next_code" sample_root records = true) as Hc
    by (vm_compute; reflexivity).
  split; [repeat split; assumption|].
  split; [vm_compute; reflexivity|].
  destruct (chain_is_merged_in_file_order 2026%Z sample_chain_statement
              sample_chain_state [] sample_root records [] Hl Hs eq_refl
              Hr Hc) as [_ [_ [_ [_ [Hreturns Hfinal]]]]].
  assert (is_ok (parse 2026 sample_chain_statement) = true) as Hok.
  { apply (Hreturns (VStr text)); vm_compute; reflexivity. }
  destruct (parse 2026 sample_chain_statement) as [d|] eqn:Hp;
    [|discriminate Hok].
  destruct (Hfinal d eq_refl) as [Hgone [c [m [Hd [Hin [Ho Hk]]]]]].
  exists d, m. split; [reflexivity|]. split; [exact Hgone|].
  split; [exact Hin|]. split; [exact Ho|].
  rewrite (Hk "communication") by (repeat split; discriminate).
  vm_compute in Hd. injection Hd as <-. vm_compute. reflexivity.
Defined.

Lemma truncated_chain_is_emitted_witness :
  let chain := tl sample_truncated in
  (parse_lines 2026 initial_state
     (split_lines (trim sample_truncated_statement))
   = Ok sample_truncated_state /\
   movements (snd sample_truncated_state) = [] ++ sample_root :: chain /\
   information (snd sample_truncated_state)
   = [] ++ sample_information_root :: [] /\
   free_communications (snd sample_truncated_state)
   = [] ++ sample_free :: [] /\
   forallb (carries "next_code" "1") (sample_root :: chain) = true /\
   forallb (carries "next_code" "1") [sample_information_root] = true /\
   forallb (carries "link_code" "1") [sample_free] = true) /\
  (exists d m,
     parse 2026 sample_truncated_statement = Ok d /\
     In m (movements d) /\ oid m = oid sample_root /\
     get "communication" (props m)
     = VStr "112/4554/46812 813 ANOTHER MESSAGE" /\
     (forall r, In r chain -> ~ In (oid r) (map oid (movements d)))) /\
  (exists merged i,
     parse 2026 sample_truncated_statement = Ok (link_records merged) /\
     In i (information merged) /\
     get "communication" (props i) = sample_detail /\
     forall m,
       In m (movements (link_records merged)) ->
       same_key (props m) (props i) = true ->
       In (VObj (props i)) (attached (props m))) /\
  (exists d f,
     parse 2026 sample_truncated_statement = Ok d /\
     In f (free_communications d) /\
     get "text" (props f) = VStr "ACCOUNT INFORMATION").
Proof.
  intros chain.
  assert (parse_lines 2026 initial_state
            (split_lines (trim sample_truncated_statement))
          = Ok sample_truncated_state) as Hl by (vm_compute; reflexivity).
  assert (movements (snd sample_truncated_state)
          = [] ++ sample_root :: chain) as Hsm by (vm_compute; reflexivity).
  assert (information (snd sample_truncated_state)
          = [] ++ sample_information_root :: []) as Hsi
    by (vm_compute; reflexivity).
  assert (free_communications (snd sample_truncated_state)
          = [] ++ sample_free :: []) as Hsf by (vm_compute; reflexivity).
  assert (forallb (carries "next_code" "1") (sample_root :: chain) = true)
    as Hm1 by (vm_compute; reflexivity).
  assert (forallb (carries "next_code" "1") [sample_information_root] = true)
    as Hi1 by (vm_compute; reflexivity).
  assert (forallb (carries "link_code" "1") [sample_free] = true) as Hf1
    by (vm_compute; reflexivity).
  assert (is_ok (merge_movements 2026
                   (movements (snd sample_truncated_state))) = true) as Hmov
    by (vm_compute; reflexivity).
  assert (is_ok (merge_information 2026
                   (information (snd sample_truncated_state))) = true)
    as Hinf by (vm_compute; reflexivity).
  destruct truncated_chain_is_emitted as [Hm [Hi Hf]].
  split; [repeat split; assumption|]. split; [|split].
  - destruct (Hm 2026%Z sample_truncated_statement sample_truncated_state
                [] sample_root chain
                (VStr (chain_text "communication" (props sample_root) chain))
                Hl Hsm eq_refl) as [d [m [Hp [Hin [Ho [Hk Hgone]]]]]];
      try (vm_compute; reflexivity); try assumption.
    exists d, m. split; [exact Hp|]. split; [exact Hin|].
    split; [exact Ho|]. split; [|exact Hgone].
    rewrite (Hk "communication") by (repeat split; discriminate).
    vm_compute. reflexivity.
  - destruct (Hi 2026%Z sample_truncated_statement sample_truncated_state
                [] sample_information_root [] sample_detail
                Hl Hsi eq_refl)
      as [merged [i [_ [Hp [Hin [_ [Hprops [_ [Hatt _]]]]]]]]];
      try (vm_compute; reflexivity); try assumption.
    exists merged, i. split; [exact Hp|]. split; [exact Hin|].
    split; [|exact Hatt].
    rewrite Hprops. vm_compute. reflexivity.
  - destruct (Hf 2026%Z sample_truncated_statement sample_truncated_state
                [] sample_free [] Hl Hsf eq_refl Hf1 Hmov Hinf)
      as [d [f [Hp [Hin [_ [Hprops _]]]]]].
    exists d, f. split; [exact Hp|]. split; [exact Hin|].
    rewrite Hprops. vm_compute. reflexivity.
Defined.
